(** * The detection head of tf-faster-rcnn (faster_rcnn.py)

    A shallow embedding of the three Keras layers [RoIBBox], [RoIDelta] and
    [RoIPooling] and of [get_valid_predictions], with the TensorFlow
    operations they are written in.

    Tensors are rectangular nested lists in row-major order; the trailing
    axis of four coordinates of a box or a delta is a list of four scalars.
    Tensors that the code only reshapes are given by their row-major
    buffer.  An operation that raises in TensorFlow ([InvalidArgumentError]
    on a reshape to another element count, an index out of range in
    [tf.gather], [tf.gather_nd] or [tf.scatter_nd] as on the CPU kernels)
    returns [None].

    A float32 scalar of the graph is a pair of its forward value and of its
    tangent, the derivative that flows back through it; [tf.stop_gradient]
    keeps the value and clears the tangent.  The arithmetic of the values
    is a parameter. *)

From stdpp Require Import base option list numbers sets strings gmap.

#[local] Set Warnings "-clear-no-such-hyp,-register-all".

(** ** Row-major views *)

(** [shape(t)[0]] and [shape(t)[1]] of a rectangular tensor. *)
Definition shape0 {B} (t : list B) : nat := length t.
Definition shape1 {B} (t : list (list B)) : nat := from_option length 0 (head t).

(** A buffer of [d0 * d1] cells seen as [d0] rows of [d1] cells. *)
Definition rows_of {A} (d0 d1 : nat) (buf : list A) : list (list A) :=
  reshape (replicate d0 d1) buf.

(** [tf.reshape(t, (d0, d1))] on the buffer of [t]. *)
Definition reshape2 {A} (d0 d1 : nat) (buf : list A) : option (list (list A)) :=
  guard (length buf = d0 * d1);; Some (rows_of d0 d1 buf).

(** [tf.reshape(t, (d0, d1, d2))] on the buffer of [t]. *)
Definition reshape3 {A} (d0 d1 d2 : nat) (buf : list A)
  : option (list (list (list A))) :=
  guard (length buf = d0 * d1 * d2);;
  Some (rows_of d1 d2 <$> rows_of d0 (d1 * d2) buf).

(** [t[i]] for an int32 index: negative and too large indices raise. *)
Definition index {A} (l : list A) (i : Z) : option A :=
  guard (0 ≤ i)%Z;; l !! Z.to_nat i.

(** The nested list [t] is a tensor of shape [(length t, d1, d2)]. *)
Definition has_shape3 {A} (d1 d2 : nat) (t : list (list (list A))) : Prop :=
  Forall (λ row, length row = d1 ∧ Forall (λ cell, length cell = d2) row) t.

(** [t[b, i]] of a tensor of rows. *)
Definition slot {A} (t : list (list A)) (b i : nat) : option A :=
  row ← t !! b; row !! i.

(** [tf.gather(params, indices, batch_dims=1)]. *)
Definition gather {A} (params : list (list A)) (indices : list (list Z))
  : option (list (list A)) :=
  guard (length params = length indices);;
  mapM (λ pi, mapM (index pi.1) pi.2) (zip params indices).

(** [tf.concat([a, b], axis=1)]. *)
Definition concat_axis1 {A} (a b : list (list A)) : option (list (list A)) :=
  guard (length a = length b);; Some (zip_with app a b).

(** [tf.fill((d0, d1), x)]. *)
Definition fill {A} (d0 d1 : nat) (x : A) : list (list A) :=
  replicate d0 (replicate d1 x).

(** [tf.gather_nd(params, indices)] for [indices] of shape [(n, 2)]. *)
Definition index_nd {A} (params : list (list A)) (p : list Z) : option A :=
  match p with
  | [b; i] => row ← index params b; index row i
  | _ => None
  end.

Definition gather_nd {A} (params : list (list A)) (indices : list (list Z))
  : option (list A) :=
  mapM (index_nd params) indices.

(** An index tuple lies inside a tensor of the given shape. *)
Definition in_bounds (shape : list nat) (p : list Z) : Prop :=
  Forall2 (λ d i, (0 ≤ i < Z.of_nat d)%Z) shape p.

#[global] Instance in_bounds_dec shape p : Decision (in_bounds shape p).
Proof. unfold in_bounds. apply _. Defined.

(** What [tf.scatter_nd] leaves in the cell at [p]: the updates sent to
    [p], added in their order to the zero the cell starts from. *)
Definition scatter_cell {A} (zero : A) (add : A → A → A)
    (ups : list (list Z * A)) (p : list Z) : A :=
  foldl add zero (filter (λ u : list Z * A, u.1 = p) ups).*2.

(** [tf.scatter_nd(indices, updates, (d0, d1))], [indices] of shape
    [(n, 2)] and [updates] of [n] cells. *)
Definition scatter_nd2 {A} (zero : A) (add : A → A → A)
    (indices : list (list Z)) (updates : list A) (d0 d1 : nat)
  : option (list (list A)) :=
  guard (length indices = length updates);;
  guard (Forall (in_bounds [d0; d1]) indices);;
  let ups := zip indices updates in
  Some ((λ i, (λ c, scatter_cell zero add ups [Z.of_nat i; Z.of_nat c])
                <$> seq 0 d1) <$> seq 0 d0).

(** [tf.scatter_nd(indices, updates, (d0, d1, d2))], [indices] of shape
    [(m, n, 3)] and [updates] of [m] rows of [n] cells. *)
Definition scatter_nd3 {A} (zero : A) (add : A → A → A)
    (indices : list (list (list Z))) (updates : list (list A))
    (d0 d1 d2 : nat) : option (list (list (list A))) :=
  guard (Forall2 (λ i u, length i = length u) indices updates);;
  guard (Forall (in_bounds [d0; d1; d2]) (mjoin indices));;
  let ups := zip (mjoin indices) (mjoin updates) in
  Some ((λ b, (λ i, (λ c,
           scatter_cell zero add ups [Z.of_nat b; Z.of_nat i; Z.of_nat c])
             <$> seq 0 d2) <$> seq 0 d1) <$> seq 0 d0).

(** [tf.reshape(t, (d0, d1, d2 * 4))] of a tensor [t] of shape
    [(d0, d1, d2, 4)]: the element count is the same, the two last axes
    become one. *)
Definition merge_last_axes {A} (t : list (list (list (list A))))
  : list (list (list A)) :=
  (λ row : list (list (list A)), (λ cell : list (list A), mjoin cell) <$> row) <$> t.

(** [tf.concat(columns, 1)] of index columns of shape [(n, 1)]: the [n]
    index tuples. *)
Definition concat_columns (columns : list (list Z)) : option (list (list Z)) :=
  match columns with
  | [] => None
  | c :: _ =>
      guard (Forall (λ c', length c' = length c) columns);;
      Some ((λ k, (λ col : list Z, default 0%Z (col !! k)) <$> columns)
              <$> seq 0 (length c))
  end.

Global Arguments concat_columns : simpl never.

(** [tf.where(cond)] of a boolean matrix: the coordinates [[b, i]] of its
    true entries, in row-major order. *)
Fixpoint where_row (b i : nat) (row : list bool) : list (list Z) :=
  match row with
  | [] => []
  | c :: row' =>
      (if c then [[Z.of_nat b; Z.of_nat i]] else []) ++ where_row b (S i) row'
  end.

Fixpoint where_from (b : nat) (cond : list (list bool)) : list (list Z) :=
  match cond with
  | [] => []
  | row :: cond' => where_row b 0 row ++ where_from (S b) cond'
  end.

Definition where2 (cond : list (list bool)) : list (list Z) :=
  where_from 0 cond.

(** [tf.tile(tf.range(n), (k,))]. *)
Definition tile_range (n k : nat) : list Z :=
  mjoin (replicate k (Z.of_nat <$> seq 0 n)).

(** ** Scalars and boxes *)

(** The float32 values: their zero, their addition and their strict order. *)
Class Float (R : Type) := {
  rzero : R;
  radd : R → R → R;
  rltb : R → R → bool
}.

(** A scalar of the graph: its forward value and its tangent. *)
Record scalar (R : Type) := Scalar { primal : R; tangent : R }.
Arguments Scalar {R} _ _.
Arguments primal {R} _.
Arguments tangent {R} _.

(** The hyper-parameters the layers read. *)
Record hyper_params := HyperParams {
  total_pos_bboxes : nat;
  total_neg_bboxes : nat;
  nms_topn : nat;
  total_labels : nat;
  pooling_size : nat * nat
}.

(** [helpers.py] is not among the sources.  The geometry of one box (the
    decoding and encoding of deltas, the IoU of two boxes and its
    threshold, the bilinear crop of one image) and the sampling of
    [get_selected_indices] are parameters; the index bookkeeping of the
    module is modelled from the specification below. *)
Class Helpers (R : Type) := {
  decode : list (scalar R) → list (scalar R) → list (scalar R);
  encode : list (scalar R) → list (scalar R) → list (scalar R);
  iou : list (scalar R) → list (scalar R) → R;
  iou_threshold : R;
  crop_box :
    list (list (list (scalar R))) → list (scalar R) → nat * nat →
    list (list (list (scalar R)));
  get_selected_indices :
    list (list (list (scalar R))) → list (list (list (scalar R))) →
    nat → nat → list (list Z) * list (list Z) * list (list Z)
}.

Section faster_rcnn.
Context {R : Type} `{!Float R, !Helpers R}.
Local Abbreviation scalar := (scalar R).

Definition fzero : scalar := Scalar rzero rzero.
Definition fadd (x y : scalar) : scalar :=
  Scalar (radd (primal x) (primal y)) (radd (tangent x) (tangent y)).

(** [(y1, x1, y2, x2)], or a delta [(dy, dx, dh, dw)]. *)
Local Abbreviation Box := (list scalar).
Definition zero_box : Box := replicate 4 fzero.
Definition box_add (a b : Box) : Box := zip_with fadd a b.

(** [tf.zeros((d0, d1, 4), tf.float32)]. *)
Definition zeros (d0 d1 : nat) : list (list Box) := fill d0 d1 zero_box.

(** [tf.stop_gradient]: the forward value is kept, nothing flows back. *)
Definition stop_gradient_scalar (x : scalar) : scalar := Scalar (primal x) rzero.
Definition stop_gradient_box (b : Box) : Box := stop_gradient_scalar <$> b.
Definition stop_gradient (t : list (list Box)) : list (list Box) :=
  fmap (M:=list) stop_gradient_box <$> t.

(** ** The helpers module *)

(** Modelled from the spec: [helpers.get_bboxes_from_deltas] is missing.
    Section 4.2: reference boxes and deltas of one shape [(d0, d1, 4)]
    give the boxes of that shape, each decoded from its own reference box
    and delta. *)
Definition get_bboxes_from_deltas (refs deltas : list (list Box))
  : list (list Box) :=
  zip_with (zip_with decode) refs deltas.

(** Modelled from the spec: [helpers.non_max_suppression] is missing.
    Section 4.3, step 2, for the single foreground class: per image the
    candidates are ranked by score, highest first; a candidate is
    suppressed when its IoU with a kept candidate of higher rank exceeds
    the threshold; at most [max_output_size_per_class] and at most
    [max_total_size] survivors are kept, and the image is padded with
    zero boxes up to [max_total_size]. *)
Fixpoint insert_ranked (c : Box * scalar) (l : list (Box * scalar))
  : list (Box * scalar) :=
  match l with
  | [] => [c]
  | d :: l' =>
      if rltb (primal d.2) (primal c.2) then c :: d :: l'
      else d :: insert_ranked c l'
  end.

Definition rank_by_score (l : list (Box * scalar)) : list (Box * scalar) :=
  foldr insert_ranked [] l.

Definition suppressed_by (kept : list Box) (c : Box) : bool :=
  existsb (λ k, rltb iou_threshold (iou c k)) kept.

Fixpoint suppress (kept : list Box) (cands : list Box) : list Box :=
  match cands with
  | [] => []
  | c :: rest =>
      if suppressed_by kept c then suppress kept rest
      else c :: suppress (c :: kept) rest
  end.

(** No box of the list exceeds the threshold against a box before it. *)
Fixpoint no_overlap (l : list Box) : Prop :=
  match l with
  | [] => True
  | c :: l' => Forall (λ d, rltb iou_threshold (iou d c) = false) l' ∧ no_overlap l'
  end.

Definition nms_survivors (max_output_size_per_class max_total_size : nat)
    (boxes : list (list Box)) (scores : list (list scalar)) : list Box :=
  let ranked := rank_by_score (zip (mjoin boxes) (mjoin scores)) in
  take max_total_size (take max_output_size_per_class (suppress [] ranked.*1)).

Definition nms_image (max_output_size_per_class max_total_size : nat)
    (boxes : list (list Box)) (scores : list (list scalar)) : list Box :=
  let kept := nms_survivors max_output_size_per_class max_total_size boxes scores in
  kept ++ replicate (max_total_size - length kept) zero_box.

Definition non_max_suppression (pred_bboxes : list (list (list Box)))
    (pred_labels : list (list (list scalar)))
    (max_output_size_per_class max_total_size : nat) : list (list Box) :=
  zip_with (nms_image max_output_size_per_class max_total_size)
    pred_bboxes pred_labels.

(** ** RoIBBox *)

(** [RoIBBox.call] up to its suppression, lines 48 to 57: the tensor
    [nms_bboxes].  [rpn_bbox_deltas] and [rpn_labels] are the buffers of
    the tensors of shapes [(batch, h, w, anchor_count * 4)] and
    [(batch, h, w, anchor_count)]. *)
Definition RoIBBox_nms (hp : hyper_params)
    (rpn_bbox_deltas rpn_labels : list scalar) (anchors : list (list Box))
  : option (list (list Box)) :=
  let batch_size := shape0 anchors in
  let total_anchors := shape1 anchors in
  rpn_bbox_deltas ← reshape3 batch_size total_anchors 4 rpn_bbox_deltas;
  rpn_labels ← reshape3 batch_size total_anchors 1 rpn_labels;
  let rpn_bboxes := get_bboxes_from_deltas anchors rpn_bbox_deltas in
  rpn_bboxes ← reshape3 batch_size total_anchors 1 (mjoin rpn_bboxes);
  Some (non_max_suppression rpn_bboxes rpn_labels (nms_topn hp) (nms_topn hp)).

(** The candidates of the suppression, lines 48 to 54: the tensors
    [rpn_bboxes] and [rpn_labels] of one row of boxes and one row of scores
    per image. *)
Definition RoIBBox_rpn_bboxes
    (rpn_bbox_deltas rpn_labels : list scalar) (anchors : list (list Box))
  : option (list (list (list Box)) * list (list (list scalar))) :=
  let batch_size := shape0 anchors in
  let total_anchors := shape1 anchors in
  rpn_bbox_deltas ← reshape3 batch_size total_anchors 4 rpn_bbox_deltas;
  rpn_labels ← reshape3 batch_size total_anchors 1 rpn_labels;
  let rpn_bboxes := get_bboxes_from_deltas anchors rpn_bbox_deltas in
  rpn_bboxes ← reshape3 batch_size total_anchors 1 (mjoin rpn_bboxes);
  Some (rpn_bboxes, rpn_labels).

(** [RoIBBox.call].  The GT Index Map is an int32 tensor, on which
    [tf.stop_gradient] is the identity. *)
Definition RoIBBox_call (hp : hyper_params)
    (rpn_bbox_deltas rpn_labels : list scalar)
    (anchors gt_boxes : list (list Box))
  : option (list (list Box) * list (list Z)) :=
  let total_pos_bboxes := total_pos_bboxes hp in
  let total_neg_bboxes := total_neg_bboxes hp in
  let batch_size := shape0 anchors in
  nms_bboxes ← RoIBBox_nms hp rpn_bbox_deltas rpn_labels anchors;
  let '(pos_bbox_indices, neg_bbox_indices, gt_box_indices) :=
    get_selected_indices nms_bboxes gt_boxes total_pos_bboxes total_neg_bboxes in
  pos_roi_bboxes ← gather nms_bboxes pos_bbox_indices;
  let neg_roi_bboxes := zeros batch_size total_neg_bboxes in
  roi_bboxes ← concat_axis1 pos_roi_bboxes neg_roi_bboxes;
  Some (stop_gradient roi_bboxes, gt_box_indices).

(** ** RoIDelta *)

(** Modelled from the spec: [helpers.get_gt_boxes_map] is missing.
    Section 4.4, step 1: each positive slot gets the ground-truth box its
    entry of the GT Index Map selects; the [total_neg_bboxes] negative
    slots carry no box, they are the zero boxes of the Proposal Batch. *)
Definition get_gt_boxes_map (gt_boxes : list (list Box))
    (gt_box_indices : list (list Z)) (batch_size total_neg_bboxes : nat)
  : option (list (list Box)) :=
  pos_gt_boxes_map ← gather gt_boxes gt_box_indices;
  let neg_gt_boxes_map := zeros batch_size total_neg_bboxes in
  concat_axis1 pos_gt_boxes_map neg_gt_boxes_map.

(** A target box has an extent when [y1 < y2] or [x1 < x2]: the zero box
    of a negative slot has none. *)
Definition has_extent (gt_box : Box) : bool :=
  match gt_box with
  | [y1; x1; y2; x2] =>
      rltb (primal y1) (primal y2) || rltb (primal x1) (primal x2)
  | _ => true
  end.

(** Modelled from the spec: [helpers.get_deltas_from_bboxes] is missing.
    Section 4.4, step 2: boxes and targets of one shape give, slot by slot,
    [encode(proposal_box, matched_gt_box)]; a slot whose target is a
    placeholder without extent, as the zero box of a negative slot, gets
    the all-zero delta. *)
Definition target_delta (bbox gt_box : Box) : Box :=
  if has_extent gt_box then encode bbox gt_box else zero_box.

Definition get_deltas_from_bboxes (bboxes gt_boxes : list (list Box))
  : option (list (list Box)) :=
  guard (Forall2 (λ r g, length r = length g) bboxes gt_boxes);;
  Some (zip_with (zip_with target_delta) bboxes gt_boxes).

(** Modelled from the spec: [helpers.get_tiled_indices] is missing.
    Sections 4.5 and 9: the flat column of [batch_size * row_size] image
    indices, the index [b] of an image for each of its [row_size] slots. *)
Definition get_tiled_indices (batch_size row_size : nat) : list Z :=
  mjoin ((λ b, replicate row_size (Z.of_nat b)) <$> seq 0 batch_size).

(** Modelled from the spec: [helpers.get_scatter_indices_for_bboxes] is
    missing.  Sections 4.4, step 3, and 9: the flat index columns are put
    side by side, one index tuple per slot, in the layout
    [(batch_size, total_bboxes, number of columns)]. *)
Definition get_scatter_indices_for_bboxes (flatted_indices : list (list Z))
    (batch_size total_bboxes : nat) : option (list (list (list Z))) :=
  scatter_indices ← concat_columns flatted_indices;
  reshape2 batch_size total_bboxes scatter_indices.

(** The label of every slot: lines 102 to 104 of [RoIDelta.call]. *)
Definition gt_labels_map (hp : hyper_params) (batch_size : nat)
    (gt_labels gt_box_indices : list (list Z)) : option (list (list Z)) :=
  pos_gt_labels_map ← gather gt_labels gt_box_indices;
  let neg_gt_labels_map :=
    fill batch_size (total_neg_bboxes hp) (Z.of_nat (total_labels hp) - 1)%Z in
  concat_axis1 pos_gt_labels_map neg_gt_labels_map.

(** The delta of every slot before the scatter: lines 100 and 106. *)
Definition roi_deltas (hp : hyper_params) (roi_bboxes gt_boxes : list (list Box))
    (gt_box_indices : list (list Z)) : option (list (list Box)) :=
  let batch_size := shape0 roi_bboxes in
  gt_boxes_map ←
    get_gt_boxes_map gt_boxes gt_box_indices batch_size (total_neg_bboxes hp);
  get_deltas_from_bboxes roi_bboxes gt_boxes_map.

(** [RoIDelta.call].  [tf.scatter_nd] into the shape
    [(batch_size, total_bboxes, total_labels, 4)] wants updates of shape
    [(batch_size, total_bboxes, 4)]: the cells of the first scatter are
    deltas of four scalars.  The labels are an int32 tensor, on which
    [tf.stop_gradient] is the identity. *)
Definition RoIDelta_call (hp : hyper_params)
    (roi_bboxes gt_boxes : list (list Box))
    (gt_labels gt_box_indices : list (list Z))
  : option (list (list (list scalar)) * list (list (list Z))) :=
  let total_labels := total_labels hp in
  let total_bboxes := total_pos_bboxes hp + total_neg_bboxes hp in
  let batch_size := shape0 roi_bboxes in
  gt_labels_map ← gt_labels_map hp batch_size gt_labels gt_box_indices;
  roi_bbox_deltas ← roi_deltas hp roi_bboxes gt_boxes gt_box_indices;
  let flatted_batch_indices := get_tiled_indices batch_size total_bboxes in
  let flatted_bbox_indices := tile_range total_bboxes batch_size in
  let flatted_gt_labels_indices := mjoin gt_labels_map in
  scatter_indices ←
    get_scatter_indices_for_bboxes
      [flatted_batch_indices; flatted_bbox_indices; flatted_gt_labels_indices]
      batch_size total_bboxes;
  guard (Forall (Forall (λ d : Box, length d = 4)) roi_bbox_deltas);;
  roi_bbox_deltas ←
    scatter_nd3 zero_box box_add scatter_indices roi_bbox_deltas
      batch_size total_bboxes total_labels;
  let roi_bbox_deltas := merge_last_axes roi_bbox_deltas in
  roi_bbox_labels ←
    scatter_nd3 0%Z Z.add scatter_indices (fill batch_size total_bboxes 1%Z)
      batch_size total_bboxes total_labels;
  Some (stop_gradient roi_bbox_deltas, roi_bbox_labels).

(** ** RoIPooling *)

(** The images of a batch have a positive height and a positive width. *)
Definition positive_image_dims (image : list (list (list Box))) : Prop :=
  Forall (λ img, 0 < length img ∧ Forall (λ row : list Box, 0 < length row) img)
         image.

(** The crop size is a pair of positive int32 values. *)
Definition positive_crop_size (crop_size : nat * nat) : Prop :=
  (0 < Z.of_nat crop_size.1 < 2 ^ 31)%Z ∧ (0 < Z.of_nat crop_size.2 < 2 ^ 31)%Z.

#[global] Instance positive_image_dims_dec image :
  Decision (positive_image_dims image).
Proof. unfold positive_image_dims. apply _. Defined.

#[global] Instance positive_crop_size_dec crop_size :
  Decision (positive_crop_size crop_size).
Proof. unfold positive_crop_size. apply _. Defined.

(** [tf.image.crop_and_resize(image, boxes, box_indices, crop_size)]: the
    box [k] is cropped from the image [box_indices[k]] of the batch and
    from no other.  The kernel refuses an image of height or width 0 and a
    crop of height or width 0, whatever the number of boxes. *)
Definition crop_and_resize (image : list (list (list Box)))
    (boxes : list Box) (box_indices : list Z) (crop_size : nat * nat)
  : option (list (list (list (list scalar)))) :=
  guard (positive_image_dims image);;
  guard (length boxes = length box_indices);;
  guard (positive_crop_size crop_size);;
  mapM (λ bi, img ← index image bi.2; Some (crop_box img bi.1 crop_size))
       (zip boxes box_indices).

(** [RoIPooling.call]. *)
Definition RoIPooling_call (hp : hyper_params)
    (feature_map : list (list (list Box))) (roi_bboxes : list (list Box))
  : option (list (list (list (list (list scalar))))) :=
  let total_bboxes := total_pos_bboxes hp + total_neg_bboxes hp in
  let batch_size := shape0 roi_bboxes in
  let row_size := batch_size * total_bboxes in
  let flatted_batch_indices := get_tiled_indices batch_size total_bboxes in
  let pooling_bbox_indices := flatted_batch_indices in
  pooling_bboxes ← reshape2 row_size 4 (mjoin (mjoin roi_bboxes));
  pooling_feature_map ←
    crop_and_resize feature_map pooling_bboxes pooling_bbox_indices
      (pooling_size hp);
  reshape2 batch_size total_bboxes pooling_feature_map.

(** ** get_valid_predictions *)

(** [tf.argmax] of one row: the first index of the largest value. *)
Fixpoint argmax_from (best : R) (best_index i : nat) (l : list scalar) : nat :=
  match l with
  | [] => best_index
  | x :: l' =>
      if rltb best (primal x) then argmax_from (primal x) i (S i) l'
      else argmax_from best best_index (S i) l'
  end.

Definition argmax (row : list scalar) : option Z :=
  match row with
  | [] => None
  | x :: l => Some (Z.of_nat (argmax_from (primal x) 0 1 l))
  end.

(** [tf.argmax(t, 2, output_type=tf.int32)]. *)
Definition argmax_axis2 (t : list (list (list scalar))) : option (list (list Z)) :=
  mapM (mapM argmax) t.

(** The proposals the decoder keeps: their arg-max class is not the class
    [total_labels - 1]. *)
Definition not_background (total_labels : nat) (scores : list scalar) : Prop :=
  argmax scores ≠ Some (Z.of_nat total_labels - 1)%Z.

#[global] Instance not_background_dec total_labels scores :
  Decision (not_background total_labels scores).
Proof. unfold not_background. apply _. Defined.

(** [get_valid_predictions].  [tf.scatter_nd] into the shape
    [(total_valid_bboxes, total_labels, 4)] wants updates of shape
    [(total_valid_bboxes, 4)]. *)
Definition get_valid_predictions (roi_bboxes : list (list Box))
    (frcnn_delta_pred frcnn_label_pred : list (list (list scalar)))
    (total_labels : nat)
  : option (list (list (list Box)) * list (list (list scalar))) :=
  pred_labels_map ← argmax_axis2 frcnn_label_pred;
  let valid_label_indices :=
    where2 (fmap (M:=list)
              (λ l, bool_decide (l ≠ (Z.of_nat total_labels - 1)%Z))
              <$> pred_labels_map) in
  let total_valid_bboxes := length valid_label_indices in
  valid_roi_bboxes ← gather_nd roi_bboxes valid_label_indices;
  valid_deltas ← gather_nd frcnn_delta_pred valid_label_indices;
  valid_deltas ← reshape3 total_valid_bboxes total_labels 4 (mjoin valid_deltas);
  valid_labels ← gather_nd frcnn_label_pred valid_label_indices;
  valid_labels_map ← gather_nd pred_labels_map valid_label_indices;
  let flatted_bbox_indices := Z.of_nat <$> seq 0 total_valid_bboxes in
  let flatted_labels_indices := valid_labels_map in
  scatter_indices ← concat_columns [flatted_bbox_indices; flatted_labels_indices];
  scatter_indices ← reshape2 total_valid_bboxes 2 (mjoin scatter_indices);
  guard (Forall (λ b : Box, length b = 4) valid_roi_bboxes);;
  valid_roi_bboxes ←
    scatter_nd2 zero_box box_add scatter_indices valid_roi_bboxes
      total_valid_bboxes total_labels;
  let valid_pred_bboxes := get_bboxes_from_deltas valid_roi_bboxes valid_deltas in
  Some ([valid_pred_bboxes], [valid_labels]).

(** The row of boxes of one proposal whose arg-max class is [c]: the box
    of the proposal in the column [c] and the zero box in every other
    column, each decoded with the slice of its column of the deltas of the
    proposal. *)
Definition decoded_row (total_labels : nat) (box : Box) (deltas : list scalar)
    (c : Z) : list Box :=
  zip_with decode (<[Z.to_nat c := box]> (replicate total_labels zero_box))
    (rows_of total_labels 4 deltas).

(** The Inference Decoder proposal by proposal, to compare
    [get_valid_predictions] with: the proposals of the batch in row-major
    order, each with its box, its deltas and its scores; those whose
    arg-max class is not the class [total_labels - 1]; and for each of
    them its row of boxes and its row of scores. *)
Definition decoded_survivors (roi_bboxes : list (list Box))
    (frcnn_delta_pred frcnn_label_pred : list (list (list scalar)))
    (total_labels : nat)
  : list (list (list Box)) * list (list (list scalar)) :=
  let proposals :=
    zip (zip (mjoin roi_bboxes) (mjoin frcnn_delta_pred))
        (mjoin frcnn_label_pred) in
  let survivors :=
    filter (λ p, not_background total_labels p.2) proposals in
  ([(λ p, decoded_row total_labels p.1.1 p.1.2 (default 0%Z (argmax p.2)))
      <$> survivors],
   [snd <$> survivors]).

End faster_rcnn.

(** ** get_dummy_initializer *)

(** The element types of the tensors of the model. *)
Inductive dtype := float32 | int32.

#[global] Instance dtype_eq_dec : EqDecision dtype.
Proof. solve_decision. Defined.

(** The dictionary [hyper_params] as the model builder reads it: the
    entries the layers read, and the Python integers under ["stride"] and
    ["anchor_count"]. *)
Record model_params := ModelParams {
  layer_params :> hyper_params;
  stride : Z;
  anchor_count : Z
}.

#[global] Instance hyper_params_eq_dec : EqDecision hyper_params.
Proof. solve_decision. Defined.

#[global] Instance model_params_eq_dec : EqDecision model_params.
Proof. solve_decision. Defined.

(** A tensor of random values: its shape and its element type.  The
    values are drawn at random and are not modelled. *)
Record tensor_spec := TensorSpec { tensor_shape : list Z; tensor_dtype : dtype }.

(** [tf.size]: the number of elements of a shape. *)
Definition numel (shape : list Z) : Z := foldr Z.mul 1%Z shape.

(** [tf.random.uniform(shape)]: a negative dimension raises. *)
Definition random_uniform (shape : list Z) : option tensor_spec :=
  guard (Forall (λ d, (0 ≤ d)%Z) shape);; Some (TensorSpec shape float32).

(** [tf.random.uniform(shape, maxval=maxval, dtype=tf.int32)]: a negative
    dimension raises; [maxval] is converted to an int32 tensor, which
    raises outside the int32 range; and a tensor with an element to draw
    raises when [maxval] is not above the [minval] of zero. *)
Definition random_uniform_int (shape : list Z) (maxval : Z) : option tensor_spec :=
  guard (Forall (λ d, (0 ≤ d)%Z) shape);;
  guard (- 2 ^ 31 ≤ maxval < 2 ^ 31)%Z;;
  guard (numel shape ≠ 0%Z → (0 < maxval)%Z);;
  Some (TensorSpec shape int32).

(** [get_dummy_initializer].  [helpers.VOC] is not among the sources: its
    entries ["max_height"] and ["max_width"] are the two first arguments.
    [//] on Python integers is the floored division [Z.div], and raises on
    a zero divisor.  The tuple that is returned is the list of its
    tensors. *)
Definition get_dummy_initializer (VOC_max_height VOC_max_width : Z)
    (hyper_params : model_params) (mode : string) : option (list tensor_spec) :=
  let '(final_height, final_width) := (VOC_max_height, VOC_max_width) in
  img ← random_uniform [1; final_height; final_width; 3]%Z;
  guard (stride hyper_params ≠ 0%Z);;
  let '(output_height, output_width) :=
    ((final_height `div` stride hyper_params)%Z,
     (final_width `div` stride hyper_params)%Z) in
  let total_anchors :=
    (output_height * output_width * anchor_count hyper_params)%Z in
  anchors ← random_uniform [1; total_anchors; 4]%Z;
  gt_boxes ← random_uniform [1; 1; 4]%Z;
  if decide (mode ≠ "training") then Some [img; anchors; gt_boxes] else
  gt_labels ←
    random_uniform_int [1; 1]%Z (Z.of_nat (total_labels hyper_params));
  bbox_deltas ←
    random_uniform
      [1; output_height; output_width; anchor_count hyper_params * 4]%Z;
  bbox_labels ←
    random_uniform_int
      [1; output_height; output_width; anchor_count hyper_params]%Z
      (Z.of_nat (total_labels hyper_params));
  Some [img; anchors; gt_boxes; gt_labels; bbox_deltas; bbox_labels].

(** ** get_model *)

(** The layers [get_model] creates, with the arguments of their
    constructors.  [Dropout(0.2)] is [Dropout 20], a rate in percent;
    [Lambda] holds the name of a function of [helpers]; [Backbone] stands
    for the layers of the models [get_model] is given. *)
Inductive layer_config :=
  | InputLayer (shape : list (option Z)) (dt : dtype)
  | RoIBBox (hyper_params : model_params)
  | RoIDelta (hyper_params : model_params)
  | RoIPooling (hyper_params : model_params)
  | Flatten
  | Dense (units : nat) (activation : string)
  | BatchNormalization
  | Dropout (rate_percent : nat)
  | TimeDistributed (layer : layer_config)
  | Lambda (function : string)
  | Backbone (description : string).

#[global] Instance layer_config_eq_dec : EqDecision layer_config.
Proof. solve_decision. Defined.

(** A layer object: what it was constructed from, and its [name]. *)
Record layer := Layer { config_of : layer_config; layer_name : string }.

#[global] Instance layer_eq_dec : EqDecision layer.
Proof. solve_decision. Defined.

(** A symbolic tensor of the functional API, with its history: the output
    [k] of the call of a layer on a list of tensors. *)
Inductive tensor := layer_output (l : layer) (args : list tensor) (k : nat).

#[global] Instance tensor_eq_dec : EqDecision tensor.
Proof.
  refine (fix go (s t : tensor) {struct s} : Decision (s = t) :=
    match s, t with
    | layer_output l a k, layer_output l' a' k' =>
        cast_if_and3 (decide (l = l')) (decide (k = k'))
          (@list_eq_dec _ go a a')
    end); congruence.
Defined.

Definition tensor_layer (t : tensor) : layer :=
  match t with layer_output l _ _ => l end.

(** [layer(inputs)] for a layer with one output, and for a layer whose
    [call] returns two tensors. *)
Definition call (l : layer) (inputs : list tensor) : tensor :=
  layer_output l inputs 0.
Definition call2 (l : layer) (inputs : list tensor) : tensor * tensor :=
  (layer_output l inputs 0, layer_output l inputs 1).

(** [tf.keras.Input(shape, name, dtype)]: the output of an input layer;
    [None] is a dimension left open, and the batch dimension is not part
    of [shape]. *)
Definition Input (shape : list (option Z)) (name : string) (dt : dtype) : tensor :=
  call (Layer (InputLayer shape dt) name) [].

Definition is_input (l : layer) : Prop :=
  match config_of l with InputLayer _ _ => True | _ => False end.

#[global] Instance is_input_dec l : Decision (is_input l).
Proof. unfold is_input. destruct (config_of l); apply _. Defined.

(** The calls of layers a tensor is computed by: its own, then those of
    its arguments. *)
Fixpoint graph_nodes (t : tensor) : list (layer * list tensor) :=
  match t with
  | layer_output l args _ => (l, args) :: (args ≫= graph_nodes)
  end.

(** A functional model: its inputs and outputs, and the losses and
    metrics added to it. *)
Record keras_model := KerasModel {
  model_inputs : list tensor;
  model_outputs : list tensor;
  model_losses : list tensor;
  model_metrics : list (string * tensor * string)
}.

Definition model_nodes (model : keras_model) : list (layer * list tensor) :=
  (model_inputs model ++ model_outputs model) ≫= graph_nodes.

(** Two calls of layers of one name are calls of one layer. *)
Definition unique_names (nodes : list (layer * list tensor)) : Prop :=
  Forall (λ n : layer * list tensor,
    Forall (λ n' : layer * list tensor,
      layer_name n.1 = layer_name n'.1 → n.1 = n'.1) nodes) nodes.

#[global] Instance unique_names_dec nodes : Decision (unique_names nodes).
Proof. unfold unique_names. apply _. Defined.

(** [Model(inputs=inputs, outputs=outputs)].  The inputs are outputs of
    input layers; every input layer the outputs are computed from is among
    them (or the graph is disconnected); and two layers of the model have
    two names. *)
Definition Model (inputs outputs : list tensor) : option keras_model :=
  guard (Forall (λ t, is_input (tensor_layer t)) inputs);;
  guard (Forall (λ n : layer * list tensor,
           is_input n.1 → n.1 ∈ tensor_layer <$> inputs)
         (outputs ≫= graph_nodes));;
  guard (unique_names ((inputs ++ outputs) ≫= graph_nodes));;
  Some (KerasModel inputs outputs [] []).

(** [model.input] and [model.output] of a model with one input and one
    output, [model.output] of a model with two outputs. *)
Definition model_input (model : keras_model) : option tensor :=
  match model_inputs model with [t] => Some t | _ => None end.
Definition model_output (model : keras_model) : option tensor :=
  match model_outputs model with [t] => Some t | _ => None end.
Definition model_output2 (model : keras_model) : option (tensor * tensor) :=
  match model_outputs model with [t; u] => Some (t, u) | _ => None end.

(** [model.get_layer(name)]: the first layer of that name. *)
Definition get_layer (model : keras_model) (name : string) : option layer :=
  head (filter (λ l, layer_name l = name) (model_nodes model).*1).

(** [layer.output]: the output of the one call of the layer; a layer that
    was called on several lists of tensors has none. *)
Definition output_of (model : keras_model) (l : layer) : option tensor :=
  match
    remove_dups (filter (λ n : layer * list tensor, n.1 = l)
                   (model_nodes model)).*2
  with
  | [args] => Some (call l args)
  | _ => None
  end.

Definition add_loss (model : keras_model) (loss : tensor) : keras_model :=
  KerasModel (model_inputs model) (model_outputs model)
    (model_losses model ++ [loss]) (model_metrics model).

Definition add_metric (model : keras_model) (value : tensor)
    (name aggregation : string) : keras_model :=
  KerasModel (model_inputs model) (model_outputs model) (model_losses model)
    (model_metrics model ++ [(name, value, aggregation)]).

(** A dimension of an input admits a dimension of a tensor. *)
Definition dim_admits (d : option Z) (n : Z) : Prop :=
  match d with Some d' => d' = n | None => True end.

#[global] Instance dim_admits_dec d n : Decision (dim_admits d n).
Proof. destruct d; simpl; apply _. Defined.

(** The input [input] of a model admits the tensor [x]: the shape of [x]
    fits the shape of the input after the batch dimension. *)
Definition admits (input : tensor) (x : tensor_spec) : Prop :=
  match config_of (tensor_layer input) with
  | InputLayer shape _ => Forall2 dim_admits (None :: shape) (tensor_shape x)
  | _ => False
  end.

#[global] Instance admits_dec input x : Decision (admits input x).
Proof. unfold admits. destruct (config_of _); apply _. Defined.

(** The forward pass of a model on tensors bound to its inputs: the [call]
    of every layer of the graph is run, those of the backbone and of the
    RPN among them, on values drawn at random.  Whether it raises is a
    parameter of the model builder. *)
Class ForwardPass := {
  forward_pass : keras_model → list tensor_spec → option ()
}.

(** [model(xs)]: the tensors are bound to the inputs of the model, one
    each, and the forward pass is run on them. *)
Definition call_model {fp : ForwardPass} (model : keras_model)
    (xs : list tensor_spec) : option () :=
  guard (Forall2 admits (model_inputs model) xs);; forward_pass model xs.

(** The body of the loop over [loss_names]. *)
Definition register_loss (frcnn_model : keras_model) (layer_name : string)
  : option keras_model :=
  layer ← get_layer frcnn_model layer_name;
  output ← output_of frcnn_model layer;
  let frcnn_model := add_loss frcnn_model output in
  Some (add_metric frcnn_model output layer_name "mean").

(** [get_model], with the two entries of [helpers.VOC] that
    [get_dummy_initializer] reads. *)
Definition get_model {fp : ForwardPass} (VOC_max_height VOC_max_width : Z)
    (base_model rpn_model : keras_model) (hyper_params : model_params)
    (mode : string) : option keras_model :=
  input_img ← model_input base_model;
  '(rpn_reg_predictions, rpn_cls_predictions) ← model_output2 rpn_model;
  let input_anchors := Input [None; Some 4%Z] "input_anchors" float32 in
  let input_gt_boxes := Input [None; Some 4%Z] "input_gt_boxes" float32 in
  let '(roi_bboxes, gt_box_indices) :=
    call2 (Layer (RoIBBox hyper_params) "roi_bboxes")
      [rpn_reg_predictions; rpn_cls_predictions; input_anchors; input_gt_boxes] in
  base_model_output ← model_output base_model;
  let roi_pooled :=
    call (Layer (RoIPooling hyper_params) "roi_pooling")
      [base_model_output; roi_bboxes] in
  let output :=
    call (Layer (TimeDistributed Flatten) "frcnn_flatten") [roi_pooled] in
  let output :=
    call (Layer (TimeDistributed (Dense 4096 "relu")) "frcnn_fc1") [output] in
  let output :=
    call (Layer (TimeDistributed BatchNormalization) "frcnn_batch_norm1")
      [output] in
  let output :=
    call (Layer (TimeDistributed (Dropout 20)) "frcnn_dropout1") [output] in
  let output :=
    call (Layer (TimeDistributed (Dense 2048 "relu")) "frcnn_fc2") [output] in
  let output :=
    call (Layer (TimeDistributed BatchNormalization) "frcnn_batch_norm2")
      [output] in
  let output :=
    call (Layer (TimeDistributed (Dropout 20)) "frcnn_dropout2") [output] in
  let frcnn_cls_predictions :=
    call (Layer (TimeDistributed
                   (Dense (total_labels hyper_params) "softmax")) "frcnn_cls")
      [output] in
  let frcnn_reg_predictions :=
    call (Layer (TimeDistributed
                   (Dense (total_labels hyper_params * 4) "linear")) "frcnn_reg")
      [output] in
  frcnn_model ←
    (if decide (mode = "training") then
       let rpn_cls_actuals :=
         Input [None; None; Some (anchor_count hyper_params)]
           "input_rpn_cls_actuals" int32 in
       let rpn_reg_actuals :=
         Input [None; None; Some (anchor_count hyper_params * 4)%Z]
           "input_rpn_reg_actuals" float32 in
       let input_gt_labels := Input [None] "input_gt_labels" int32 in
       let '(frcnn_reg_actuals, frcnn_cls_actuals) :=
         call2 (Layer (RoIDelta hyper_params) "roi_deltas")
           [roi_bboxes; input_gt_boxes; input_gt_labels; gt_box_indices] in
       let loss_names :=
         ["rpn_reg_loss"; "rpn_cls_loss"; "frcnn_reg_loss"; "frcnn_cls_loss"] in
       let rpn_reg_loss_layer :=
         call (Layer (Lambda "reg_loss") "rpn_reg_loss")
           [rpn_reg_actuals; rpn_reg_predictions] in
       let rpn_cls_loss_layer :=
         call (Layer (Lambda "rpn_cls_loss") "rpn_cls_loss")
           [rpn_cls_actuals; rpn_cls_predictions] in
       let frcnn_reg_loss_layer :=
         call (Layer (Lambda "reg_loss") "frcnn_reg_loss")
           [frcnn_reg_actuals; frcnn_reg_predictions] in
       let frcnn_cls_loss_layer :=
         call (Layer (Lambda "frcnn_cls_loss") "frcnn_cls_loss")
           [frcnn_cls_actuals; frcnn_cls_predictions] in
       frcnn_model ←
         Model [input_img; input_anchors; input_gt_boxes; input_gt_labels;
                rpn_reg_actuals; rpn_cls_actuals]
               [roi_bboxes; rpn_reg_predictions; rpn_cls_predictions;
                frcnn_reg_predictions; frcnn_cls_predictions;
                rpn_reg_loss_layer; rpn_cls_loss_layer;
                frcnn_reg_loss_layer; frcnn_cls_loss_layer];
       foldl (λ frcnn_model layer_name,
                frcnn_model ← frcnn_model; register_loss frcnn_model layer_name)
         (Some frcnn_model) loss_names
     else
       Model [input_img; input_anchors; input_gt_boxes]
             [roi_bboxes; rpn_reg_predictions; rpn_cls_predictions;
              frcnn_reg_predictions; frcnn_cls_predictions]);
  dummy_initializer ←
    get_dummy_initializer VOC_max_height VOC_max_width hyper_params mode;
  call_model frcnn_model dummy_initializer;;
  Some frcnn_model.

Global Arguments Model : simpl never.
Global Arguments get_dummy_initializer : simpl never.
Global Arguments call_model : simpl never.
Global Arguments register_loss : simpl never.

(** ** generator *)

Section generator.
Context {T processor : Type}.

(** [rpn.py] is not among the sources: [rpn.get_step_data] is a parameter.
    [T] is the type of the tensors of a batch. *)
Context (get_step_data :
  T * T * T → model_params → processor → T * T * T * T).

(** What the body of the [for] loop yields for one batch: the inputs of
    the training model, and the empty tuple of its outputs. *)
Definition yield_of (hyper_params : model_params) (input_processor : processor)
    (image_data : T * T * T) : (T * T * T * T * T * T) * () :=
  let '(_, gt_boxes, gt_labels) := image_data in
  let '(input_img, bbox_deltas, bbox_labels, anchors) :=
    get_step_data image_data hyper_params input_processor in
  ((input_img, anchors, gt_boxes, gt_labels, bbox_deltas, bbox_labels), ()).

(** A generator between two resumptions: its arguments, and the batches
    the [for] loop has still to visit.  A dataset is the finite sequence of
    batches a pass over it gives, the same at every pass. *)
Record generator_state := GeneratorState {
  dataset : list (T * T * T);
  hyper_params_of : model_params;
  input_processor_of : processor;
  rest : list (T * T * T)
}.

(** [generator(dataset, hyper_params, input_processor)]: nothing has run
    yet, the first [for] loop is about to start. *)
Definition generator (dataset : list (T * T * T)) (hyper_params : model_params)
    (input_processor : processor) : generator_state :=
  GeneratorState dataset hyper_params input_processor dataset.

(** One turn of the loops: the [for] loop visits its next batch and
    yields, or it is exhausted and [while True] starts it again. *)
Definition generator_step (g : generator_state)
  : option ((T * T * T * T * T * T) * ()) * generator_state :=
  match rest g with
  | image_data :: rest' =>
      (Some (yield_of (hyper_params_of g) (input_processor_of g) image_data),
       GeneratorState (dataset g) (hyper_params_of g) (input_processor_of g) rest')
  | [] =>
      (None,
       GeneratorState (dataset g) (hyper_params_of g) (input_processor_of g)
         (dataset g))
  end.

(** [next(g)]: the generator runs up to its next [yield]; [fuel] bounds
    the turns of the loops. *)
Fixpoint next (fuel : nat) (g : generator_state)
  : option ((T * T * T * T * T * T) * () * generator_state) :=
  match fuel with
  | 0 => None
  | S fuel' =>
      match generator_step g with
      | (Some item, g') => Some (item, g')
      | (None, g') => next fuel' g'
      end
  end.

(** The first [k] items of the generator, each within [fuel] turns. *)
Fixpoint take_items (fuel k : nat) (g : generator_state)
  : list ((T * T * T * T * T * T) * ()) :=
  match k with
  | 0 => []
  | S k' =>
      match next fuel g with
      | Some (item, g') => item :: take_items fuel k' g'
      | None => []
      end
  end.
End generator.

(** ** __init__ and get_config *)

Section layer_config.
Context {base value : Type}.

(** [tf.keras.layers.Layer] is a parameter: its constructor from keyword
    arguments, which raises on a keyword it does not know, and its
    [get_config]. *)
Context (Layer_init : gmap string value → option base).
Context (Layer_get_config : base → gmap string value).

(** An object of one of the three classes: the object of the base class,
    and the attribute [hyper_params]. *)
Record hyper_layer := HyperLayer { layer_base : base; self_hyper_params : value }.

Definition RoIBBox_init (hyper_params : value) (kwargs : gmap string value)
  : option hyper_layer :=
  self ← Layer_init kwargs; Some (HyperLayer self hyper_params).

Definition RoIBBox_get_config (self : hyper_layer) : gmap string value :=
  let config := Layer_get_config (layer_base self) in
  <["hyper_params" := self_hyper_params self]> config.

Definition RoIDelta_init (hyper_params : value) (kwargs : gmap string value)
  : option hyper_layer :=
  self ← Layer_init kwargs; Some (HyperLayer self hyper_params).

Definition RoIDelta_get_config (self : hyper_layer) : gmap string value :=
  let config := Layer_get_config (layer_base self) in
  <["hyper_params" := self_hyper_params self]> config.

Definition RoIPooling_init (hyper_params : value) (kwargs : gmap string value)
  : option hyper_layer :=
  self ← Layer_init kwargs; Some (HyperLayer self hyper_params).

Definition RoIPooling_get_config (self : hyper_layer) : gmap string value :=
  let config := Layer_get_config (layer_base self) in
  <["hyper_params" := self_hyper_params self]> config.

(** The class called with the entries of [config] as keywords, by which
    Keras rebuilds a layer from its configuration: the entry
    ["hyper_params"] is bound to the first parameter of [__init__] and the
    other entries are its [kwargs]; a configuration without that entry
    raises. *)
Definition from_config
    (init : value → gmap string value → option hyper_layer)
    (config : gmap string value) : option hyper_layer :=
  hyper_params ← config !! "hyper_params";
  init hyper_params (delete "hyper_params" config).
End layer_config.

(** ** An instance over the integers

    Coordinates in hundredths, with a geometry kernel in exact integer
    arithmetic, used to run the layers on small batches. *)

#[global] Instance Z_float : Float Z :=
  {| rzero := 0%Z; radd := Z.add; rltb := Z.ltb |}.

Definition Z_corners (b : list (scalar Z)) : option (Z * Z * Z * Z) :=
  match b with
  | [y1; x1; y2; x2] => Some (primal y1, primal x1, primal y2, primal x2)
  | _ => None
  end.

Definition Z_area (c : Z * Z * Z * Z) : Z :=
  let '(y1, x1, y2, x2) := c in ((y2 - y1) * (x2 - x1))%Z.

Definition Z_intersection (c d : Z * Z * Z * Z) : Z :=
  let '(y1, x1, y2, x2) := c in
  let '(y1', x1', y2', x2') := d in
  (Z.max 0 (Z.min y2 y2' - Z.max y1 y1')
   * Z.max 0 (Z.min x2 x2' - Z.max x1 x1'))%Z.

(** The IoU of two boxes, in percent. *)
Definition Z_iou (a b : list (scalar Z)) : Z :=
  match Z_corners a, Z_corners b with
  | Some c, Some d =>
      let inter := Z_intersection c d in
      (100 * inter / (Z_area c + Z_area d - inter))%Z
  | _, _ => 0%Z
  end.

Definition Z_decode (ref delta : list (scalar Z)) : list (scalar Z) :=
  zip_with fadd ref delta.

Definition Z_encode (ref target : list (scalar Z)) : list (scalar Z) :=
  zip_with (λ r t, Scalar (primal t - primal r)%Z (tangent t - tangent r)%Z)
    ref target.

(** A crop of one image: the features at the corner of the box, the image
    being indexed by the integer part of the coordinates. *)
Definition Z_crop_box (img : list (list (list (scalar Z))))
    (box : list (scalar Z)) (crop_size : nat * nat)
  : list (list (list (scalar Z))) :=
  let pixel :=
    match box with
    | y1 :: x1 :: _ =>
        default [] (slot img (Z.to_nat (primal y1 / 100))
                             (Z.to_nat (primal x1 / 100)))
    | _ => []
    end in
  replicate crop_size.1 (replicate crop_size.2 pixel).

(** A sampler: the first [total_pos_bboxes] survivors are the positives,
    the next [total_neg_bboxes] the negatives, and each positive is
    matched to the ground-truth box it overlaps most. *)
Definition Z_best_gt (gt : list (list (scalar Z))) (box : list (scalar Z)) : Z :=
  default 0%Z (argmax ((λ g, Scalar (Z_iou box g) 0%Z) <$> gt)).

Definition Z_get_selected_indices (bboxes gt_boxes : list (list (list (scalar Z))))
    (total_pos_bboxes total_neg_bboxes : nat)
  : list (list Z) * list (list Z) * list (list Z) :=
  (replicate (length bboxes) (Z.of_nat <$> seq 0 total_pos_bboxes),
   replicate (length bboxes) (Z.of_nat <$> seq total_pos_bboxes total_neg_bboxes),
   zip_with (λ boxes gt, Z_best_gt gt <$> take total_pos_bboxes boxes)
     bboxes gt_boxes).

#[global] Instance Z_helpers : Helpers Z :=
  {| decode := Z_decode; encode := Z_encode; iou := Z_iou;
     iou_threshold := 50%Z; crop_box := Z_crop_box;
     get_selected_indices := Z_get_selected_indices |}.

(** A sampler that finds no positive proposal: it selects no index, and
    the first [total_neg_bboxes] entries as negatives. *)
Definition Z_no_positive_indices
    (bboxes gt_boxes : list (list (list (scalar Z))))
    (total_pos_bboxes total_neg_bboxes : nat)
  : list (list Z) * list (list Z) * list (list Z) :=
  (replicate (length bboxes) [],
   replicate (length bboxes) (Z.of_nat <$> seq 0 total_neg_bboxes),
   replicate (length bboxes) []).

Definition Z_helpers_no_positive : Helpers Z :=
  {| decode := Z_decode; encode := Z_encode; iou := Z_iou;
     iou_threshold := 50%Z; crop_box := Z_crop_box;
     get_selected_indices := Z_no_positive_indices |}.

(** A batch of one image with three anchors, one ground-truth box of
    class [1], and three classes, the last one the background. *)
Definition fx (v : Z) : scalar Z := Scalar v 1%Z.
Definition fbox (y1 x1 y2 x2 : Z) : list (scalar Z) := [fx y1; fx x1; fx y2; fx x2].

Definition ex_hp : hyper_params :=
  {| total_pos_bboxes := 1; total_neg_bboxes := 1; nms_topn := 2;
     total_labels := 3; pooling_size := (1, 2) |}.
Definition ex_anchors : list (list (list (scalar Z))) :=
  [[fbox 0 0 100 100; fbox 0 0 90 100; fbox 100 100 200 200]].
Definition ex_rpn_bbox_deltas : list (scalar Z) :=
  fx <$> [0; 0; 10; 10;  0; 0; 0; 0;  0; 0; -10; -10]%Z.
Definition ex_rpn_labels : list (scalar Z) := fx <$> [90; 80; 70]%Z.
Definition ex_gt_boxes : list (list (list (scalar Z))) := [[fbox 0 0 100 100]].
Definition ex_gt_labels : list (list Z) := [[1%Z]].
Definition ex_feature_map : list (list (list (list (scalar Z)))) :=
  [[[[fx 1]; [fx 2]]; [[fx 3]; [fx 4]]]].

Definition ex_nms_bboxes : list (list (list (scalar Z))) :=
  Eval vm_compute in
    default [] (RoIBBox_nms ex_hp ex_rpn_bbox_deltas ex_rpn_labels ex_anchors).
Definition ex_roi : list (list (list (scalar Z))) * list (list Z) :=
  Eval vm_compute in
    default ([], [])
      (RoIBBox_call ex_hp ex_rpn_bbox_deltas ex_rpn_labels ex_anchors ex_gt_boxes).
Definition ex_targets : list (list (list (scalar Z))) * list (list (list Z)) :=
  Eval vm_compute in
    default ([], [])
      (RoIDelta_call ex_hp ex_roi.1 ex_gt_boxes ex_gt_labels ex_roi.2).
Definition ex_pooled : list (list (list (list (list (scalar Z))))) :=
  Eval vm_compute in default [] (RoIPooling_call ex_hp ex_feature_map ex_roi.1).

(** A batch of two images: their feature maps differ, and so do their
    boxes. *)
Definition ex_feature_maps : list (list (list (list (scalar Z)))) :=
  [[[[fx 1]; [fx 2]]; [[fx 3]; [fx 4]]];
   [[[fx 5]; [fx 6]]; [[fx 7]; [fx 8]]]].
Definition ex_roi_batch : list (list (list (scalar Z))) :=
  [[fbox 0 100 100 200; fbox 0 0 0 0]; [fbox 100 0 200 100; fbox 0 0 0 0]].
Definition ex_pooled_batch : list (list (list (list (list (scalar Z))))) :=
  Eval vm_compute in
    default [] (RoIPooling_call ex_hp ex_feature_maps ex_roi_batch).

Definition ex_lm : list (list Z) :=
  Eval vm_compute in
    default [] (gt_labels_map ex_hp 1 ex_gt_labels ex_roi.2).
Definition ex_ds : list (list (list (scalar Z))) :=
  Eval vm_compute in
    default [] (roi_deltas ex_hp ex_roi.1 ex_gt_boxes ex_roi.2).

(** The scenario of the specification: one image, one ground-truth box
    [(0.2, 0.2, 0.6, 0.6)] of class [3], two positive and two negative
    slots, five classes. *)
Definition cbox (y1 x1 y2 x2 : Z) : list (scalar Z) :=
  [Scalar y1 0%Z; Scalar x1 0%Z; Scalar y2 0%Z; Scalar x2 0%Z].
Definition sc_hp : hyper_params :=
  {| total_pos_bboxes := 2; total_neg_bboxes := 2; nms_topn := 2;
     total_labels := 5; pooling_size := (1, 1) |}.
Definition sc_roi : list (list (list (scalar Z))) :=
  [[cbox 20 20 60 60; cbox 10 10 50 50; zero_box; zero_box]].
Definition sc_gt_boxes : list (list (list (scalar Z))) := [[cbox 20 20 60 60]].
Definition sc_gt_labels : list (list Z) := [[3%Z]].
Definition sc_gt_box_indices : list (list Z) := [[0%Z; 0%Z]].

(** Predictions of the head for the two proposals of the batch: the first
    is of class [1], the second of the background class [2]. *)
Definition ex_delta_pred : list (list (list (scalar Z))) :=
  [[fx <$> [1; 1; 1; 1;  2; 2; 2; 2;  3; 3; 3; 3]%Z;
    fx <$> [4; 4; 4; 4;  5; 5; 5; 5;  6; 6; 6; 6]%Z]].
Definition ex_label_pred : list (list (list (scalar Z))) :=
  [[fx <$> [10; 80; 10]%Z; fx <$> [5; 5; 90]%Z]].
Definition ex_background_pred : list (list (list (scalar Z))) :=
  [[fx <$> [10; 10; 80]%Z; fx <$> [5; 5; 90]%Z]].
Definition ex_valid :
    list (list (list (list (scalar Z)))) * list (list (list (scalar Z))) :=
  Eval vm_compute in
    default ([], [])
      (get_valid_predictions ex_roi.1 ex_delta_pred ex_label_pred 3).

(** A detector with the one class [0]: a ground-truth label and a row of
    scores of that class. *)
Definition ex_hp_one_class : hyper_params :=
  {| total_pos_bboxes := 1; total_neg_bboxes := 1; nms_topn := 2;
     total_labels := 1; pooling_size := (1, 2) |}.
Definition ex_one_class_labels : list (list Z) := [[0%Z]].
Definition ex_one_class_delta_pred : list (list (list (scalar Z))) :=
  [[fx <$> [1; 2; 3; 4]%Z]].
Definition ex_one_class_label_pred : list (list (list (scalar Z))) :=
  [[[fx 5]]].

(** A padded ground-truth label, and the labels of the slots it gives. *)
Definition ex_padded_labels : list (list Z) := [[(-1)%Z]].
Definition ex_padded_lm : list (list Z) :=
  Eval vm_compute in
    default [] (gt_labels_map ex_hp 1 ex_padded_labels ex_roi.2).

(** The hyper-parameters of the example with a stride of one and one
    anchor per position: on images of three by one pixels the dummy batch
    has the three anchors of the example. *)
Definition ex_mp : model_params := ModelParams ex_hp 1 1.
Definition ex_dummy : list tensor_spec :=
  Eval vm_compute in default [] (get_dummy_initializer 3 1 ex_mp "training").

(** A backbone of one layer and an RPN of three layers on its output. *)
Definition ex_input_img : tensor := Input [None; None; Some 3%Z] "input_1" float32.
Definition ex_base_output : tensor :=
  call (Layer (Backbone "Conv2D") "block5_conv3") [ex_input_img].
Definition ex_rpn_conv : tensor :=
  call (Layer (Backbone "Conv2D") "rpn_conv") [ex_base_output].
Definition ex_rpn_reg : tensor :=
  call (Layer (Backbone "Conv2D") "rpn_reg") [ex_rpn_conv].
Definition ex_rpn_cls : tensor :=
  call (Layer (Backbone "Conv2D") "rpn_cls") [ex_rpn_conv].
Definition ex_base_model : keras_model :=
  KerasModel [ex_input_img] [ex_base_output] [] [].
Definition ex_rpn_model : keras_model :=
  KerasModel [ex_input_img] [ex_rpn_reg; ex_rpn_cls] [] [].
(** A backbone and an RPN whose forward pass returns on every batch. *)
Definition ex_forward_pass : ForwardPass :=
  {| forward_pass _ _ := Some () |}.
Definition ex_frcnn_model : keras_model :=
  Eval vm_compute in
    default (KerasModel [] [] [] [])
      (@get_model ex_forward_pass 3 1 ex_base_model ex_rpn_model ex_mp
         "training").

(** A dataset of two batches, and a step that keeps the image and takes
    the boxes for anchors. *)
Definition ex_dataset : list (Z * Z * Z) := [(1, 2, 3)%Z; (4, 5, 6)%Z].
Definition ex_get_step_data (image_data : Z * Z * Z) (hyper_params : model_params)
    (input_processor : Z → Z) : Z * Z * Z * Z :=
  let '(img, gt_boxes, gt_labels) := image_data in
  (input_processor img, 0%Z, 0%Z, gt_boxes).

(** A base layer that is its own configuration. *)
Definition ex_layer : hyper_layer (base:=gmap string Z) (value:=Z) :=
  HyperLayer {["name" := 1%Z]} 7%Z.

(** * Properties *)

(** ** The tensor operations *)

(** A guard in a hypothesis [H : ... = Some _]: the failing branch is
    closed, the passing branch keeps the guarded fact as [Hg]. *)
Ltac open_guard H Hg :=
  match type of H with
  | context [guard ?P] =>
      destruct (decide P) as [Hg|Hg];
      [rewrite (option_guard_True P) in H by exact Hg
      |rewrite (option_guard_False P) in H by exact Hg; simpl in H; done];
      simpl in H
  end.

Section operations.
Context {A : Type}.
Implicit Types (l : list A) (t : list (list A)).

Lemma index_Some l i x :
  index l i = Some x ↔ (0 ≤ i)%Z ∧ l !! Z.to_nat i = Some x.
Proof.
  unfold index. destruct (decide (0 ≤ i)%Z).
  - rewrite option_guard_True by done. tauto.
  - rewrite option_guard_False by done. split; [done|tauto].
Qed.

Lemma index_of_nat l (n : nat) : index l (Z.of_nat n) = l !! n.
Proof.
  unfold index. rewrite option_guard_True by lia. simpl.
  by rewrite Nat2Z.id.
Qed.

Lemma gather_length t indices out :
  gather t indices = Some out → length out = length indices.
Proof.
  unfold gather. intros H. simplify_option_eq.
  apply length_mapM in H. rewrite length_zip in H. lia.
Qed.

Lemma gather_lookup t indices out b row :
  gather t indices = Some out → out !! b = Some row →
  ∃ p idx, t !! b = Some p ∧ indices !! b = Some idx
           ∧ Forall2 (λ i x, index p i = Some x) idx row.
Proof.
  unfold gather. intros H Hb. simplify_option_eq.
  apply mapM_Some in H.
  destruct (Forall2_lookup_r _ _ _ _ _ H Hb) as ([p idx] & Hz & Hrow).
  apply lookup_zip_with_Some in Hz as (p' & idx' & [= <- <-] & Hp & Hidx).
  exists p, idx. split_and!; [done..|]. by apply mapM_Some.
Qed.

Lemma gather_is_Some t indices :
  length t = length indices →
  (∀ b p idx, t !! b = Some p → indices !! b = Some idx →
     Forall (λ i, (0 ≤ i < Z.of_nat (length p))%Z) idx) →
  is_Some (gather t indices).
Proof.
  intros Hlen Hin. unfold gather. rewrite option_guard_True by done. simpl.
  apply mapM_is_Some. apply Forall_lookup. intros b [p idx] Hz.
  apply lookup_zip_with_Some in Hz as (p' & idx' & [= <- <-] & Hp & Hidx).
  apply mapM_is_Some. simpl. eapply list.Forall_impl; [exact (Hin _ _ _ Hp Hidx)|].
  intros i Hi. simpl in Hi. unfold compose, index.
  rewrite option_guard_True by lia.
  simpl. apply lookup_lt_is_Some. lia.
Qed.

Lemma concat_axis1_lookup (a b out : list (list A)) i row :
  concat_axis1 a b = Some out → out !! i = Some row →
  ∃ x y, a !! i = Some x ∧ b !! i = Some y ∧ row = x ++ y.
Proof.
  unfold concat_axis1. intros H Hi. simplify_option_eq.
  apply lookup_zip_with_Some in Hi as (x & y & -> & ? & ?). eauto.
Qed.

Lemma concat_axis1_length (a b out : list (list A)) :
  concat_axis1 a b = Some out → length out = length a ∧ length a = length b.
Proof.
  unfold concat_axis1. intros H. simplify_option_eq.
  rewrite length_zip_with. lia.
Qed.

Lemma length_rows_of d0 d1 l : length (rows_of d0 d1 l) = d0.
Proof. unfold rows_of. by rewrite length_reshape, length_replicate. Qed.

Lemma rows_of_lookup d0 d1 l i :
  i < d0 → rows_of d0 d1 l !! i = Some (take d1 (drop (i * d1) l)).
Proof.
  unfold rows_of. revert l i.
  induction d0 as [|d0 IH]; intros l i Hi; [lia|].
  destruct i as [|i]; simpl; [done|].
  rewrite IH by lia. by rewrite drop_drop.
Qed.

Lemma rows_of_lookup_Some d0 d1 l i row :
  length l = d0 * d1 → rows_of d0 d1 l !! i = Some row →
  i < d0 ∧ row = take d1 (drop (i * d1) l) ∧ length row = d1.
Proof.
  intros Hl Hi.
  assert (i < d0) as Hlt.
  { apply lookup_lt_Some in Hi. by rewrite length_rows_of in Hi. }
  rewrite rows_of_lookup in Hi by done. simplify_eq.
  split_and!; [done..|]. rewrite length_take, length_drop. nia.
Qed.

Lemma rows_of_join (ls : list (list A)) d1 :
  Forall (λ r, length r = d1) ls → rows_of (length ls) d1 (mjoin ls) = ls.
Proof.
  unfold rows_of. induction 1 as [|r ls Hr _ IH]; simpl; [done|].
  rewrite take_app_length' by done. rewrite drop_app_length' by done.
  by rewrite IH.
Qed.

Lemma fill_lookup d0 d1 (x : A) i row :
  fill d0 d1 x !! i = Some row → row = replicate d1 x.
Proof. unfold fill. by intros [-> _]%lookup_replicate. Qed.

Lemma length_fill d0 d1 (x : A) : length (fill d0 d1 x) = d0.
Proof. apply length_replicate. Qed.
End operations.

Lemma has_shape3_join {A} d1 d2 (t : list (list (list A))) :
  has_shape3 d1 d2 t →
  Forall (λ row, length row = d1) t
  ∧ length (mjoin t) = length t * d1
  ∧ Forall (λ cell, length cell = d2) (mjoin t).
Proof.
  intros Ht. assert (Forall (λ row, length row = d1) t) as Hrows.
  { eapply list.Forall_impl; [exact Ht|]. by intros ? [? _]. }
  split_and!; [done| |].
  - by rewrite length_join, (sum_list_fmap_same d1).
  - apply Forall_join. eapply list.Forall_impl; [exact Ht|]. by intros ? [_ ?].
Qed.

(** ** The Proposal Selector *)

Section proposal_selector.
Context {R : Type} `{!Float R, !Helpers R}.
Implicit Types (hp : hyper_params) (kept cands : list (list (scalar R))).

Lemma suppressed_by_cons kept c d :
  suppressed_by (c :: kept) d = false ↔
  rltb iou_threshold (iou d c) = false ∧ suppressed_by kept d = false.
Proof. unfold suppressed_by. simpl. apply orb_false_iff. Qed.

Lemma suppress_spec kept cands :
  Forall (λ d, suppressed_by kept d = false) (suppress kept cands)
  ∧ no_overlap (suppress kept cands)
  ∧ suppress kept cands ⊆ cands.
Proof.
  revert kept. induction cands as [|c rest IH]; intros kept; simpl.
  { split_and!; [constructor|done|done]. }
  destruct (suppressed_by kept c) eqn:Hc.
  - destruct (IH kept) as (? & ? & ?). split_and!; [done..|set_solver].
  - destruct (IH (c :: kept)) as (Hk & ? & ?). split_and!.
    + constructor; [done|]. eapply list.Forall_impl; [exact Hk|].
      intros d Hd. by apply suppressed_by_cons in Hd as [_ ?].
    + split; [|done]. eapply list.Forall_impl; [exact Hk|].
      intros d Hd. by apply suppressed_by_cons in Hd as [? _].
    + set_solver.
Qed.

Lemma no_overlap_take n l : no_overlap l → no_overlap (take n l).
Proof.
  revert n. induction l as [|c l IH]; intros [|n]; simpl; try done.
  intros [Hc Hl]. split; [by apply Forall_take|by apply IH].
Qed.

Lemma no_overlap_lookup l i j ci cj :
  no_overlap l → i < j → l !! i = Some ci → l !! j = Some cj →
  rltb iou_threshold (iou cj ci) = false.
Proof.
  revert i j. induction l as [|c l IH]; intros i j Hl Hij Hi Hj; [done|].
  destruct Hl as [Hc Hl]. destruct j as [|j]; [lia|]. simpl in Hj.
  destruct i as [|i]; simpl in Hi.
  - simplify_eq. by eapply (proj1 (Forall_lookup _ _)) in Hc.
  - eapply (IH i j); [done|lia|done..].
Qed.

Lemma nms_survivors_length m1 m2 boxes scores :
  length (nms_survivors m1 m2 boxes scores) ≤ m2.
Proof. unfold nms_survivors. rewrite length_take. lia. Qed.

Lemma nms_image_length m1 m2 boxes scores :
  length (nms_image m1 m2 boxes scores) = m2.
Proof.
  unfold nms_image. pose proof (nms_survivors_length m1 m2 boxes scores).
  simpl. rewrite length_app, length_replicate. lia.
Qed.

Lemma rank_by_score_subseteq (l : list (list (scalar R) * scalar R)) :
  rank_by_score l ⊆ l.
Proof.
  assert (∀ c k, insert_ranked c k ⊆ c :: k) as Hins.
  { intros c k. induction k as [|d k IH]; simpl; [done|].
    destruct (rltb _ _); set_solver. }
  induction l as [|c l IH]; simpl; [done|].
  etrans; [apply Hins|]. set_solver.
Qed.

Lemma nms_survivors_spec m1 m2 boxes scores :
  no_overlap (nms_survivors m1 m2 boxes scores)
  ∧ nms_survivors m1 m2 boxes scores ⊆ mjoin boxes.
Proof.
  unfold nms_survivors.
  destruct (suppress_spec [] (rank_by_score (zip (mjoin boxes) (mjoin scores))).*1)
    as (_ & Hno & Hsub).
  split; [by do 2 apply no_overlap_take|].
  intros c Hc. do 2 apply subseteq_take in Hc.
  apply Hsub in Hc. apply list_elem_of_fmap in Hc as ([c' s] & -> & Hc).
  apply rank_by_score_subseteq in Hc. simpl.
  by apply elem_of_zip_l in Hc.
Qed.

Lemma non_max_suppression_lookup pred_bboxes pred_labels m1 m2 b row :
  non_max_suppression pred_bboxes pred_labels m1 m2 !! b = Some row →
  ∃ boxes scores, pred_bboxes !! b = Some boxes ∧ pred_labels !! b = Some scores
                  ∧ row = nms_image m1 m2 boxes scores.
Proof.
  unfold non_max_suppression. intros H.
  apply lookup_zip_with_Some in H as (x & y & ? & ? & ?). eauto.
Qed.

Lemma RoIBBox_nms_lookup hp deltas labels anchors nms b row :
  RoIBBox_nms hp deltas labels anchors = Some nms → nms !! b = Some row →
  ∃ boxes scores, row = nms_image (nms_topn hp) (nms_topn hp) boxes scores.
Proof.
  unfold RoIBBox_nms. intros H Hb. simplify_option_eq.
  apply non_max_suppression_lookup in Hb as (? & ? & ? & ? & ?). eauto.
Qed.

(** C7: in [RoIBBox.call] the suppression of an image keeps at most
    [nms_topn] survivors, its output is the survivors followed by zero
    boxes up to [nms_topn] entries, and no two survivors have an IoU above
    the threshold; the IoU of the geometry kernel is symmetric. *)
Theorem nms_cardinality hp deltas labels anchors nms b row :
  (∀ c d, iou c d = iou d c) →
  RoIBBox_nms hp deltas labels anchors = Some nms →
  nms !! b = Some row →
  ∃ boxes scores kept,
    kept = nms_survivors (nms_topn hp) (nms_topn hp) boxes scores
    ∧ kept ⊆ mjoin boxes
    ∧ length kept ≤ nms_topn hp
    ∧ row = kept ++ replicate (nms_topn hp - length kept) zero_box
    ∧ length row = nms_topn hp
    ∧ ∀ i j ci cj, i ≠ j → kept !! i = Some ci → kept !! j = Some cj →
        rltb iou_threshold (iou ci cj) = false.
Proof.
  intros Hsym Hnms Hb.
  destruct (RoIBBox_nms_lookup _ _ _ _ _ _ _ Hnms Hb) as (boxes & scores & ->).
  destruct (nms_survivors_spec (nms_topn hp) (nms_topn hp) boxes scores)
    as [Hno Hsub].
  exists boxes, scores, (nms_survivors (nms_topn hp) (nms_topn hp) boxes scores).
  split_and!; [done|done|apply nms_survivors_length|done|apply nms_image_length|].
  intros i j ci cj Hij Hi Hj.
  destruct (decide (i < j)).
  - rewrite Hsym. by eapply no_overlap_lookup.
  - eapply no_overlap_lookup; [done| |done..]. lia.
Qed.

Lemma stop_gradient_zero_box : stop_gradient_box (R:=R) zero_box = zero_box.
Proof. done. Qed.

Lemma stop_gradient_lookup (t : list (list (list (scalar R)))) b row :
  stop_gradient t !! b = Some row →
  ∃ r, t !! b = Some r ∧ row = stop_gradient_box <$> r.
Proof.
  unfold stop_gradient. rewrite list_lookup_fmap.
  destruct (t !! b) as [r|]; [|done]. intros [= <-]. eauto.
Qed.

(** C9: when the number of delta values is not four per anchor of the
    Anchor Set, [RoIBBox.call] raises: the reshape of line 50 fails and
    nothing is returned.  So it is for deltas of shape
    [(batch, h, w, anchor_count * 4)] of a batch with an image whose
    [h * w * anchor_count] deltas are not as many as its anchors. *)
Theorem RoIBBox_call_anchor_count_mismatch
    hp (rpn_bbox_deltas rpn_labels : list (scalar R)) anchors gt_boxes :
  (length rpn_bbox_deltas ≠ shape0 anchors * shape1 anchors * 4 →
   RoIBBox_call hp rpn_bbox_deltas rpn_labels anchors gt_boxes = None)
  ∧ (∀ h w anchor_count,
       length rpn_bbox_deltas = shape0 anchors * h * w * (anchor_count * 4) →
       0 < shape0 anchors → h * w * anchor_count ≠ shape1 anchors →
       RoIBBox_call hp rpn_bbox_deltas rpn_labels anchors gt_boxes = None).
Proof.
  assert (length rpn_bbox_deltas ≠ shape0 anchors * shape1 anchors * 4 →
          RoIBBox_call hp rpn_bbox_deltas rpn_labels anchors gt_boxes = None)
    as Hcount.
  { intros Hne. unfold RoIBBox_call, RoIBBox_nms, reshape3.
    rewrite (option_guard_False (length rpn_bbox_deltas = _)) by done.
    reflexivity. }
  split; [exact Hcount|].
  intros h w anchor_count Hlen Hbatch Hne. apply Hcount. nia.
Qed.

(** [RoIBBox.call] returns when the selected indices are one row per
    image and lie inside the suppression output. *)
Lemma RoIBBox_call_is_Some
    hp (rpn_bbox_deltas rpn_labels : list (scalar R)) anchors gt_boxes
    nms_bboxes pos_bbox_indices neg_bbox_indices gt_box_indices :
  RoIBBox_nms hp rpn_bbox_deltas rpn_labels anchors = Some nms_bboxes →
  length nms_bboxes = shape0 anchors →
  Forall (λ row, length row = nms_topn hp) nms_bboxes →
  get_selected_indices nms_bboxes gt_boxes
      (total_pos_bboxes hp) (total_neg_bboxes hp)
    = (pos_bbox_indices, neg_bbox_indices, gt_box_indices) →
  length pos_bbox_indices = shape0 anchors →
  Forall (Forall (λ k, (0 ≤ k < Z.of_nat (nms_topn hp))%Z)) pos_bbox_indices →
  is_Some (RoIBBox_call hp rpn_bbox_deltas rpn_labels anchors gt_boxes).
Proof.
  intros Hnms Hlen Hrows Hsel Hplen Hin. unfold RoIBBox_call.
  rewrite Hnms. simpl. rewrite Hsel.
  destruct (gather_is_Some nms_bboxes pos_bbox_indices) as [pos Hg].
  { lia. }
  { intros b p idx Hp Hidx.
    eapply (proj1 (Forall_lookup _ _)) in Hrows; [|done].
    eapply (proj1 (Forall_lookup _ _)) in Hin; [|done].
    by rewrite Hrows. }
  rewrite Hg. simpl. unfold concat_axis1.
  rewrite option_guard_True; [done|].
  apply gather_length in Hg. unfold zeros. rewrite length_fill. lia.
Qed.
End proposal_selector.

(** ** Scatter indices *)

Lemma filter_none {A} (P : A → Prop) `{!∀ x, Decision (P x)} (l : list A) :
  (∀ j y, l !! j = Some y → ¬ P y) → filter P l = [].
Proof.
  induction l as [|a l IH]; intros Hnone; [done|].
  rewrite filter_cons_False by (by apply (Hnone 0)).
  apply IH. intros j y Hj. by apply (Hnone (S j)).
Qed.

Lemma filter_unique {A} (P : A → Prop) `{!∀ x, Decision (P x)} (l : list A) k x :
  l !! k = Some x → P x →
  (∀ j y, l !! j = Some y → P y → j = k) →
  filter P l = [x].
Proof.
  revert k. induction l as [|a l IH]; intros k Hk Hx Huniq; [done|].
  destruct k as [|k]; simpl in Hk.
  - simplify_eq. rewrite filter_cons_True by done. f_equal.
    apply filter_none. intros j y Hj Hy.
    by specialize (Huniq (S j) y Hj Hy).
  - rewrite filter_cons_False.
    + apply (IH k); [done..|]. intros j y Hj Hy.
      specialize (Huniq (S j) y Hj Hy). lia.
    + intros Ha. by specialize (Huniq 0 a eq_refl Ha).
Qed.

Section scatter.
Context {A : Type}.

Lemma scatter_cell_hit (zero : A) add ups p k u :
  ups !! k = Some (p, u) →
  (∀ j q v, ups !! j = Some (q, v) → q = p → j = k) →
  scatter_cell zero add ups p = add zero u.
Proof.
  intros Hk Huniq. unfold scatter_cell.
  rewrite (filter_unique _ ups k (p, u)); [done..|].
  intros j [q v] Hj Hq. by eapply Huniq.
Qed.

Lemma scatter_cell_miss (zero : A) add ups p :
  (∀ j q v, ups !! j = Some (q, v) → q ≠ p) →
  scatter_cell zero add ups p = zero.
Proof.
  intros Hmiss. unfold scatter_cell.
  rewrite filter_none; [done|].
  intros j [q v] Hj. by apply (Hmiss j q v).
Qed.
End scatter.

Lemma get_tiled_indices_length batch_size row_size :
  length (get_tiled_indices batch_size row_size) = batch_size * row_size.
Proof.
  unfold get_tiled_indices. rewrite length_join.
  rewrite (sum_list_fmap_same row_size).
  - by rewrite length_fmap, length_seq.
  - apply Forall_fmap, Forall_forall. intros b _. apply length_replicate.
Qed.

Lemma get_tiled_indices_lookup batch_size row_size b i :
  b < batch_size → i < row_size →
  get_tiled_indices batch_size row_size !! (b * row_size + i)
    = Some (Z.of_nat b).
Proof.
  intros Hb Hi. unfold get_tiled_indices.
  apply (join_lookup_Some_same_length' row_size); [|done|].
  - apply Forall_fmap, Forall_forall. intros ? _. apply length_replicate.
  - exists (replicate row_size (Z.of_nat b)). split.
    + rewrite list_lookup_fmap, lookup_seq_lt by done. done.
    + by apply lookup_replicate_2.
Qed.

Lemma tile_range_length n k : length (tile_range n k) = k * n.
Proof.
  unfold tile_range. rewrite length_join.
  rewrite (sum_list_fmap_same n).
  - by rewrite length_replicate.
  - apply Forall_replicate. by rewrite length_fmap, length_seq.
Qed.

Lemma tile_range_lookup n k b i :
  b < k → i < n → tile_range n k !! (b * n + i) = Some (Z.of_nat i).
Proof.
  intros Hb Hi. unfold tile_range.
  apply (join_lookup_Some_same_length' n); [|done|].
  - apply Forall_replicate. by rewrite length_fmap, length_seq.
  - exists (Z.of_nat <$> seq 0 n). split.
    + by apply lookup_replicate_2.
    + rewrite list_lookup_fmap, lookup_seq_lt by done. done.
Qed.

Lemma concat_columns_Some c columns tuples :
  concat_columns (c :: columns) = Some tuples →
  Forall (λ c', length c' = length c) columns
  ∧ length tuples = length c
  ∧ ∀ k, k < length c →
      tuples !! k = Some ((λ col : list Z, default 0%Z (col !! k)) <$> c :: columns).
Proof.
  unfold concat_columns. intros H. simplify_option_eq.
  match goal with H : Forall _ (c :: columns) |- _ =>
    apply Forall_cons in H as [_ Hcols] end.
  split_and!; [done|by rewrite length_fmap, length_seq|].
  intros k Hk. by rewrite list_lookup_fmap, lookup_seq_lt by done.
Qed.

Lemma flat_index_split batch_size row_size k :
  k < batch_size * row_size →
  ∃ b i, b < batch_size ∧ i < row_size ∧ k = b * row_size + i.
Proof.
  intros Hk. assert (0 < row_size) by nia.
  exists (k / row_size), (k mod row_size). split_and!.
  - apply Nat.Div0.div_lt_upper_bound. lia.
  - apply Nat.mod_upper_bound. lia.
  - rewrite (Nat.div_mod_eq k row_size) at 1. lia.
Qed.

Lemma flat_index_inj row_size b i b' i' :
  i < row_size → i' < row_size →
  b * row_size + i = b' * row_size + i' → b = b' ∧ i = i'.
Proof. intros. apply Nat.mul_split_l in H1; [lia|done..]. Qed.

Lemma scatter_tuples_lookup (lm : list (list Z)) batch_size total_bboxes tuples :
  length lm = batch_size →
  Forall (λ r, length r = total_bboxes) lm →
  concat_columns
    [get_tiled_indices batch_size total_bboxes;
     tile_range total_bboxes batch_size; mjoin lm] = Some tuples →
  length tuples = batch_size * total_bboxes
  ∧ ∀ b i lrow c, lm !! b = Some lrow → lrow !! i = Some c →
      tuples !! (b * total_bboxes + i) = Some [Z.of_nat b; Z.of_nat i; c].
Proof.
  intros Hlen Hrows Hcols.
  apply concat_columns_Some in Hcols as (_ & Hl & Hk).
  rewrite get_tiled_indices_length in Hl, Hk. split; [done|].
  intros b i lrow c Hb Hi.
  assert (b < batch_size) by (rewrite <-Hlen; by eapply lookup_lt_Some).
  assert (i < total_bboxes).
  { eapply (proj1 (Forall_lookup _ _)) in Hrows; [|done].
    rewrite <-Hrows. by eapply lookup_lt_Some. }
  rewrite Hk by nia. simpl.
  rewrite get_tiled_indices_lookup, tile_range_lookup by done. simpl.
  replace (mjoin lm !! (b * total_bboxes + i)) with (Some c); [done|].
  symmetry. apply (join_lookup_Some_same_length' total_bboxes); eauto.
Qed.

Lemma scatter_nd3_slots {A} (zero : A) add (lm : list (list Z))
    (updates : list (list A)) batch_size total_bboxes total_labels
    scatter_indices out :
  length lm = batch_size →
  Forall (λ r, length r = total_bboxes) lm →
  get_scatter_indices_for_bboxes
    [get_tiled_indices batch_size total_bboxes;
     tile_range total_bboxes batch_size; mjoin lm]
    batch_size total_bboxes = Some scatter_indices →
  scatter_nd3 zero add scatter_indices updates
    batch_size total_bboxes total_labels = Some out →
  length out = batch_size
  ∧ length updates = batch_size
  ∧ Forall (λ r, length r = total_bboxes) updates
  ∧ ∀ b i lrow c urow u,
      lm !! b = Some lrow → lrow !! i = Some c →
      updates !! b = Some urow → urow !! i = Some u →
      (0 ≤ c < Z.of_nat total_labels)%Z
      ∧ ∃ orow, out !! b = Some orow ∧ length orow = total_bboxes
          ∧ orow !! i
            = Some (<[Z.to_nat c := add zero u]> (replicate total_labels zero)).
Proof.
  intros Hlen Hrows Hidx Hsc. subst batch_size.
  unfold get_scatter_indices_for_bboxes in Hidx.
  destruct (concat_columns _) as [tuples|] eqn:Hcols; [|done]. simpl in Hidx.
  destruct (scatter_tuples_lookup _ _ _ _ eq_refl Hrows Hcols) as [Hlt Htup].
  unfold reshape2 in Hidx. rewrite option_guard_True in Hidx by done.
  simpl in Hidx. simplify_eq.
  unfold scatter_nd3 in Hsc.
  assert (mjoin (rows_of (length lm) total_bboxes tuples) = tuples) as Hjoin.
  { unfold rows_of. apply join_reshape. by rewrite sum_list_replicate. }
  rewrite Hjoin in Hsc.
  open_guard Hsc Hshape. open_guard Hsc Hin. simplify_eq.
  assert (Forall (λ r, length r = total_bboxes) updates) as Hurows.
  { apply Forall_lookup. intros j r Hj.
    destruct (Forall2_lookup_r _ _ _ _ _ Hshape Hj) as (x & Hx & Hxr).
    apply rows_of_lookup_Some in Hx as (_ & _ & Hx); [|done]. lia. }
  split_and!; [by rewrite length_fmap, length_seq| |done|].
  { apply Forall2_length in Hshape. by rewrite length_rows_of in Hshape. }
  intros b i lrow c urow u Hb Hi Hub Hui.
  assert (b < length lm) as Hblt by (by eapply lookup_lt_Some).
  assert (i < total_bboxes) as Hilt.
  { eapply (proj1 (Forall_lookup _ _)) in Hrows; [|done].
    rewrite <-Hrows. by eapply lookup_lt_Some. }
  set (k := b * total_bboxes + i).
  assert (tuples !! k = Some [Z.of_nat b; Z.of_nat i; c]) as Hk by eauto.
  assert (mjoin updates !! k = Some u) as Hu.
  { apply (join_lookup_Some_same_length' total_bboxes); eauto. }
  assert (zip tuples (mjoin updates) !! k
          = Some ([Z.of_nat b; Z.of_nat i; c], u)) as Hzk.
  { apply lookup_zip_with_Some. eauto. }
  assert (∀ j q v c', zip tuples (mjoin updates) !! j = Some (q, v) →
            q = [Z.of_nat b; Z.of_nat i; c'] → j = k ∧ c' = c) as Huniq.
  { intros j q v c' Hj ->.
    apply lookup_zip_with_Some in Hj as (q' & v' & [= <- <-] & Hq & _).
    assert (j < length lm * total_bboxes) as Hjlt.
    { rewrite <-Hlt. by eapply lookup_lt_Some. }
    destruct (flat_index_split _ _ _ Hjlt) as (b' & i' & Hb' & Hi' & ->).
    destruct (lookup_lt_is_Some_2 lm b' Hb') as [lrow' Hlrow'].
    assert (length lrow' = total_bboxes) as Hll.
    { by eapply (proj1 (Forall_lookup _ _)) in Hrows. }
    destruct (lookup_lt_is_Some_2 lrow' i') as [c'' Hc'']; [lia|].
    rewrite (Htup _ _ _ _ Hlrow' Hc'') in Hq. simplify_eq. by subst k. }
  split.
  { eapply (proj1 (Forall_lookup _ _)) in Hin; [|exact Hk].
    unfold in_bounds in Hin. by decompose_Forall. }
  eexists. split_and!.
  - rewrite list_lookup_fmap, lookup_seq_lt by done. done.
  - by rewrite length_fmap, length_seq.
  - rewrite list_lookup_fmap, lookup_seq_lt by done. simpl. f_equal.
    assert (0 ≤ c < Z.of_nat total_labels)%Z as Hc.
    { eapply (proj1 (Forall_lookup _ _)) in Hin; [|exact Hk].
      unfold in_bounds in Hin. by decompose_Forall. }
    apply list_eq. intros c'. rewrite list_lookup_fmap.
    destruct (decide (c' < total_labels)) as [Hc'|Hc'].
    + rewrite lookup_seq_lt by done. simpl.
      destruct (decide (c' = Z.to_nat c)) as [->|Hne].
      * rewrite list_lookup_insert_eq by (rewrite length_replicate; lia).
        f_equal. rewrite Z2Nat.id by lia.
        apply (scatter_cell_hit _ _ _ _ k); [done|].
        intros j q v Hj Hq. by destruct (Huniq j q v c Hj Hq).
      * rewrite list_lookup_insert_ne by done.
        rewrite lookup_replicate_2 by done. f_equal.
        apply scatter_cell_miss. intros j q v Hj Hq.
        destruct (Huniq j q v _ Hj Hq) as [_ Hcc]. lia.
    + rewrite lookup_seq_ge by lia. simpl. symmetry.
      apply lookup_ge_None. rewrite length_insert, length_replicate. lia.
Qed.

(** ** The Target Assigner *)

Section target_assigner.
Context {R : Type} `{!Float R, !Helpers R}.
Hypothesis radd_0_l : ∀ x : R, radd rzero x = x.
Implicit Types (hp : hyper_params) (roi_bboxes gt_boxes : list (list (list (scalar R)))).

Lemma fadd_0_l (x : scalar R) : fadd fzero x = x.
Proof. destruct x. unfold fadd. simpl. by rewrite !radd_0_l. Qed.

Lemma box_add_0_l (d : list (scalar R)) : length d = 4 → box_add zero_box d = d.
Proof.
  intros Hd. do 5 (destruct d as [|? d]; try done).
  unfold box_add. simpl. by rewrite !fadd_0_l.
Qed.

Lemma stop_gradient_box_join (cells : list (list (scalar R))) :
  stop_gradient_box (mjoin cells) = mjoin (stop_gradient_box <$> cells).
Proof.
  unfold stop_gradient_box. induction cells as [|c cells IH]; [done|].
  simpl. by rewrite fmap_app, IH.
Qed.

Lemma gt_labels_map_lookup hp batch_size gt_labels gt_box_indices lm b lrow :
  gt_labels_map hp batch_size gt_labels gt_box_indices = Some lm →
  lm !! b = Some lrow →
  ∃ labels idx pos,
    gt_labels !! b = Some labels ∧ gt_box_indices !! b = Some idx
    ∧ Forall2 (λ k x, index labels k = Some x) idx pos
    ∧ lrow = pos ++ replicate (total_neg_bboxes hp)
                       (Z.of_nat (total_labels hp) - 1)%Z.
Proof.
  intros Hlm Hb. unfold gt_labels_map in Hlm.
  destruct (gather gt_labels gt_box_indices) as [pos|] eqn:Hg; [|done].
  simpl in Hlm.
  destruct (concat_axis1_lookup _ _ _ _ _ Hlm Hb) as (x & y & Hx & Hy & ->).
  apply fill_lookup in Hy as ->.
  destruct (gather_lookup _ _ _ _ _ Hg Hx) as (p & idx & ? & ? & ?).
  by exists p, idx, x.
Qed.

Lemma gt_labels_map_Some hp batch_size gt_labels gt_box_indices lm n :
  Forall (λ r, length r = n) gt_box_indices →
  gt_labels_map hp batch_size gt_labels gt_box_indices = Some lm →
  length lm = batch_size
  ∧ Forall (λ r, length r = n + total_neg_bboxes hp) lm
  ∧ ∀ b lrow, lm !! b = Some lrow →
      ∃ labels idx pos,
        gt_labels !! b = Some labels ∧ gt_box_indices !! b = Some idx
        ∧ Forall2 (λ k x, index labels k = Some x) idx pos
        ∧ lrow = pos ++ replicate (total_neg_bboxes hp)
                           (Z.of_nat (total_labels hp) - 1)%Z.
Proof.
  intros Hrect Hlm. unfold gt_labels_map in Hlm.
  destruct (gather gt_labels gt_box_indices) as [pos|] eqn:Hg; [|done].
  simpl in Hlm.
  destruct (concat_axis1_length _ _ _ Hlm) as [Hl1 Hl2].
  rewrite length_fill in Hl2.
  assert (∀ b lrow, lm !! b = Some lrow →
      ∃ labels idx pos,
        gt_labels !! b = Some labels ∧ gt_box_indices !! b = Some idx
        ∧ Forall2 (λ k x, index labels k = Some x) idx pos
        ∧ lrow = pos ++ replicate (total_neg_bboxes hp)
                           (Z.of_nat (total_labels hp) - 1)%Z) as Hrow.
  { intros b lrow Hb.
    destruct (concat_axis1_lookup _ _ _ _ _ Hlm Hb) as (x & y & Hx & Hy & ->).
    apply fill_lookup in Hy as ->.
    destruct (gather_lookup _ _ _ _ _ Hg Hx) as (p & idx & ? & ? & ?).
    by exists p, idx, x. }
  split_and!; [lia| |done].
  apply Forall_lookup. intros b lrow Hb.
  destruct (Hrow b lrow Hb) as (labels & idx & p & _ & Hidx & Hf & ->).
  rewrite length_app, length_replicate, <-(Forall2_length _ _ _ Hf).
  eapply (proj1 (Forall_lookup _ _)) in Hrect; [|exact Hidx].
  simpl in Hrect. lia.
Qed.

Lemma get_gt_boxes_map_lookup gt_boxes gt_box_indices batch_size neg gmap b grow :
  get_gt_boxes_map gt_boxes gt_box_indices batch_size neg = Some gmap →
  gmap !! b = Some grow →
  ∃ boxes idx pos,
    gt_boxes !! b = Some boxes ∧ gt_box_indices !! b = Some idx
    ∧ Forall2 (λ k x, index boxes k = Some x) idx pos
    ∧ grow = pos ++ replicate neg zero_box.
Proof.
  unfold get_gt_boxes_map. intros Hm Hb.
  destruct (gather gt_boxes gt_box_indices) as [pos|] eqn:Hg; [|done].
  simpl in Hm.
  destruct (concat_axis1_lookup _ _ _ _ _ Hm Hb) as (x & y & Hx & Hy & ->).
  apply fill_lookup in Hy as ->.
  destruct (gather_lookup _ _ _ _ _ Hg Hx) as (p & idx & ? & ? & ?).
  by exists p, idx, x.
Qed.

Lemma roi_deltas_Some hp roi_bboxes gt_boxes gt_box_indices ds :
  roi_deltas hp roi_bboxes gt_boxes gt_box_indices = Some ds →
  ∃ gmap,
    get_gt_boxes_map gt_boxes gt_box_indices (shape0 roi_bboxes)
      (total_neg_bboxes hp) = Some gmap
    ∧ length ds = shape0 roi_bboxes
    ∧ ∀ b drow, ds !! b = Some drow →
        ∃ rrow grow, roi_bboxes !! b = Some rrow ∧ gmap !! b = Some grow
          ∧ length rrow = length grow
          ∧ drow = zip_with target_delta rrow grow.
Proof.
  unfold roi_deltas, get_deltas_from_bboxes. intros Hd.
  destruct (get_gt_boxes_map _ _ _ _) as [gmap|] eqn:Hm; [|done].
  simpl in Hd. open_guard Hd Hshape. simplify_eq.
  exists gmap. split_and!; [done| |].
  - rewrite length_zip_with. apply Forall2_length in Hshape.
    unfold shape0. lia.
  - intros b drow Hb.
    apply lookup_zip_with_Some in Hb as (rrow & grow & -> & Hr & Hg).
    exists rrow, grow. split_and!; [done..| |done].
    by eapply Forall2_lookup_lr in Hshape.
Qed.

Lemma slot_Some {A} (t : list (list A)) b i x :
  slot t b i = Some x ↔ ∃ row, t !! b = Some row ∧ row !! i = Some x.
Proof.
  unfold slot. destruct (t !! b) as [row|]; simpl; naive_solver.
Qed.

Lemma slot_is_Some {A} (t : list (list A)) n b i :
  Forall (λ r, length r = n) t → b < length t → i < n →
  is_Some (slot t b i).
Proof.
  intros Hrows Hb Hi. destruct (lookup_lt_is_Some_2 t b Hb) as [row Hrow].
  eapply (proj1 (Forall_lookup _ _)) in Hrows; [|done].
  destruct (lookup_lt_is_Some_2 row i) as [x Hx]; [lia|].
  exists x. apply slot_Some. eauto.
Qed.

(** C2: in the output of [RoIDelta.call] the indicator of every slot is
    one-hot, [1] in the column of the class [c] assigned to the slot and
    [0] in every other column, and the delta of the slot is the zero delta
    in every class column but [c], which holds the delta of the slot. *)
Theorem RoIDelta_call_exclusive
    hp roi_bboxes gt_boxes gt_labels gt_box_indices n deltas labels :
  Forall (λ r, length r = n) gt_box_indices →
  RoIDelta_call hp roi_bboxes gt_boxes gt_labels gt_box_indices
    = Some (deltas, labels) →
  ∃ lm ds,
    gt_labels_map hp (shape0 roi_bboxes) gt_labels gt_box_indices = Some lm
    ∧ roi_deltas hp roi_bboxes gt_boxes gt_box_indices = Some ds
    ∧ ∀ b i, b < shape0 roi_bboxes →
        i < total_pos_bboxes hp + total_neg_bboxes hp →
        ∃ c d,
          slot lm b i = Some c ∧ slot ds b i = Some d
          ∧ (0 ≤ c < Z.of_nat (total_labels hp))%Z
          ∧ slot labels b i
            = Some (<[Z.to_nat c := 1%Z]> (replicate (total_labels hp) 0%Z))
          ∧ slot deltas b i
            = Some (mjoin (<[Z.to_nat c := stop_gradient_box d]>
                             (replicate (total_labels hp) zero_box))).
Proof.
  intros Hrect Hcall. unfold RoIDelta_call in Hcall.
  destruct (gt_labels_map _ _ _ _) as [lm|] eqn:Hlm; [|done].
  simpl in Hcall.
  destruct (roi_deltas _ _ _ _) as [ds|] eqn:Hds; [|done]. simpl in Hcall.
  destruct (get_scatter_indices_for_bboxes _ _ _) as [idx|] eqn:Hidx; [|done].
  simpl in Hcall. open_guard Hcall Hcells.
  destruct (scatter_nd3 zero_box _ _ _ _ _ _) as [sd|] eqn:Hsd; [|done].
  simpl in Hcall.
  destruct (scatter_nd3 0%Z _ _ _ _ _ _) as [sl|] eqn:Hsl; [|done].
  simpl in Hcall. simplify_eq.
  exists lm, ds. split_and!; [done..|].
  destruct (gt_labels_map_Some _ _ _ _ _ _ Hrect Hlm) as (Hllen & Hlrows & _).
  set (T := total_pos_bboxes hp + total_neg_bboxes hp) in *.
  assert (Forall (λ r, length r = T) lm) as HlT.
  { destruct (decide (shape0 roi_bboxes = 0)) as [H0|H0].
    { rewrite H0 in Hllen. by destruct lm. }
    unfold get_scatter_indices_for_bboxes in Hidx.
    destruct (concat_columns _) as [tuples|] eqn:Hcols; [|done].
    apply concat_columns_Some in Hcols as (Hcols & _ & _).
    apply Forall_cons in Hcols as [_ Hcols].
    apply Forall_cons in Hcols as [Hcols _].
    rewrite get_tiled_indices_length, length_join in Hcols.
    rewrite (sum_list_fmap_same (n + total_neg_bboxes hp)) in Hcols by done.
    assert (n + total_neg_bboxes hp = T) as <- by nia. done. }
  destruct (scatter_nd3_slots _ _ _ _ _ _ _ _ _ Hllen HlT Hidx Hsd)
    as (_ & Hdlen & HdT & Hdslot).
  destruct (scatter_nd3_slots _ _ _ _ _ _ _ _ _ Hllen HlT Hidx Hsl)
    as (_ & _ & _ & Hlslot).
  intros b i Hb Hi.
  destruct (slot_is_Some lm T b i) as [c Hc]; [done|lia|done|].
  destruct (slot_is_Some ds T b i) as [d Hd]; [done|lia|done|].
  exists c, d.
  apply slot_Some in Hc as Hc'. destruct Hc' as (lrow & Hlrow & Hci).
  apply slot_Some in Hd as Hd'. destruct Hd' as (drow & Hdrow & Hdi).
  destruct (Hlslot b i lrow c (replicate T 1%Z) 1%Z) as (Hcin & orow & Ho & _ & Hoi);
    [done|done| |by apply lookup_replicate_2|].
  { unfold fill. by apply lookup_replicate_2. }
  destruct (Hdslot b i lrow c drow d) as (_ & orow' & Ho' & _ & Hoi');
    [done..|].
  do 3 (split; [done|]). split.
  - apply slot_Some. eauto.
  - apply slot_Some. unfold stop_gradient, merge_last_axes.
    eexists. split.
    + rewrite !list_lookup_fmap, Ho'. done.
    + assert (length d = 4) as Hd4.
      { eapply (proj1 (Forall_lookup _ _)) in Hcells; [|exact Hdrow].
        by eapply (proj1 (Forall_lookup _ _)) in Hcells. }
      rewrite !list_lookup_fmap, Hoi', box_add_0_l by done.
      cbn [fmap option_fmap option_map]. f_equal.
      by rewrite stop_gradient_box_join, list_fmap_insert, fmap_replicate.
Qed.

Lemma scatter_nd3_is_Some {A} (zero : A) add (lm : list (list Z))
    (updates : list (list A)) batch_size total_bboxes total_labels :
  length lm = batch_size →
  Forall (λ r, length r = total_bboxes) lm →
  Forall (Forall (λ c, (0 ≤ c < Z.of_nat total_labels)%Z)) lm →
  length updates = batch_size →
  Forall (λ r, length r = total_bboxes) updates →
  ∃ scatter_indices,
    get_scatter_indices_for_bboxes
      [get_tiled_indices batch_size total_bboxes;
       tile_range total_bboxes batch_size; mjoin lm]
      batch_size total_bboxes = Some scatter_indices
    ∧ is_Some (scatter_nd3 zero add scatter_indices updates
                 batch_size total_bboxes total_labels).
Proof.
  intros Hlen Hrows Hin Hulen Hurows.
  assert (is_Some (concat_columns
            [get_tiled_indices batch_size total_bboxes;
             tile_range total_bboxes batch_size; mjoin lm])) as [tuples Hcols].
  { unfold concat_columns. rewrite option_guard_True; [done|].
    rewrite get_tiled_indices_length. repeat constructor.
    - apply get_tiled_indices_length.
    - apply tile_range_length.
    - by rewrite length_join, (sum_list_fmap_same total_bboxes), Hlen. }
  destruct (scatter_tuples_lookup _ _ _ _ Hlen Hrows Hcols) as [Hlt Htup].
  unfold get_scatter_indices_for_bboxes. rewrite Hcols. simpl.
  unfold reshape2. rewrite option_guard_True by done. simpl.
  eexists. split; [done|].
  unfold scatter_nd3.
  assert (mjoin (rows_of batch_size total_bboxes tuples) = tuples) as Hjoin.
  { unfold rows_of. apply join_reshape. by rewrite sum_list_replicate. }
  rewrite Hjoin, !option_guard_True; [done| |].
  - apply Forall_lookup. intros k p Hk.
    assert (k < batch_size * total_bboxes) as Hklt.
    { rewrite <-Hlt. by eapply lookup_lt_Some. }
    destruct (flat_index_split _ _ _ Hklt) as (b & i & Hb & Hi & ->).
    destruct (lookup_lt_is_Some_2 lm b) as [lrow Hlrow]; [lia|].
    assert (length lrow = total_bboxes) as Hll.
    { by eapply (proj1 (Forall_lookup _ _)) in Hrows. }
    destruct (lookup_lt_is_Some_2 lrow i) as [c Hc]; [lia|].
    rewrite (Htup _ _ _ _ Hlrow Hc) in Hk. simplify_eq.
    eapply (proj1 (Forall_lookup _ _)) in Hin; [|exact Hlrow].
    eapply (proj1 (Forall_lookup _ _)) in Hin; [|exact Hc].
    unfold in_bounds. repeat constructor; lia.
  - apply Forall2_same_length_lookup. split.
    { by rewrite length_rows_of. }
    intros b irow urow Hi Hu.
    apply rows_of_lookup_Some in Hi as (_ & _ & ->); [|done].
    by eapply (proj1 (Forall_lookup _ _)) in Hurows.
Qed.

(** [RoIDelta.call] returns on inputs of the documented shapes, when the
    GT Index Map addresses ground-truth boxes whose labels are classes. *)
Lemma RoIDelta_call_is_Some hp roi_bboxes gt_boxes gt_labels gt_box_indices :
  0 < total_labels hp →
  (∀ r g : list (scalar R), length r = 4 → length g = 4 →
     length (encode r g) = 4) →
  has_shape3 (total_pos_bboxes hp + total_neg_bboxes hp) 4 roi_bboxes →
  Forall (Forall (λ g, length g = 4)) gt_boxes →
  length gt_boxes = length roi_bboxes →
  length gt_labels = length roi_bboxes →
  length gt_box_indices = length roi_bboxes →
  Forall (λ r, length r = total_pos_bboxes hp) gt_box_indices →
  (∀ b idx boxes labels,
     gt_box_indices !! b = Some idx → gt_boxes !! b = Some boxes →
     gt_labels !! b = Some labels →
     Forall (λ k, (0 ≤ k < Z.of_nat (length boxes))%Z
                  ∧ ∃ l, index labels k = Some l
                         ∧ (0 ≤ l < Z.of_nat (total_labels hp))%Z) idx) →
  is_Some (RoIDelta_call hp roi_bboxes gt_boxes gt_labels gt_box_indices).
Proof.
  intros HL Henc Hroi Hgt4 Hgl Hll Hil Hrect Hidx.
  set (T := total_pos_bboxes hp + total_neg_bboxes hp) in *.
  destruct (has_shape3_join _ _ _ Hroi) as (Hrrows & _ & _).
  (* the labels *)
  destruct (gather_is_Some gt_labels gt_box_indices) as [plabs Hpl]; [lia| |].
  { intros b labels idx Hlab Hi.
    destruct (lookup_lt_is_Some_2 gt_boxes b) as [boxes Hboxes].
    { rewrite Hgl, <-Hll. by eapply lookup_lt_Some. }
    eapply list.Forall_impl; [exact (Hidx _ _ _ _ Hi Hboxes Hlab)|].
    intros k (Hk & l & Hl & _). apply index_Some in Hl as [? Hl].
    apply lookup_lt_Some in Hl. lia. }
  assert (is_Some (gt_labels_map hp (shape0 roi_bboxes) gt_labels
                     gt_box_indices)) as [lm Hlm].
  { unfold gt_labels_map. rewrite Hpl. simpl. unfold concat_axis1.
    rewrite option_guard_True; [done|].
    apply gather_length in Hpl. rewrite length_fill. unfold shape0. lia. }
  destruct (gt_labels_map_Some _ _ _ _ _ _ Hrect Hlm) as (Hlmlen & Hlmrows & Hlmrow).
  assert (Forall (Forall (λ c, (0 ≤ c < Z.of_nat (total_labels hp))%Z)) lm)
    as Hlmin.
  { apply Forall_lookup. intros b lrow Hb.
    destruct (Hlmrow _ _ Hb) as (labels & idx & pos & Hlab & Hi & Hpos & ->).
    destruct (lookup_lt_is_Some_2 gt_boxes b) as [boxes Hboxes].
    { rewrite Hgl, <-Hil. by eapply lookup_lt_Some. }
    apply Forall_app. split.
    - apply Forall_lookup. intros j l Hj.
      destruct (Forall2_lookup_r _ _ _ _ _ Hpos Hj) as (k & Hk & Hkl).
      pose proof (Hidx _ _ _ _ Hi Hboxes Hlab) as Hall.
      eapply (proj1 (Forall_lookup _ _)) in Hall; [|exact Hk].
      destruct Hall as (_ & l' & Hl' & Hin). by simplify_eq.
    - apply Forall_replicate. lia. }
  (* the deltas *)
  destruct (gather_is_Some gt_boxes gt_box_indices) as [pboxes Hpb]; [lia| |].
  { intros b boxes idx Hboxes Hi.
    destruct (lookup_lt_is_Some_2 gt_labels b) as [labels Hlab].
    { rewrite Hll, <-Hgl. by eapply lookup_lt_Some. }
    eapply list.Forall_impl; [exact (Hidx _ _ _ _ Hi Hboxes Hlab)|].
    by intros k (Hk & _). }
  assert (is_Some (get_gt_boxes_map gt_boxes gt_box_indices
            (shape0 roi_bboxes) (total_neg_bboxes hp))) as [gmap Hgmap].
  { unfold get_gt_boxes_map. rewrite Hpb. simpl. unfold concat_axis1.
    rewrite option_guard_True; [done|].
    apply gather_length in Hpb. unfold zeros. rewrite length_fill.
    unfold shape0. lia. }
  assert (length gmap = length roi_bboxes ∧ has_shape3 T 4 gmap)
    as [Hgmlen Hgmshape].
  { split.
    - unfold get_gt_boxes_map in Hgmap. rewrite Hpb in Hgmap. simpl in Hgmap.
      apply concat_axis1_length in Hgmap as [-> ?].
      apply gather_length in Hpb. lia.
    - apply Forall_lookup. intros b grow Hb.
      destruct (get_gt_boxes_map_lookup _ _ _ _ _ _ _ Hgmap Hb)
        as (boxes & idx & pos & Hboxes & Hi & Hpos & ->).
      split.
      + rewrite length_app, length_replicate, <-(Forall2_length _ _ _ Hpos).
        eapply (proj1 (Forall_lookup _ _)) in Hrect; [|exact Hi].
        simpl in Hrect. unfold T. lia.
      + apply Forall_app. split; [|by apply Forall_replicate].
        apply Forall_lookup. intros j g Hj.
        destruct (Forall2_lookup_r _ _ _ _ _ Hpos Hj) as (k & Hk & Hkg).
        apply index_Some in Hkg as [_ Hkg].
        eapply (proj1 (Forall_lookup _ _)) in Hgt4; [|exact Hboxes].
        by eapply (proj1 (Forall_lookup _ _)) in Hgt4. }
  destruct (has_shape3_join _ _ _ Hgmshape) as (Hgrows & _ & _).
  assert (is_Some (roi_deltas hp roi_bboxes gt_boxes gt_box_indices))
    as [ds Hds].
  { unfold roi_deltas. rewrite Hgmap. simpl. unfold get_deltas_from_bboxes.
    rewrite option_guard_True; [done|].
    apply Forall2_same_length_lookup. split; [done|].
    intros b r g Hr Hg.
    eapply (proj1 (Forall_lookup _ _)) in Hrrows; [|exact Hr].
    eapply (proj1 (Forall_lookup _ _)) in Hgrows; [|exact Hg].
    simpl in *. lia. }
  destruct (roi_deltas_Some _ _ _ _ _ Hds) as (gmap' & Hgmap' & Hdslen & Hdsrow).
  assert (gmap' = gmap) as -> by congruence.
  assert (has_shape3 T 4 ds) as Hdsshape.
  { apply Forall_lookup. intros b drow Hb.
    destruct (Hdsrow _ _ Hb) as (rrow & grow & Hr & Hg & Hlen & ->).
    eapply (proj1 (Forall_lookup _ _)) in Hroi; [|exact Hr].
    eapply (proj1 (Forall_lookup _ _)) in Hgmshape; [|exact Hg].
    destruct Hroi as [Hr1 Hr2], Hgmshape as [Hg1 Hg2]. split.
    - rewrite length_zip_with. lia.
    - apply Forall_lookup. intros j d Hj.
      apply lookup_zip_with_Some in Hj as (r & g & -> & Hrj & Hgj).
      unfold target_delta. destruct (has_extent g); [|done].
      apply Henc.
      + by eapply (proj1 (Forall_lookup _ _)) in Hr2.
      + by eapply (proj1 (Forall_lookup _ _)) in Hg2. }
  destruct (has_shape3_join _ _ _ Hdsshape) as (Hdsrows & _ & _).
  (* the scatters *)
  destruct (scatter_nd3_is_Some zero_box box_add lm ds (shape0 roi_bboxes) T
              (total_labels hp)) as (idx & Hsi & [sd Hsd]); [done..|].
  destruct (scatter_nd3_is_Some 0%Z Z.add lm
              (fill (shape0 roi_bboxes) T 1%Z) (shape0 roi_bboxes) T
              (total_labels hp)) as (idx' & Hsi' & [sl Hsl]); [done..| | |].
  { apply length_fill. }
  { apply Forall_replicate, length_replicate. }
  assert (idx' = idx) as -> by congruence.
  unfold RoIDelta_call. fold T. rewrite Hlm. simpl. rewrite Hds. simpl.
  rewrite Hsi. simpl. rewrite option_guard_True.
  - simpl. rewrite Hsd. simpl. rewrite Hsl. done.
  - eapply list.Forall_impl; [exact Hdsshape|]. by intros ? [_ ?].
Qed.
Lemma join_replicate_zero_box n :
  mjoin (replicate n (zero_box (R:=R))) = replicate (n * 4) fzero.
Proof. induction n as [|n IH]; [done|]. simpl. by rewrite IH. Qed.

Lemma has_extent_zero_box :
  rltb (R:=R) rzero rzero = false → has_extent (R:=R) zero_box = false.
Proof. intros H0. unfold has_extent, zero_box, fzero. simpl. by rewrite H0. Qed.

(** The cells of one slot of the two outputs of [RoIDelta.call]. *)
Lemma RoIDelta_call_slot
    hp roi_bboxes gt_boxes gt_labels gt_box_indices n deltas labels lm ds b i c d :
  Forall (λ r, length r = n) gt_box_indices →
  RoIDelta_call hp roi_bboxes gt_boxes gt_labels gt_box_indices
    = Some (deltas, labels) →
  gt_labels_map hp (shape0 roi_bboxes) gt_labels gt_box_indices = Some lm →
  roi_deltas hp roi_bboxes gt_boxes gt_box_indices = Some ds →
  slot lm b i = Some c → slot ds b i = Some d →
  (0 ≤ c < Z.of_nat (total_labels hp))%Z
  ∧ slot labels b i
    = Some (<[Z.to_nat c := 1%Z]> (replicate (total_labels hp) 0%Z))
  ∧ slot deltas b i
    = Some (mjoin (<[Z.to_nat c := stop_gradient_box d]>
                     (replicate (total_labels hp) zero_box))).
Proof.
  intros Hrect Hcall Hlm Hds Hc Hd. unfold RoIDelta_call in Hcall.
  rewrite Hlm in Hcall. simpl in Hcall. rewrite Hds in Hcall. simpl in Hcall.
  destruct (get_scatter_indices_for_bboxes _ _ _) as [idx|] eqn:Hidx; [|done].
  simpl in Hcall. open_guard Hcall Hcells.
  destruct (scatter_nd3 zero_box _ _ _ _ _ _) as [sd|] eqn:Hsd; [|done].
  simpl in Hcall.
  destruct (scatter_nd3 0%Z _ _ _ _ _ _) as [sl|] eqn:Hsl; [|done].
  simpl in Hcall. simplify_eq.
  destruct (gt_labels_map_Some _ _ _ _ _ _ Hrect Hlm) as (Hllen & Hlrows & _).
  set (T := total_pos_bboxes hp + total_neg_bboxes hp) in *.
  apply slot_Some in Hc as (lrow & Hlrow & Hci).
  apply slot_Some in Hd as (drow & Hdrow & Hdi).
  assert (Forall (λ r, length r = T) lm) as HlT.
  { assert (shape0 roi_bboxes ≠ 0) as H0.
    { apply lookup_lt_Some in Hlrow. lia. }
    unfold get_scatter_indices_for_bboxes in Hidx.
    destruct (concat_columns _) as [tuples|] eqn:Hcols; [|done].
    apply concat_columns_Some in Hcols as (Hcols & _ & _).
    apply Forall_cons in Hcols as [_ Hcols].
    apply Forall_cons in Hcols as [Hcols _].
    rewrite get_tiled_indices_length, length_join in Hcols.
    rewrite (sum_list_fmap_same (n + total_neg_bboxes hp)) in Hcols by done.
    assert (n + total_neg_bboxes hp = T) as <- by nia. done. }
  destruct (scatter_nd3_slots _ _ _ _ _ _ _ _ _ Hllen HlT Hidx Hsd)
    as (_ & Hdlen & HdT & Hdslot).
  destruct (scatter_nd3_slots _ _ _ _ _ _ _ _ _ Hllen HlT Hidx Hsl)
    as (_ & _ & _ & Hlslot).
  assert (b < shape0 roi_bboxes) as Hb.
  { apply lookup_lt_Some in Hlrow. lia. }
  assert (i < T) as Hi.
  { eapply (proj1 (Forall_lookup _ _)) in HlT; [|exact Hlrow].
    apply lookup_lt_Some in Hci. simpl in HlT. lia. }
  destruct (Hlslot b i lrow c (replicate T 1%Z) 1%Z) as (Hcin & orow & Ho & _ & Hoi);
    [done|done| |by apply lookup_replicate_2|].
  { unfold fill. by apply lookup_replicate_2. }
  destruct (Hdslot b i lrow c drow d) as (_ & orow' & Ho' & _ & Hoi');
    [done..|].
  split; [done|]. split.
  - apply slot_Some. eauto.
  - apply slot_Some. unfold stop_gradient, merge_last_axes.
    eexists. split.
    + rewrite !list_lookup_fmap, Ho'. done.
    + assert (length d = 4) as Hd4.
      { eapply (proj1 (Forall_lookup _ _)) in Hcells; [|exact Hdrow].
        by eapply (proj1 (Forall_lookup _ _)) in Hcells. }
      rewrite !list_lookup_fmap, Hoi', box_add_0_l by done.
      cbn [fmap option_fmap option_map]. f_equal.
      by rewrite stop_gradient_box_join, list_fmap_insert, fmap_replicate.
Qed.

(** C3: in the two tensors [RoIDelta.call] returns, every negative slot
    (the last [total_neg_bboxes] of an image) has the indicator of the
    background class [total_labels - 1] and the all-zero delta, and every
    positive slot has the indicator of the label its entry of the GT Index
    Map selects and, in the column of that label, the delta of its own box
    against the ground-truth box the entry selects.  And [RoIDelta.call]
    returns on inputs of the documented shapes, when the GT Index Map
    addresses ground-truth boxes whose labels are classes. *)
Theorem RoIDelta_assignment
    hp roi_bboxes gt_boxes gt_labels gt_box_indices :
  rltb (R:=R) rzero rzero = false →
  Forall (λ r, length r = total_pos_bboxes hp) gt_box_indices →
  (∀ deltas labels,
     RoIDelta_call hp roi_bboxes gt_boxes gt_labels gt_box_indices
       = Some (deltas, labels) →
     ∀ b, b < shape0 roi_bboxes →
       ∃ idx image_labels image_boxes rrow,
         gt_box_indices !! b = Some idx
         ∧ gt_labels !! b = Some image_labels
         ∧ gt_boxes !! b = Some image_boxes
         ∧ roi_bboxes !! b = Some rrow
         ∧ (∀ j, total_pos_bboxes hp ≤ j →
              j < total_pos_bboxes hp + total_neg_bboxes hp →
              slot labels b j
              = Some (<[total_labels hp - 1 := 1%Z]>
                        (replicate (total_labels hp) 0%Z))
              ∧ slot deltas b j = Some (replicate (total_labels hp * 4) fzero))
         ∧ (∀ j, j < total_pos_bboxes hp →
              ∃ k label gbox rbox,
                idx !! j = Some k
                ∧ index image_labels k = Some label
                ∧ index image_boxes k = Some gbox
                ∧ rrow !! j = Some rbox
                ∧ (0 ≤ label < Z.of_nat (total_labels hp))%Z
                ∧ slot labels b j
                  = Some (<[Z.to_nat label := 1%Z]>
                            (replicate (total_labels hp) 0%Z))
                ∧ slot deltas b j
                  = Some (mjoin (<[Z.to_nat label :=
                                     stop_gradient_box (target_delta rbox gbox)]>
                                   (replicate (total_labels hp) zero_box)))))
  ∧ (0 < total_labels hp →
     (∀ r g : list (scalar R), length r = 4 → length g = 4 →
        length (encode r g) = 4) →
     has_shape3 (total_pos_bboxes hp + total_neg_bboxes hp) 4 roi_bboxes →
     Forall (Forall (λ g, length g = 4)) gt_boxes →
     length gt_boxes = length roi_bboxes →
     length gt_labels = length roi_bboxes →
     length gt_box_indices = length roi_bboxes →
     (∀ b idx boxes labels,
        gt_box_indices !! b = Some idx → gt_boxes !! b = Some boxes →
        gt_labels !! b = Some labels →
        Forall (λ k, (0 ≤ k < Z.of_nat (length boxes))%Z
                     ∧ ∃ l, index labels k = Some l
                            ∧ (0 ≤ l < Z.of_nat (total_labels hp))%Z) idx) →
     is_Some (RoIDelta_call hp roi_bboxes gt_boxes gt_labels gt_box_indices)).
Proof.
  intros Hlt0 Hrect. split; [|intros; by apply RoIDelta_call_is_Some].
  intros deltas labels Hcall b Hblt.
  pose proof Hcall as Hcall'. unfold RoIDelta_call in Hcall'.
  destruct (gt_labels_map _ _ _ _) as [lm|] eqn:Hlm; [|done].
  simpl in Hcall'.
  destruct (roi_deltas _ _ _ _) as [ds|] eqn:Hds; [|done]. clear Hcall'.
  destruct (gt_labels_map_Some _ _ _ _ _ _ Hrect Hlm) as (Hllen & Hlrows & Hl).
  destruct (roi_deltas_Some _ _ _ _ _ Hds) as (gmap & Hgmap & Hdlen & Hd).
  destruct (lookup_lt_is_Some_2 roi_bboxes b) as [rrow Hb]; [done|].
  destruct (lookup_lt_is_Some_2 lm b) as [lrow Hlrow]; [lia|].
  destruct (lookup_lt_is_Some_2 ds b) as [drow Hdrow]; [lia|].
  destruct (Hl _ _ Hlrow) as (ilabels & idx & plabs & Hlabels & Hidx & Hpl & ->).
  destruct (Hd _ _ Hdrow) as (rrow' & grow & Hr & Hg & Hlen & ->).
  assert (rrow' = rrow) as -> by congruence.
  destruct (get_gt_boxes_map_lookup _ _ _ _ _ _ _ Hgmap Hg)
    as (boxes & idx' & pboxes & Hboxes & Hidx' & Hpb & ->).
  assert (idx' = idx) as -> by congruence.
  assert (length idx = total_pos_bboxes hp) as Hn.
  { by eapply (proj1 (Forall_lookup _ _)) in Hrect. }
  pose proof (Forall2_length _ _ _ Hpl) as Hn1.
  pose proof (Forall2_length _ _ _ Hpb) as Hn2.
  rewrite length_app, length_replicate in Hlen.
  exists idx, ilabels, boxes, rrow. split_and!; [done..| |].
  - intros j Hj1 Hj2.
    destruct (lookup_lt_is_Some_2 rrow j) as [rbox Hrbox]; [lia|].
    destruct (RoIDelta_call_slot _ _ _ _ _ _ _ _ _ _ b j
                (Z.of_nat (total_labels hp) - 1)%Z zero_box
                Hrect Hcall Hlm Hds) as (Hc & Hlab & Hdel).
    { apply slot_Some. eexists. split; [done|].
      rewrite lookup_app_r by lia. apply lookup_replicate_2. lia. }
    { apply slot_Some. eexists. split; [done|].
      apply lookup_zip_with_Some. exists rbox, zero_box.
      split_and!; [|done|].
      - unfold target_delta. by rewrite has_extent_zero_box.
      - rewrite lookup_app_r by lia. apply lookup_replicate_2. lia. }
    replace (Z.to_nat (Z.of_nat (total_labels hp) - 1)) with (total_labels hp - 1)
      in Hlab, Hdel by lia.
    split; [done|]. rewrite Hdel. f_equal.
    by rewrite insert_replicate, join_replicate_zero_box.
  - intros j Hj.
    destruct (lookup_lt_is_Some_2 idx j) as [k Hk]; [lia|].
    destruct (Forall2_lookup_l _ _ _ _ _ Hpl Hk) as (label & Hlabel & Hkl).
    destruct (Forall2_lookup_l _ _ _ _ _ Hpb Hk) as (gbox & Hgbox & Hkb).
    destruct (lookup_lt_is_Some_2 rrow j) as [rbox Hrbox]; [lia|].
    destruct (RoIDelta_call_slot _ _ _ _ _ _ _ _ _ _ b j label
                (target_delta rbox gbox) Hrect Hcall Hlm Hds)
      as (Hc & Hlab & Hdel).
    { apply slot_Some. eexists. split; [done|]. by rewrite lookup_app_l by lia. }
    { apply slot_Some. eexists. split; [done|].
      apply lookup_zip_with_Some. exists rbox, gbox.
      split_and!; [done..|]. by rewrite lookup_app_l by lia. }
    exists k, label, gbox, rbox. done.
Qed.
End target_assigner.

(** ** The RoI Pooler *)

Section roi_pooler.
Context {R : Type} `{!Float R, !Helpers R}.
Implicit Types (hp : hyper_params) (roi_bboxes : list (list (list (scalar R)))).

Lemma crop_and_resize_lookup (image : list (list (list (list (scalar R)))))
    boxes box_indices crop_size crops k box b :
  crop_and_resize image boxes box_indices crop_size = Some crops →
  boxes !! k = Some box → box_indices !! k = Some (Z.of_nat b) →
  ∃ img, image !! b = Some img ∧ crops !! k = Some (crop_box img box crop_size).
Proof.
  unfold crop_and_resize. intros Hc Hbox Hidx.
  open_guard Hc Hdims. open_guard Hc Hlen. open_guard Hc Hsize.
  apply mapM_Some in Hc.
  assert (zip boxes box_indices !! k = Some (box, Z.of_nat b)) as Hz.
  { apply lookup_zip_with_Some. eauto. }
  destruct (Forall2_lookup_l _ _ _ _ _ Hc Hz) as (crop & Hcrop & Heq).
  simpl in Heq. rewrite index_of_nat in Heq.
  destruct (image !! b) as [img|]; [|done]. simpl in Heq. simplify_eq. eauto.
Qed.

Lemma crop_and_resize_guards (image : list (list (list (list (scalar R)))))
    boxes box_indices crop_size crops :
  crop_and_resize image boxes box_indices crop_size = Some crops →
  positive_image_dims image ∧ positive_crop_size crop_size
  ∧ length box_indices = length boxes ∧ length crops = length boxes.
Proof.
  unfold crop_and_resize. intros Hc.
  open_guard Hc Hdims. open_guard Hc Hlen. open_guard Hc Hsize.
  apply length_mapM in Hc. rewrite length_zip in Hc.
  split_and!; [done|done|lia|lia].
Qed.

Lemma crop_and_resize_is_Some (image : list (list (list (list (scalar R)))))
    boxes box_indices crop_size :
  positive_image_dims image → positive_crop_size crop_size →
  length boxes = length box_indices →
  Forall (λ idx, is_Some (index image idx)) box_indices →
  is_Some (crop_and_resize image boxes box_indices crop_size).
Proof.
  intros Hdims Hsize Hlen Hidx. unfold crop_and_resize.
  rewrite (option_guard_True (positive_image_dims _)) by done. simpl.
  rewrite (option_guard_True (length _ = _)) by done. simpl.
  rewrite (option_guard_True (positive_crop_size _)) by done. simpl.
  apply mapM_is_Some, Forall_forall. intros [box idx] Hin.
  apply elem_of_zip_r in Hin. unfold compose. simpl.
  destruct (proj1 (Forall_forall _ _) Hidx idx Hin) as [img ->]. done.
Qed.

Lemma RoIPooling_call_Some hp feature_map roi_bboxes out :
  has_shape3 (total_pos_bboxes hp + total_neg_bboxes hp) 4 roi_bboxes →
  RoIPooling_call hp feature_map roi_bboxes = Some out →
  length out = length roi_bboxes
  ∧ Forall (λ r, length r = total_pos_bboxes hp + total_neg_bboxes hp) out
  ∧ ∀ b i box, slot roi_bboxes b i = Some box →
      ∃ img, feature_map !! b = Some img
             ∧ slot out b i = Some (crop_box img box (pooling_size hp)).
Proof.
  intros Hshape Hcall. unfold RoIPooling_call, shape0 in Hcall.
  set (T := total_pos_bboxes hp + total_neg_bboxes hp) in *.
  destruct (has_shape3_join _ _ _ Hshape) as (Hrows & Hjl & Hcells).
  unfold reshape2 in Hcall. open_guard Hcall Hlen.
  rewrite <-Hjl, rows_of_join in Hcall by done.
  destruct (crop_and_resize _ _ _ _) as [crops|] eqn:Hcrops; [|done].
  simpl in Hcall. open_guard Hcall Hclen. simplify_eq.
  split_and!.
  - apply length_rows_of.
  - apply Forall_lookup. intros b r Hb.
    apply rows_of_lookup_Some in Hb as (_ & _ & ?); [done|lia].
  - intros b i box Hbox. apply slot_Some in Hbox as (row & Hrow & Hi).
    assert (b < length roi_bboxes) as Hb by (by eapply lookup_lt_Some).
    assert (i < T) as HiT.
    { eapply (proj1 (Forall_lookup _ _)) in Hrows; [|done].
      rewrite <-Hrows. by eapply lookup_lt_Some. }
    destruct (crop_and_resize_lookup _ _ _ _ _ (b * T + i) box b Hcrops)
      as (img & Himg & Hcrop).
    { apply (join_lookup_Some_same_length' T); eauto. }
    { by apply get_tiled_indices_lookup. }
    exists img. split; [done|]. apply slot_Some.
    exists (take T (drop (b * T) crops)). split.
    + by apply rows_of_lookup.
    + by rewrite lookup_take_lt, lookup_drop by done.
Qed.

Lemma get_tiled_indices_elem batch_size row_size x :
  x ∈ get_tiled_indices batch_size row_size →
  ∃ b, b < batch_size ∧ x = Z.of_nat b.
Proof.
  unfold get_tiled_indices. intros Hx.
  apply list_elem_of_join in Hx as (l & Hx & Hl).
  apply list_elem_of_fmap in Hl as (b & -> & Hb).
  apply elem_of_seq in Hb. apply elem_of_replicate in Hx as [-> _].
  exists b. split; [lia|done].
Qed.

Lemma RoIPooling_call_is_Some hp
    (feature_map : list (list (list (list (scalar R))))) roi_bboxes :
  has_shape3 (total_pos_bboxes hp + total_neg_bboxes hp) 4 roi_bboxes →
  length roi_bboxes ≤ length feature_map →
  positive_image_dims feature_map → positive_crop_size (pooling_size hp) →
  is_Some (RoIPooling_call hp feature_map roi_bboxes).
Proof.
  intros Hshape Hfm Hdims Hsize. unfold RoIPooling_call, shape0.
  set (T := total_pos_bboxes hp + total_neg_bboxes hp) in *.
  destruct (has_shape3_join _ _ _ Hshape) as (Hrows & Hjl & Hcells).
  unfold reshape2 at 2. rewrite option_guard_True; simpl.
  2:{ by rewrite length_join, (sum_list_fmap_same 4), Hjl. }
  rewrite <-Hjl, rows_of_join by done.
  assert (is_Some (crop_and_resize feature_map (mjoin roi_bboxes)
            (get_tiled_indices (length roi_bboxes) T) (pooling_size hp)))
    as [crops Hcrops].
  { apply crop_and_resize_is_Some; [done|done| |].
    - by rewrite get_tiled_indices_length.
    - apply Forall_forall. intros idx Hin.
      apply get_tiled_indices_elem in Hin as (b & Hb & ->).
      rewrite index_of_nat. apply lookup_lt_is_Some_2. lia. }
  rewrite Hcrops. simpl. unfold reshape2. rewrite option_guard_True; [done|].
  apply crop_and_resize_guards in Hcrops as (_ & _ & _ & ->). done.
Qed.

Lemma RoIPooling_call_guards hp feature_map roi_bboxes out :
  RoIPooling_call hp feature_map roi_bboxes = Some out →
  positive_image_dims feature_map ∧ positive_crop_size (pooling_size hp).
Proof.
  unfold RoIPooling_call. intros Hcall.
  apply bind_Some in Hcall as (boxes & _ & Hcall).
  apply bind_Some in Hcall as (crops & Hcrops & _).
  by apply crop_and_resize_guards in Hcrops as (? & ? & _).
Qed.

Lemma RoIPooling_call_row hp feature_map roi_bboxes out b img row :
  has_shape3 (total_pos_bboxes hp + total_neg_bboxes hp) 4 roi_bboxes →
  RoIPooling_call hp feature_map roi_bboxes = Some out →
  feature_map !! b = Some img → roi_bboxes !! b = Some row →
  out !! b = Some ((λ box, crop_box img box (pooling_size hp)) <$> row).
Proof.
  intros Hshape Hcall Himg Hrow.
  destruct (RoIPooling_call_Some _ _ _ _ Hshape Hcall) as (Hlen & Hrows & Hslot).
  destruct (lookup_lt_is_Some_2 out b) as [orow Horow].
  { rewrite Hlen. by eapply lookup_lt_Some. }
  rewrite Horow. f_equal. apply list_eq. intros i.
  rewrite list_lookup_fmap.
  destruct (row !! i) as [box|] eqn:Hbox; simpl.
  - destruct (Hslot b i box) as (img' & Himg' & Hs).
    { apply slot_Some. eauto. }
    apply slot_Some in Hs as (orow' & Horow' & Hs). by simplify_eq.
  - apply lookup_ge_None. apply lookup_ge_None in Hbox.
    eapply (proj1 (Forall_lookup _ _)) in Hrows; [|done].
    eapply (proj1 (Forall_lookup _ _)) in Hshape; [|done].
    destruct Hshape as [Hshape _]. lia.
Qed.

(** C5: the pooled features of the image [b] of a batch are those of the
    crops of its own boxes in its own feature map: they are what
    [RoIPooling.call] returns on that image alone, and they are the same
    for any other batch with this image in position [b]. *)
Theorem RoIPooling_batch_isolation hp feature_map roi_bboxes out b img row :
  has_shape3 (total_pos_bboxes hp + total_neg_bboxes hp) 4 roi_bboxes →
  RoIPooling_call hp feature_map roi_bboxes = Some out →
  feature_map !! b = Some img → roi_bboxes !! b = Some row →
  ∃ pooled,
    out !! b = Some pooled
    ∧ pooled = (λ box, crop_box img box (pooling_size hp)) <$> row
    ∧ RoIPooling_call hp [img] [row] = Some [pooled]
    ∧ ∀ feature_map' out',
        feature_map' !! b = Some img →
        RoIPooling_call hp feature_map' roi_bboxes = Some out' →
        out' !! b = Some pooled.
Proof.
  intros Hshape Hcall Himg Hrow. eexists. split_and!; [|done| |].
  - by eapply RoIPooling_call_row.
  - assert (has_shape3 (total_pos_bboxes hp + total_neg_bboxes hp) 4 [row])
      as Hshape1.
    { apply Forall_singleton.
      by eapply (proj1 (Forall_lookup _ _)) in Hshape. }
    destruct (RoIPooling_call_guards _ _ _ _ Hcall) as [Hdims Hsize].
    destruct (RoIPooling_call_is_Some hp [img] [row] Hshape1) as [out1 Hout1];
      [done| |done|].
    { apply Forall_singleton.
      by eapply (proj1 (Forall_lookup _ _)) in Hdims. }
    rewrite Hout1. f_equal.
    pose proof (RoIPooling_call_row _ _ _ _ 0 img row Hshape1 Hout1
                  eq_refl eq_refl) as H0.
    destruct (RoIPooling_call_Some _ _ _ _ Hshape1 Hout1) as (Hlen & _ & _).
    destruct out1 as [|o [|? ?]]; simplify_eq/=. done.
  - intros feature_map' out' Himg' Hcall'. by eapply RoIPooling_call_row.
Qed.
End roi_pooler.

(** ** The Inference Decoder *)

Section gather_nd.
Context {A : Type}.
Implicit Types (t : list (list A)).

Lemma index_nd_of_nat t (b i : nat) :
  index_nd t [Z.of_nat b; Z.of_nat i] = slot t b i.
Proof.
  unfold index_nd, slot. rewrite index_of_nat.
  destruct (t !! b) as [row|]; [|done]. simpl. apply index_of_nat.
Qed.

Lemma index_nd_Some t p x :
  index_nd t p = Some x →
  ∃ b i, p = [Z.of_nat b; Z.of_nat i] ∧ slot t b i = Some x.
Proof.
  unfold index_nd. intros Hp.
  destruct p as [|zb [|zi [|? ?]]]; try done.
  destruct (index t zb) as [row|] eqn:Hrow; [|done]. simpl in Hp.
  apply index_Some in Hrow as [? Hrow]. apply index_Some in Hp as [? Hp].
  exists (Z.to_nat zb), (Z.to_nat zi). rewrite !Z2Nat.id by done.
  split; [done|]. apply slot_Some. eauto.
Qed.

Lemma gather_nd_lookup t indices out v p :
  gather_nd t indices = Some out → indices !! v = Some p →
  ∃ x, out !! v = Some x ∧ index_nd t p = Some x.
Proof.
  unfold gather_nd. intros Hg Hp. apply mapM_Some in Hg.
  by apply (Forall2_lookup_l _ _ _ _ _ Hg Hp).
Qed.

Lemma where_row_Forall2 t (P : A → Prop) `{!∀ x, Decision (P x)}
    b rpre row (crow : list bool) :
  t !! b = Some (rpre ++ row) →
  Forall2 (λ x (c : bool), c = true ↔ P x) row crow →
  Forall2 (λ p x, index_nd t p = Some x)
    (where_row b (length rpre) crow) (filter P row).
Proof.
  intros Hb Hrel. revert rpre Hb.
  induction Hrel as [|x c row crow Hc _ IH]; intros rpre Hb; simpl.
  { constructor. }
  specialize (IH (rpre ++ [x])). rewrite length_app, Nat.add_1_r in IH.
  rewrite <-app_assoc in IH. specialize (IH Hb).
  destruct c.
  - rewrite filter_cons_True by (by apply Hc). constructor; [|done].
    rewrite index_nd_of_nat. apply slot_Some. eexists. split; [done|].
    by rewrite list_lookup_middle.
  - rewrite filter_cons_False; [done|]. intros Hx. by apply Hc in Hx.
Qed.

Lemma where_from_Forall2 t (P : A → Prop) `{!∀ x, Decision (P x)}
    tpre trest (cond : list (list bool)) :
  t = tpre ++ trest →
  Forall2 (Forall2 (λ x (c : bool), c = true ↔ P x)) trest cond →
  Forall2 (λ p x, index_nd t p = Some x)
    (where_from (length tpre) cond) (filter P (mjoin trest)).
Proof.
  intros Ht Hrel. revert tpre Ht.
  induction Hrel as [|row crow trest cond Hrow _ IH]; intros tpre Ht; simpl.
  { constructor. }
  rewrite filter_app. apply Forall2_app.
  - apply (where_row_Forall2 t P (length tpre) [] row crow); [|done].
    subst t. simpl. by rewrite list_lookup_middle.
  - specialize (IH (tpre ++ [row])). rewrite length_app, Nat.add_1_r in IH.
    apply IH. by rewrite <-app_assoc.
Qed.

Lemma gather_nd_where2 t (P : A → Prop) `{!∀ x, Decision (P x)}
    (cond : list (list bool)) :
  Forall2 (Forall2 (λ x (c : bool), c = true ↔ P x)) t cond →
  gather_nd t (where2 cond) = Some (filter P (mjoin t)).
Proof.
  intros Hrel. apply mapM_Some.
  by apply (where_from_Forall2 t P [] t cond).
Qed.
End gather_nd.

Lemma where2_true (cond : list (list bool)) v p :
  where2 cond !! v = Some p →
  ∃ b i, p = [Z.of_nat b; Z.of_nat i] ∧ slot cond b i = Some true.
Proof.
  intros Hp.
  pose proof (gather_nd_where2 cond (λ c, c = true) cond) as Hg.
  destruct (gather_nd_lookup cond _ _ v p (Hg ltac:(
    apply Forall_Forall2_diag, Forall_forall; intros row _;
    apply Forall_Forall2_diag, Forall_forall; by intros c _)) Hp)
    as (x & Hx & Hidx).
  apply list_elem_of_lookup_2, list_elem_of_filter in Hx as [-> _].
  by apply index_nd_Some.
Qed.

Lemma scatter_pairs_lookup (cs : list Z) n tuples :
  concat_columns [Z.of_nat <$> seq 0 n; cs] = Some tuples →
  length cs = n ∧ length tuples = n
  ∧ Forall (λ p, length p = 2) tuples
  ∧ ∀ v c, cs !! v = Some c → tuples !! v = Some [Z.of_nat v; c].
Proof.
  intros Hcols. apply concat_columns_Some in Hcols as (Hlen & Hl & Hk).
  rewrite length_fmap, length_seq in Hl, Hk.
  rewrite Forall_singleton, length_fmap, length_seq in Hlen.
  split_and!; [done..| |].
  - apply Forall_lookup. intros v p Hv.
    assert (v < n) as Hvn by (rewrite <-Hl; by eapply lookup_lt_Some).
    rewrite (Hk v Hvn) in Hv. by simplify_eq.
  - intros v c Hc.
    assert (v < n) as Hvn by (rewrite <-Hlen; by eapply lookup_lt_Some).
    rewrite (Hk v Hvn). simpl.
    by rewrite list_lookup_fmap, lookup_seq_lt, Hc by done.
Qed.

Lemma scatter_nd2_rows {A} (zero : A) add (cs : list Z) (updates : list A)
    n total_labels tuples out :
  concat_columns [Z.of_nat <$> seq 0 n; cs] = Some tuples →
  scatter_nd2 zero add tuples updates n total_labels = Some out →
  length out = n ∧ length updates = n
  ∧ ∀ v c u, cs !! v = Some c → updates !! v = Some u →
      (0 ≤ c < Z.of_nat total_labels)%Z
      ∧ out !! v
        = Some (<[Z.to_nat c := add zero u]> (replicate total_labels zero)).
Proof.
  intros Hcols Hsc.
  destruct (scatter_pairs_lookup _ _ _ Hcols) as (Hcl & Htl & _ & Htup).
  unfold scatter_nd2 in Hsc. open_guard Hsc Hlen. open_guard Hsc Hin.
  simplify_eq.
  split_and!; [by rewrite length_fmap, length_seq|lia|].
  intros v c u Hc Hu.
  assert (v < length cs) as Hv by (by eapply lookup_lt_Some).
  pose proof (Htup v c Hc) as Hk.
  assert (0 ≤ c < Z.of_nat total_labels)%Z as Hcin.
  { eapply (proj1 (Forall_lookup _ _)) in Hin; [|exact Hk].
    unfold in_bounds in Hin. by decompose_Forall. }
  split; [done|].
  rewrite list_lookup_fmap, lookup_seq_lt by done. simpl. f_equal.
  assert (∀ j q w c', zip tuples updates !! j = Some (q, w) →
            q = [Z.of_nat v; c'] → j = v ∧ c' = c) as Huniq.
  { intros j q w c' Hj ->.
    apply lookup_zip_with_Some in Hj as (q' & w' & [= <- <-] & Hq & _).
    destruct (lookup_lt_is_Some_2 cs j) as [cj Hcj].
    { rewrite <-Htl. by eapply lookup_lt_Some. }
    rewrite (Htup j cj Hcj) in Hq. simplify_eq.
    split; [done|]. congruence. }
  apply list_eq. intros c'. rewrite list_lookup_fmap.
  destruct (decide (c' < total_labels)) as [Hc'|Hc'].
  - rewrite lookup_seq_lt by done. simpl.
    destruct (decide (c' = Z.to_nat c)) as [->|Hne].
    + rewrite list_lookup_insert_eq by (rewrite length_replicate; lia).
      f_equal. rewrite Z2Nat.id by lia.
      apply (scatter_cell_hit _ _ _ _ v).
      * apply lookup_zip_with_Some. eauto.
      * intros j q w Hj Hq. by destruct (Huniq j q w c Hj Hq).
    + rewrite list_lookup_insert_ne by done.
      rewrite lookup_replicate_2 by done. f_equal.
      apply scatter_cell_miss. intros j q w Hj Hq.
      destruct (Huniq j q w _ Hj Hq) as [_ Hcc]. lia.
  - rewrite lookup_seq_ge by lia. simpl. symmetry.
    apply lookup_ge_None. rewrite length_insert, length_replicate. lia.
Qed.

Section inference_decoder.
Context {R : Type} `{!Float R, !Helpers R}.
Hypothesis radd_0_l : ∀ x : R, radd rzero x = x.
Implicit Types (roi_bboxes : list (list (list (scalar R))))
  (frcnn_delta_pred frcnn_label_pred : list (list (list (scalar R)))).

Lemma argmax_axis2_Some frcnn_label_pred plm :
  argmax_axis2 frcnn_label_pred = Some plm →
  Forall2 (Forall2 (λ scores c, argmax scores = Some c)) frcnn_label_pred plm.
Proof.
  unfold argmax_axis2. intros H. apply mapM_Some in H.
  eapply Forall2_impl; [exact H|]. intros row crow Hrow. by apply mapM_Some.
Qed.

Lemma valid_condition frcnn_label_pred plm total_labels :
  Forall2 (Forall2 (λ scores c, argmax scores = Some c)) frcnn_label_pred plm →
  Forall2 (Forall2 (λ scores (c : bool),
             c = true ↔ not_background total_labels scores))
    frcnn_label_pred
    ((λ row : list Z,
        (λ l, bool_decide (l ≠ (Z.of_nat total_labels - 1)%Z)) <$> row) <$> plm).
Proof.
  intros H. apply Forall2_fmap_r. eapply Forall2_impl; [exact H|].
  intros row crow Hrow. apply Forall2_fmap_r.
  eapply Forall2_impl; [exact Hrow|]. intros scores c Hc. simpl.
  unfold not_background. rewrite Hc, bool_decide_eq_true. naive_solver.
Qed.

(** What a run of [get_valid_predictions] that returns has computed. *)
Lemma get_valid_predictions_Some
    roi_bboxes frcnn_delta_pred frcnn_label_pred total_labels boxes labels :
  get_valid_predictions roi_bboxes frcnn_delta_pred frcnn_label_pred
    total_labels = Some (boxes, labels) →
  ∃ plm indices valid_roi valid_deltas deltas3 valid_labels classes scattered,
    argmax_axis2 frcnn_label_pred = Some plm
    ∧ indices
      = where2 ((λ row : list Z,
          (λ l, bool_decide (l ≠ (Z.of_nat total_labels - 1)%Z)) <$> row)
            <$> plm)
    ∧ gather_nd roi_bboxes indices = Some valid_roi
    ∧ gather_nd frcnn_delta_pred indices = Some valid_deltas
    ∧ reshape3 (length indices) total_labels 4 (mjoin valid_deltas)
      = Some deltas3
    ∧ gather_nd frcnn_label_pred indices = Some valid_labels
    ∧ gather_nd plm indices = Some classes
    ∧ Forall (λ b, length b = 4) valid_roi
    ∧ length scattered = length indices
    ∧ (∀ v c box, classes !! v = Some c → valid_roi !! v = Some box →
         (0 ≤ c < Z.of_nat total_labels)%Z
         ∧ scattered !! v
           = Some (<[Z.to_nat c := box_add zero_box box]>
                     (replicate total_labels zero_box)))
    ∧ boxes = [get_bboxes_from_deltas scattered deltas3]
    ∧ labels = [valid_labels].
Proof.
  unfold get_valid_predictions. intros Hcall.
  destruct (argmax_axis2 _) as [plm|] eqn:Hplm; [|done]. simpl in Hcall.
  set (indices := where2 _) in *.
  destruct (gather_nd roi_bboxes _) as [valid_roi|] eqn:Hroi; [|done].
  simpl in Hcall.
  destruct (gather_nd frcnn_delta_pred _) as [valid_deltas|] eqn:Hdel; [|done].
  simpl in Hcall.
  destruct (reshape3 _ _ _ _) as [deltas3|] eqn:Hd3; [|done]. simpl in Hcall.
  destruct (gather_nd frcnn_label_pred _) as [valid_labels|] eqn:Hlab; [|done].
  simpl in Hcall.
  destruct (gather_nd plm _) as [classes|] eqn:Hcls; [|done]. simpl in Hcall.
  destruct (concat_columns _) as [tuples|] eqn:Hcols; [|done]. simpl in Hcall.
  destruct (scatter_pairs_lookup _ _ _ Hcols) as (_ & Htl & Htp & _).
  unfold reshape2 in Hcall. open_guard Hcall Hlen2.
  replace (rows_of (length indices) 2 (mjoin tuples)) with tuples in Hcall.
  2:{ rewrite <-Htl. symmetry. by apply rows_of_join. }
  open_guard Hcall Hbox4.
  destruct (scatter_nd2 _ _ _ _ _ _) as [scattered|] eqn:Hsc; [|done].
  simpl in Hcall. simplify_eq.
  destruct (scatter_nd2_rows _ _ _ _ _ _ _ _ Hcols Hsc) as (Hsl & _ & Hrows).
  exists plm, indices, valid_roi, valid_deltas, deltas3, valid_labels, classes,
    scattered.
  split_and!; done.
Qed.

Lemma where_from_all_false b (cond : list (list bool)) :
  Forall (Forall (λ c, c = false)) cond → where_from b cond = [].
Proof.
  intros Hall. revert b. induction Hall as [|row cond Hrow _ IH]; intros b.
  { done. }
  simpl. rewrite IH, app_nil_r.
  generalize 0. induction Hrow as [|c row -> _ IHrow]; intros i; [done|].
  simpl. apply IHrow.
Qed.

Lemma Forall2_slot {A B} (P : A → B → Prop) (t : list (list A))
    (u : list (list B)) b i x y :
  Forall2 (Forall2 P) t u → slot t b i = Some x → slot u b i = Some y → P x y.
Proof.
  intros Hrel Hx Hy.
  apply slot_Some in Hx as (row & Hrow & Hx).
  apply slot_Some in Hy as (row' & Hrow' & Hy).
  pose proof (Forall2_lookup_lr _ _ _ _ _ _ Hrel Hrow Hrow') as Hr.
  by eapply Forall2_lookup_lr in Hr.
Qed.

Lemma get_valid_predictions_labels
    roi_bboxes frcnn_delta_pred frcnn_label_pred total_labels boxes labels :
  get_valid_predictions roi_bboxes frcnn_delta_pred frcnn_label_pred
    total_labels = Some (boxes, labels) →
  ∃ valid_boxes,
    boxes = [valid_boxes]
    ∧ labels = [filter (not_background total_labels) (mjoin frcnn_label_pred)]
    ∧ length valid_boxes
      = length (filter (not_background total_labels) (mjoin frcnn_label_pred)).
Proof.
  intros Hcall.
  destruct (get_valid_predictions_Some _ _ _ _ _ _ Hcall)
    as (plm & indices & valid_roi & valid_deltas & deltas3 & valid_labels
        & classes & scattered & Hplm & Hidx & Hroi & Hdel & Hd3 & Hlab & Hcls
        & Hbox4 & Hsl & Hsc & -> & ->).
  pose proof (gather_nd_where2 frcnn_label_pred (not_background total_labels) _
    (valid_condition _ _ total_labels (argmax_axis2_Some _ _ Hplm))) as Hf.
  rewrite <-Hidx, Hlab in Hf. simplify_eq.
  eexists. split_and!; [done..|].
  unfold get_bboxes_from_deltas. rewrite length_zip_with, Hsl.
  unfold reshape3 in Hd3. open_guard Hd3 Hlen. simplify_eq.
  rewrite length_fmap, length_rows_of.
  unfold gather_nd in Hlab. apply length_mapM in Hlab. lia.
Qed.

(** C4: what [get_valid_predictions] returns is one row per proposal whose
    arg-max class is not the class [total_labels - 1], the score rows of
    exactly these proposals in their order; and when the arg-max class of
    every proposal is that class it returns, and returns the two tensors
    with no proposal at all. *)
Theorem get_valid_predictions_discards_background
    roi_bboxes frcnn_delta_pred frcnn_label_pred total_labels :
  (∀ boxes labels,
     get_valid_predictions roi_bboxes frcnn_delta_pred frcnn_label_pred
       total_labels = Some (boxes, labels) →
     ∃ valid_boxes,
       boxes = [valid_boxes]
       ∧ labels
         = [filter (not_background total_labels) (mjoin frcnn_label_pred)]
       ∧ length valid_boxes
         = length (filter (not_background total_labels)
                     (mjoin frcnn_label_pred)))
  ∧ (Forall (Forall (λ scores,
        argmax scores = Some (Z.of_nat total_labels - 1)%Z)) frcnn_label_pred →
     get_valid_predictions roi_bboxes frcnn_delta_pred frcnn_label_pred
       total_labels = Some ([[]], [[]])).
Proof.
  split; [intros boxes labels; apply get_valid_predictions_labels|].
  intros Hall.
  set (bg := (Z.of_nat total_labels - 1)%Z) in *.
  assert (argmax_axis2 frcnn_label_pred
          = Some ((λ row : list (list (scalar R)), (λ _, bg) <$> row)
                    <$> frcnn_label_pred)) as Hplm.
  { unfold argmax_axis2. apply mapM_Some, Forall2_fmap_r, Forall_Forall2_diag.
    eapply list.Forall_impl; [exact Hall|]. intros row Hrow.
    apply mapM_Some, Forall2_fmap_r, Forall_Forall2_diag.
    eapply list.Forall_impl; [exact Hrow|]. by intros scores ->. }
  unfold get_valid_predictions. rewrite Hplm. simpl.
  rewrite (where_from_all_false 0).
  - unfold where2, reshape3, reshape2, scatter_nd2. simpl.
    unfold concat_columns. simpl. reflexivity.
  - unfold where2. apply Forall_fmap, Forall_fmap, Forall_forall.
    intros row _. apply Forall_fmap, Forall_fmap, Forall_forall.
    intros scores _. simpl. apply bool_decide_eq_false. by intros [].
Qed.

Lemma slot_fmap {A B} (f : A → B) (t : list (list A)) b i :
  slot ((λ row : list A, f <$> row) <$> t) b i = f <$> slot t b i.
Proof.
  unfold slot. rewrite list_lookup_fmap.
  destruct (t !! b) as [row|]; [|done]. simpl. apply list_lookup_fmap.
Qed.

Lemma slot_length {A} n (t : list (list (list A))) b i x :
  Forall (Forall (λ r, length r = n)) t →
  slot t b i = Some x → length x = n.
Proof.
  intros Hrect Hx. apply slot_Some in Hx as (row & Hrow & Hx).
  eapply (proj1 (Forall_lookup _ _)) in Hrect; [|exact Hrow].
  by eapply (proj1 (Forall_lookup _ _)) in Hrect.
Qed.

(** C10: the Target Assigner and the Inference Decoder agree on the class
    of the background, the last class [total_labels - 1]: it is the label
    of every negative slot (the slots after those of the GT Index Map), and
    the decoder keeps exactly the proposals whose arg-max class is another
    one.  With at least two classes, the class [0] is not the background:
    no negative slot is labelled [0] and no proposal whose arg-max class
    is [0] is discarded.  With one class, the last class is the class [0]:
    every negative slot is labelled [0] and every proposal whose arg-max
    class is [0] is discarded. *)
Theorem background_is_last_class hp :
  (∀ batch_size gt_labels gt_box_indices lm b lrow idx,
     gt_labels_map hp batch_size gt_labels gt_box_indices = Some lm →
     lm !! b = Some lrow → gt_box_indices !! b = Some idx →
     length lrow = length idx + total_neg_bboxes hp
     ∧ ∀ j, length idx ≤ j → j < length lrow →
         lrow !! j = Some (Z.of_nat (total_labels hp) - 1)%Z)
  ∧ (∀ roi_bboxes frcnn_delta_pred frcnn_label_pred boxes labels,
       get_valid_predictions roi_bboxes frcnn_delta_pred frcnn_label_pred
         (total_labels hp) = Some (boxes, labels) →
       labels
       = [filter (λ scores,
            argmax scores ≠ Some (Z.of_nat (total_labels hp) - 1)%Z)
            (mjoin frcnn_label_pred)])
  ∧ (1 < total_labels hp →
     (∀ batch_size gt_labels gt_box_indices lm b lrow idx j,
        gt_labels_map hp batch_size gt_labels gt_box_indices = Some lm →
        lm !! b = Some lrow → gt_box_indices !! b = Some idx →
        length idx ≤ j → lrow !! j ≠ Some 0%Z)
     ∧ (∀ roi_bboxes frcnn_delta_pred frcnn_label_pred boxes labels scores,
          get_valid_predictions roi_bboxes frcnn_delta_pred frcnn_label_pred
            (total_labels hp) = Some (boxes, labels) →
          scores ∈ mjoin frcnn_label_pred → argmax scores = Some 0%Z →
          ∃ valid_labels, labels = [valid_labels] ∧ scores ∈ valid_labels))
  ∧ (total_labels hp = 1 →
     (∀ batch_size gt_labels gt_box_indices lm b lrow idx j,
        gt_labels_map hp batch_size gt_labels gt_box_indices = Some lm →
        lm !! b = Some lrow → gt_box_indices !! b = Some idx →
        length idx ≤ j → j < length lrow → lrow !! j = Some 0%Z)
     ∧ (∀ roi_bboxes frcnn_delta_pred frcnn_label_pred boxes labels scores,
          get_valid_predictions roi_bboxes frcnn_delta_pred frcnn_label_pred
            (total_labels hp) = Some (boxes, labels) →
          argmax scores = Some 0%Z →
          ∃ valid_labels, labels = [valid_labels] ∧ scores ∉ valid_labels)).
Proof.
  assert (∀ batch_size gt_labels gt_box_indices lm b lrow idx,
     gt_labels_map hp batch_size gt_labels gt_box_indices = Some lm →
     lm !! b = Some lrow → gt_box_indices !! b = Some idx →
     length lrow = length idx + total_neg_bboxes hp
     ∧ ∀ j, length idx ≤ j → j < length lrow →
         lrow !! j = Some (Z.of_nat (total_labels hp) - 1)%Z) as Hneg.
  { intros batch_size gt_labels gt_box_indices lm b lrow idx Hlm Hb Hidx.
    destruct (gt_labels_map_lookup _ _ _ _ _ _ _ Hlm Hb)
      as (labels & idx' & pos & _ & Hidx' & Hpos & ->).
    assert (idx' = idx) as -> by congruence.
    pose proof (Forall2_length _ _ _ Hpos) as Hl.
    rewrite length_app, length_replicate. split; [lia|].
    intros j Hj1 Hj2. rewrite lookup_app_r by lia.
    apply lookup_replicate_2. lia. }
  assert (∀ roi_bboxes frcnn_delta_pred frcnn_label_pred boxes labels,
       get_valid_predictions roi_bboxes frcnn_delta_pred frcnn_label_pred
         (total_labels hp) = Some (boxes, labels) →
       labels
       = [filter (λ scores,
            argmax scores ≠ Some (Z.of_nat (total_labels hp) - 1)%Z)
            (mjoin frcnn_label_pred)]) as Hdec.
  { intros roi_bboxes frcnn_delta_pred frcnn_label_pred boxes labels Hcall.
    by destruct (get_valid_predictions_labels _ _ _ _ _ _ Hcall)
      as (? & _ & -> & _). }
  split_and!; [exact Hneg|exact Hdec| |]; intros Hl; split.
  - intros batch_size gt_labels gt_box_indices lm b lrow idx j Hlm Hb Hidx Hj.
    destruct (Hneg _ _ _ _ _ _ _ Hlm Hb Hidx) as [Hlen Hlast].
    destruct (decide (j < length lrow)) as [Hlt|Hge].
    + rewrite Hlast by done. intros [= H0]. lia.
    + rewrite lookup_ge_None_2 by lia. done.
  - intros roi_bboxes frcnn_delta_pred frcnn_label_pred boxes labels scores
      Hcall Hin Harg.
    rewrite (Hdec _ _ _ _ _ Hcall). eexists. split; [done|].
    apply list_elem_of_filter. split; [|done].
    rewrite Harg. intros [= H0]. lia.
  - intros batch_size gt_labels gt_box_indices lm b lrow idx j Hlm Hb Hidx
      Hj1 Hj2.
    destruct (Hneg _ _ _ _ _ _ _ Hlm Hb Hidx) as [Hlen Hlast].
    rewrite Hlast by done. by rewrite Hl.
  - intros roi_bboxes frcnn_delta_pred frcnn_label_pred boxes labels scores
      Hcall Harg.
    rewrite (Hdec _ _ _ _ _ Hcall). eexists. split; [done|].
    rewrite list_elem_of_filter, Harg, Hl. by intros [? _].
Qed.
End inference_decoder.

(** ** Gradient blocking *)

Section gradient.
Context {R : Type} `{!Float R, !Helpers R}.

Lemma stop_gradient_blocked (t : list (list (list (scalar R)))) :
  Forall (Forall (Forall (λ x, tangent x = rzero))) (stop_gradient t).
Proof.
  unfold stop_gradient, stop_gradient_box.
  apply Forall_fmap, Forall_forall. intros row _.
  apply Forall_fmap, Forall_forall. intros cell _.
  apply Forall_fmap, Forall_forall. by intros x _.
Qed.

(** C8: whatever the tangents of the inputs and whatever the helpers do
    with them, every scalar of the Proposal Batch returned by
    [RoIBBox.call] and of the per-class deltas returned by [RoIDelta.call]
    has the zero tangent; the GT Index Map and the per-class labels are
    integer tensors, which carry no tangent. *)
Theorem outputs_gradient_blocked hp :
  (∀ (rpn_bbox_deltas rpn_labels : list (scalar R)) anchors gt_boxes
     roi_bboxes gt_box_indices,
     RoIBBox_call hp rpn_bbox_deltas rpn_labels anchors gt_boxes
       = Some (roi_bboxes, gt_box_indices) →
     Forall (Forall (Forall (λ x, tangent x = rzero))) roi_bboxes)
  ∧ (∀ (roi_bboxes gt_boxes : list (list (list (scalar R))))
       gt_labels gt_box_indices roi_bbox_deltas roi_bbox_labels,
       RoIDelta_call hp roi_bboxes gt_boxes gt_labels gt_box_indices
         = Some (roi_bbox_deltas, roi_bbox_labels) →
       Forall (Forall (Forall (λ x, tangent x = rzero))) roi_bbox_deltas).
Proof.
  split.
  - intros rpn_bbox_deltas rpn_labels anchors gt_boxes roi gti Hcall.
    unfold RoIBBox_call in Hcall.
    destruct (RoIBBox_nms _ _ _ _) as [nms|]; [|done]. simpl in Hcall.
    destruct (get_selected_indices _ _ _ _) as [[pos neg] gt].
    destruct (gather _ _) as [pos_roi|]; [|done]. simpl in Hcall.
    destruct (concat_axis1 _ _) as [roi'|]; [|done]. simpl in Hcall.
    simplify_eq. apply stop_gradient_blocked.
  - intros roi gt_boxes gt_labels gti deltas labels Hcall.
    unfold RoIDelta_call in Hcall.
    destruct (gt_labels_map _ _ _ _) as [lm|]; [|done]. simpl in Hcall.
    destruct (roi_deltas _ _ _ _) as [ds|]; [|done]. simpl in Hcall.
    destruct (get_scatter_indices_for_bboxes _ _ _) as [idx|]; [|done].
    simpl in Hcall.
    destruct (guard _) as [?|]; [|done]. simpl in Hcall.
    destruct (scatter_nd3 zero_box _ _ _ _ _ _) as [sd|]; [|done].
    simpl in Hcall.
    destruct (scatter_nd3 0%Z _ _ _ _ _ _) as [sl|]; [|done].
    simpl in Hcall. simplify_eq. apply stop_gradient_blocked.
Qed.
End gradient.

(** * Further properties of the layers *)

(** ** When the Proposal Selector returns *)

Section proposal_selector_returns.
Context {R : Type} `{!Float R, !Helpers R}.
Implicit Types (hp : hyper_params).

Lemma RoIBBox_nms_shape hp (rpn_bbox_deltas rpn_labels : list (scalar R))
    anchors nms_bboxes :
  RoIBBox_nms hp rpn_bbox_deltas rpn_labels anchors = Some nms_bboxes →
  length rpn_bbox_deltas = shape0 anchors * shape1 anchors * 4
  ∧ length rpn_labels = shape0 anchors * shape1 anchors * 1
  ∧ length nms_bboxes = shape0 anchors
  ∧ Forall (λ row, length row = nms_topn hp) nms_bboxes.
Proof.
  unfold RoIBBox_nms, reshape3. intros H.
  open_guard H Hd. open_guard H Hl. open_guard H Hb. simplify_eq.
  split_and!; [done..| |].
  - unfold non_max_suppression.
    rewrite length_zip_with, !length_fmap, !length_rows_of. lia.
  - apply Forall_lookup. intros b row Hrow.
    apply non_max_suppression_lookup in Hrow as (? & ? & _ & _ & ->).
    apply nms_image_length.
Qed.

Lemma reshape3_is_Some {A} d0 d1 d2 (buf : list A) :
  is_Some (reshape3 d0 d1 d2 buf) ↔ length buf = d0 * d1 * d2.
Proof.
  unfold reshape3. destruct (decide (length buf = d0 * d1 * d2)).
  - rewrite option_guard_True by done. simpl. naive_solver.
  - rewrite option_guard_False by done. simpl. split; [by intros []|done].
Qed.

(** X1: a wrong number of scores raises as a wrong number of deltas does.
    When the scores are not one per anchor of the Anchor Set,
    [RoIBBox.call] raises: the reshape of line 51 fails, or the one of line
    50 before it.  So it is for scores of shape [(batch, h, w, anchor_count)]
    of a batch with an image whose [h * w * anchor_count] scores are not as
    many as its anchors.  The two reshapes return exactly when the deltas
    are four per anchor and the scores one per anchor. *)
Theorem RoIBBox_call_score_count_mismatch
    hp (rpn_bbox_deltas rpn_labels : list (scalar R)) anchors gt_boxes :
  (length rpn_labels ≠ shape0 anchors * shape1 anchors →
   RoIBBox_call hp rpn_bbox_deltas rpn_labels anchors gt_boxes = None)
  ∧ (∀ h w anchor_count,
       length rpn_labels = shape0 anchors * h * w * anchor_count →
       0 < shape0 anchors → h * w * anchor_count ≠ shape1 anchors →
       RoIBBox_call hp rpn_bbox_deltas rpn_labels anchors gt_boxes = None)
  ∧ (is_Some (reshape3 (shape0 anchors) (shape1 anchors) 4 rpn_bbox_deltas)
     ∧ is_Some (reshape3 (shape0 anchors) (shape1 anchors) 1 rpn_labels)
     ↔ length rpn_bbox_deltas = shape0 anchors * shape1 anchors * 4
       ∧ length rpn_labels = shape0 anchors * shape1 anchors).
Proof.
  assert (length rpn_labels ≠ shape0 anchors * shape1 anchors →
          RoIBBox_call hp rpn_bbox_deltas rpn_labels anchors gt_boxes = None)
    as Hcount.
  { intros Hne.
    destruct (RoIBBox_call hp rpn_bbox_deltas rpn_labels anchors gt_boxes)
      as [out|] eqn:Hcall; [exfalso|done].
    unfold RoIBBox_call in Hcall.
    apply bind_Some in Hcall as (nms & Hnms & _).
    apply RoIBBox_nms_shape in Hnms as (_ & ? & _). lia. }
  split_and!; [exact Hcount| |].
  - intros h w anchor_count Hlen Hbatch Hne. apply Hcount. nia.
  - rewrite !reshape3_is_Some. lia.
Qed.

Lemma RoIBBox_nms_candidates hp deltas labels anchors nms :
  RoIBBox_nms hp deltas labels anchors = Some nms →
  ∃ rpn_bboxes rpn_labels,
    RoIBBox_rpn_bboxes deltas labels anchors = Some (rpn_bboxes, rpn_labels)
    ∧ nms = non_max_suppression rpn_bboxes rpn_labels (nms_topn hp) (nms_topn hp).
Proof.
  unfold RoIBBox_nms, RoIBBox_rpn_bboxes. intros H.
  destruct (reshape3 _ _ 4 _) as [d3|]; [|done]. simpl in *.
  destruct (reshape3 _ _ 1 labels) as [l3|]; [|done]. simpl in *.
  destruct (reshape3 _ _ 1 _) as [b3|]; [|done]. simpl in *.
  simplify_eq. eauto.
Qed.


(** X2: once the suppression has returned, [RoIBBox.call] returns exactly
    when [get_selected_indices] gives one row of positive indices per
    image, all of them inside the [nms_topn] entries of the suppression
    output; an index outside raises in [tf.gather]. *)
Theorem RoIBBox_call_returns_iff
    hp (rpn_bbox_deltas rpn_labels : list (scalar R)) anchors gt_boxes
    nms_bboxes pos_bbox_indices neg_bbox_indices gt_box_indices :
  RoIBBox_nms hp rpn_bbox_deltas rpn_labels anchors = Some nms_bboxes →
  get_selected_indices nms_bboxes gt_boxes
      (total_pos_bboxes hp) (total_neg_bboxes hp)
    = (pos_bbox_indices, neg_bbox_indices, gt_box_indices) →
  is_Some (RoIBBox_call hp rpn_bbox_deltas rpn_labels anchors gt_boxes)
  ↔ length pos_bbox_indices = shape0 anchors
    ∧ Forall (Forall (λ k, (0 ≤ k < Z.of_nat (nms_topn hp))%Z)) pos_bbox_indices.
Proof.
  intros Hnms Hsel.
  destruct (RoIBBox_nms_shape _ _ _ _ _ Hnms) as (_ & _ & Hlen & Hrows).
  split.
  - intros [[roi gti] Hcall]. unfold RoIBBox_call in Hcall.
    rewrite Hnms in Hcall. simpl in Hcall. rewrite Hsel in Hcall.
    destruct (gather nms_bboxes pos_bbox_indices) as [pos|] eqn:Hg; [|done].
    split.
    + unfold gather in Hg. open_guard Hg Hl. lia.
    + apply Forall_lookup. intros b idx Hidx.
      destruct (lookup_lt_is_Some_2 pos b) as [row Hrow].
      { rewrite (gather_length _ _ _ Hg). by eapply lookup_lt_Some. }
      destruct (gather_lookup _ _ _ _ _ Hg Hrow) as (p & idx' & Hp & Hidx' & Hf).
      assert (idx' = idx) as -> by congruence.
      eapply (proj1 (Forall_lookup _ _)) in Hrows; [|exact Hp].
      apply Forall_lookup. intros j k Hk.
      destruct (Forall2_lookup_l _ _ _ _ _ Hf Hk) as (x & _ & Hx).
      apply index_Some in Hx as [? Hx]. apply lookup_lt_Some in Hx. lia.
  - intros [Hl Hin]. by eapply RoIBBox_call_is_Some.
Qed.
End proposal_selector_returns.

(** ** The shape and the failures of the Target Assigner *)

Section target_assigner_shape.
Context {R : Type} `{!Float R, !Helpers R}.
Implicit Types (hp : hyper_params) (roi_bboxes gt_boxes : list (list (list (scalar R)))).

Lemma box_add_length (a b : list (scalar R)) :
  length a = 4 → length b = 4 → length (box_add a b) = 4.
Proof. intros Ha Hb. unfold box_add. rewrite length_zip_with. lia. Qed.

Lemma scatter_cell_box_length (ups : list (list Z * list (scalar R))) p :
  Forall (λ u, length u.2 = 4) ups →
  length (scatter_cell zero_box box_add ups p) = 4.
Proof.
  intros Hups. unfold scatter_cell.
  assert (Forall (λ d : list (scalar R), length d = 4)
            (filter (λ u : list Z * list (scalar R), u.1 = p) ups).*2) as Hl.
  { apply Forall_fmap, Forall_forall. intros u Hu.
    apply list_elem_of_filter in Hu as [_ Hu].
    by eapply (proj1 (Forall_forall _ _)) in Hups. }
  revert Hl. generalize (filter (λ u : list Z * list (scalar R), u.1 = p) ups).*2.
  assert (length (zero_box (R:=R)) = 4) as Hz by done.
  revert Hz. generalize (zero_box (R:=R)).
  intros z Hz l. revert z Hz. induction l as [|d l IH]; intros z Hz Hl; [done|].
  apply Forall_cons in Hl as [Hd Hl]. simpl. apply IH; [|done].
  by apply box_add_length.
Qed.

Lemma scatter_nd3_shape {A} (zero : A) add indices updates d0 d1 d2 out :
  scatter_nd3 zero add indices updates d0 d1 d2 = Some out →
  length out = d0 ∧ has_shape3 d1 d2 out.
Proof.
  unfold scatter_nd3. intros H. open_guard H H1. open_guard H H2. simplify_eq.
  split; [by rewrite length_fmap, length_seq|].
  apply Forall_fmap, Forall_forall. intros b _. simpl. split.
  - by rewrite length_fmap, length_seq.
  - apply Forall_fmap, Forall_forall. intros i _. simpl.
    by rewrite length_fmap, length_seq.
Qed.

(** X3: whatever [RoIDelta.call] returns has the documented shapes:
    per-class deltas [(batch_size, total_bboxes, total_labels * 4)] and
    per-class labels [(batch_size, total_bboxes, total_labels)]. *)
Theorem RoIDelta_call_shape
    hp roi_bboxes gt_boxes gt_labels gt_box_indices deltas labels :
  RoIDelta_call hp roi_bboxes gt_boxes gt_labels gt_box_indices
    = Some (deltas, labels) →
  length deltas = shape0 roi_bboxes
  ∧ has_shape3 (total_pos_bboxes hp + total_neg_bboxes hp)
      (total_labels hp * 4) deltas
  ∧ length labels = shape0 roi_bboxes
  ∧ has_shape3 (total_pos_bboxes hp + total_neg_bboxes hp)
      (total_labels hp) labels.
Proof.
  intros Hcall. unfold RoIDelta_call in Hcall.
  destruct (gt_labels_map _ _ _ _) as [lm|] eqn:Hlm; [|done].
  simpl in Hcall.
  destruct (roi_deltas _ _ _ _) as [ds|] eqn:Hds; [|done]. simpl in Hcall.
  destruct (get_scatter_indices_for_bboxes _ _ _) as [idx|] eqn:Hidx; [|done].
  simpl in Hcall. open_guard Hcall Hcells.
  destruct (scatter_nd3 zero_box _ _ _ _ _ _) as [sd|] eqn:Hsd; [|done].
  simpl in Hcall.
  destruct (scatter_nd3 0%Z _ _ _ _ _ _) as [sl|] eqn:Hsl; [|done].
  simpl in Hcall. simplify_eq.
  destruct (scatter_nd3_shape _ _ _ _ _ _ _ _ Hsl) as [Hll Hls].
  split_and!; [| |done|done].
  - unfold stop_gradient, merge_last_axes. rewrite !length_fmap.
    by destruct (scatter_nd3_shape _ _ _ _ _ _ _ _ Hsd).
  - unfold scatter_nd3 in Hsd. open_guard Hsd H1. open_guard Hsd H2.
    simplify_eq. unfold stop_gradient, merge_last_axes, has_shape3.
    rewrite <-!list_fmap_compose.
    apply Forall_fmap, Forall_forall. intros b _. simpl. split.
    { by rewrite !length_fmap, length_seq. }
    rewrite <-!list_fmap_compose.
    apply Forall_fmap, Forall_forall. intros i _. simpl.
    unfold stop_gradient_box. rewrite length_fmap, length_join.
    rewrite (sum_list_fmap_same 4).
    { by rewrite length_fmap, length_seq. }
    apply Forall_fmap, Forall_forall. intros c _. simpl.
    apply scatter_cell_box_length.
    apply Forall_forall. intros [q u] Hu. apply elem_of_zip_r in Hu. simpl.
    apply list_elem_of_join in Hu as (row & Hu & Hrow).
    eapply (proj1 (Forall_forall _ _)) in Hcells; [|exact Hrow].
    by eapply (proj1 (Forall_forall _ _)) in Hcells.
Qed.

(** X4: a class outside [0, total_labels) in the label map raises in
    [tf.scatter_nd]: [RoIDelta.call] returns nothing when the GT Index Map
    selects such a ground-truth label, the padding label [-1] for one, or
    when there are negative slots and no class at all. *)
Theorem RoIDelta_call_label_out_of_range
    hp roi_bboxes gt_boxes gt_labels gt_box_indices n lm b i c :
  Forall (λ r, length r = n) gt_box_indices →
  gt_labels_map hp (shape0 roi_bboxes) gt_labels gt_box_indices = Some lm →
  slot lm b i = Some c →
  ¬ (0 ≤ c < Z.of_nat (total_labels hp))%Z →
  RoIDelta_call hp roi_bboxes gt_boxes gt_labels gt_box_indices = None.
Proof.
  intros Hrect Hlm Hc Hout.
  destruct (RoIDelta_call _ _ _ _ _) as [[deltas labels]|] eqn:Hcall; [|done].
  exfalso. unfold RoIDelta_call in Hcall. rewrite Hlm in Hcall.
  simpl in Hcall.
  destruct (roi_deltas _ _ _ _) as [ds|] eqn:Hds; [|done]. simpl in Hcall.
  destruct (get_scatter_indices_for_bboxes _ _ _) as [idx|] eqn:Hidx; [|done].
  simpl in Hcall. open_guard Hcall Hcells.
  destruct (scatter_nd3 zero_box _ _ _ _ _ _) as [sd|] eqn:Hsd; [|done].
  simpl in Hcall.
  destruct (scatter_nd3 0%Z _ _ _ _ _ _) as [sl|] eqn:Hsl; [|done].
  destruct (gt_labels_map_Some _ _ _ _ _ _ Hrect Hlm) as (Hllen & Hlrows & _).
  apply slot_Some in Hc as (lrow & Hlrow & Hci).
  set (T := total_pos_bboxes hp + total_neg_bboxes hp) in *.
  assert (Forall (λ r, length r = T) lm) as HlT.
  { unfold get_scatter_indices_for_bboxes in Hidx.
    destruct (concat_columns _) as [tuples|] eqn:Hcols; [|done].
    apply concat_columns_Some in Hcols as (Hcols & _ & _).
    apply Forall_cons in Hcols as [_ Hcols].
    apply Forall_cons in Hcols as [Hcols _].
    rewrite get_tiled_indices_length, length_join in Hcols.
    rewrite (sum_list_fmap_same (n + total_neg_bboxes hp)) in Hcols by done.
    assert (0 < length lm) by (apply lookup_lt_Some in Hlrow; lia).
    assert (n + total_neg_bboxes hp = T) as <- by nia. done. }
  assert (i < T) as Hi.
  { eapply (proj1 (Forall_lookup _ _)) in HlT; [|exact Hlrow].
    rewrite <-HlT. by eapply lookup_lt_Some. }
  destruct (scatter_nd3_slots _ _ _ _ _ _ _ _ _ Hllen HlT Hidx Hsl)
    as (_ & _ & _ & Hslot).
  destruct (Hslot b i lrow c (replicate T 1%Z) 1%Z) as [Hin _];
    [done|done| |by apply lookup_replicate_2|done].
  unfold fill. apply lookup_replicate_2.
  rewrite <-Hllen. by eapply lookup_lt_Some.
Qed.
End target_assigner_shape.

(** ** When the RoI Pooler returns *)

Section roi_pooler_returns.
Context {R : Type} `{!Float R, !Helpers R}.
Implicit Types (hp : hyper_params) (roi_bboxes : list (list (list (scalar R)))).

Lemma get_tiled_indices_elem_pos batch_size row_size x :
  x ∈ get_tiled_indices batch_size row_size →
  ∃ b, b < batch_size ∧ 0 < row_size ∧ x = Z.of_nat b.
Proof.
  unfold get_tiled_indices. intros Hx.
  apply list_elem_of_join in Hx as (l & Hx & Hl).
  apply list_elem_of_fmap in Hl as (b & -> & Hb).
  apply elem_of_seq in Hb. apply elem_of_replicate in Hx as [-> ?].
  exists b. split_and!; [lia|lia|done].
Qed.

Lemma has_shape3_count {A} d1 d2 (t : list (list (list A))) :
  has_shape3 d1 d2 t → length (mjoin (mjoin t)) = length t * d1 * d2.
Proof.
  intros Ht. destruct (has_shape3_join _ _ _ Ht) as (_ & Hl & Hc).
  by rewrite length_join, (sum_list_fmap_same d2), Hl.
Qed.

(** X5: on a batch of boxes of shape [(batch, n, 4)] and for a number of
    slots in the int32 range, [RoIPooling.call] returns exactly when the
    images of the feature map have a positive height and width, the pooling
    size is a pair of positive int32 values, and the batch is empty or [n]
    is the [total_pos_bboxes + total_neg_bboxes] of the hyper-parameters and
    the feature map has an image for every image of the batch (or there is
    no slot to pool).  Otherwise the reshape of line 152 or the crop of
    lines 154 to 159 raises. *)
Theorem RoIPooling_call_returns_iff
    hp (feature_map : list (list (list (list (scalar R))))) roi_bboxes n :
  has_shape3 n 4 roi_bboxes →
  (Z.of_nat (total_pos_bboxes hp + total_neg_bboxes hp) < 2 ^ 31)%Z →
  is_Some (RoIPooling_call hp feature_map roi_bboxes)
  ↔ positive_image_dims feature_map
    ∧ positive_crop_size (pooling_size hp)
    ∧ (length roi_bboxes = 0
       ∨ (n = total_pos_bboxes hp + total_neg_bboxes hp
          ∧ (n = 0 ∨ length roi_bboxes ≤ length feature_map))).
Proof.
  intros Hshape _. set (T := total_pos_bboxes hp + total_neg_bboxes hp).
  pose proof (has_shape3_count _ _ _ Hshape) as Hcount.
  destruct (has_shape3_join _ _ _ Hshape) as (Hrows & Hjl & Hcells).
  split.
  - intros [out Hcall].
    destruct (RoIPooling_call_guards _ _ _ _ Hcall) as [Hdims Hsize].
    split_and!; [done|done|].
    unfold RoIPooling_call, shape0 in Hcall. fold T in Hcall.
    unfold reshape2 in Hcall. open_guard Hcall Hlen.
    destruct (decide (length roi_bboxes = 0)) as [|Hne]; [by left|right].
    assert (n = T) as -> by nia. split; [done|].
    destruct (decide (T = 0)) as [|HT]; [by left|right].
    rewrite <-Hjl, rows_of_join in Hcall by done.
    destruct (crop_and_resize _ _ _ _) as [crops|] eqn:Hcrops; [|done].
    destruct (decide (length roi_bboxes ≤ length feature_map)) as [|Hgt];
      [done|exfalso].
    set (b := length feature_map).
    destruct (lookup_lt_is_Some_2 roi_bboxes b) as [row Hrow]; [lia|].
    destruct (lookup_lt_is_Some_2 row 0) as [box Hbox].
    { eapply (proj1 (Forall_lookup _ _)) in Hrows; [|exact Hrow].
      simpl in Hrows. lia. }
    destruct (crop_and_resize_lookup _ _ _ _ _ (b * T + 0) box b Hcrops)
      as (img & Himg & _).
    { apply (join_lookup_Some_same_length' T); [done|lia|eauto]. }
    { apply get_tiled_indices_lookup; lia. }
    apply lookup_lt_Some in Himg. lia.
  - intros (Hdims & Hsize & Hok). unfold RoIPooling_call, shape0. fold T.
    assert (length (mjoin (mjoin roi_bboxes)) = length roi_bboxes * T * 4)
      as Hlen.
    { rewrite Hcount. destruct Hok as [->|[-> _]]; lia. }
    assert (Forall (λ r, length r = T) roi_bboxes
            ∧ length (mjoin roi_bboxes) = length roi_bboxes * T)
      as [HrowsT HjlT].
    { destruct Hok as [H0|[-> _]]; [|done].
      destruct roi_bboxes; [|done]. by split; [constructor|]. }
    unfold reshape2 at 2. rewrite option_guard_True by done. simpl.
    rewrite <-HjlT, rows_of_join by done.
    assert (is_Some (crop_and_resize feature_map (mjoin roi_bboxes)
              (get_tiled_indices (length roi_bboxes) T) (pooling_size hp)))
      as [crops Hcrops].
    { apply crop_and_resize_is_Some; [done|done| |].
      - by rewrite get_tiled_indices_length.
      - apply Forall_forall. intros idx Hin.
        apply get_tiled_indices_elem_pos in Hin as (b & Hb & HT & ->).
        rewrite index_of_nat. apply lookup_lt_is_Some_2.
        destruct Hok as [?|[-> [?|?]]]; lia. }
    rewrite Hcrops. simpl. unfold reshape2.
    rewrite option_guard_True; [done|].
    apply crop_and_resize_guards in Hcrops as (_ & _ & _ & ->). done.
Qed.
End roi_pooler_returns.

(** ** When the Inference Decoder returns *)

Section inference_decoder_returns.
Context {R : Type} `{!Float R, !Helpers R}.
Implicit Types (roi_bboxes : list (list (list (scalar R))))
  (frcnn_delta_pred frcnn_label_pred : list (list (list (scalar R)))).

Lemma argmax_from_bound (best : R) best_index i (l : list (scalar R)) :
  best_index < i → argmax_from best best_index i l < i + length l.
Proof.
  revert best best_index i. induction l as [|x l IH]; intros best bi i Hlt.
  { simpl. lia. }
  simpl. destruct (rltb best (primal x)).
  - specialize (IH (primal x) i (S i)). lia.
  - specialize (IH best bi (S i)). lia.
Qed.

Lemma argmax_bound (row : list (scalar R)) c :
  argmax row = Some c → (0 ≤ c < Z.of_nat (length row))%Z.
Proof.
  destruct row as [|x l]; [done|]. intros [= <-].
  pose proof (argmax_from_bound (primal x) 0 1 l). simpl. lia.
Qed.

Lemma argmax_is_Some (row : list (scalar R)) : 0 < length row → is_Some (argmax row).
Proof. destruct row; simpl; [lia|eauto]. Qed.

Lemma has_shape3_cells {A} d1 d2 (t : list (list (list A))) :
  has_shape3 d1 d2 t → Forall (Forall (λ cell, length cell = d2)) t.
Proof.
  intros Ht. eapply list.Forall_impl; [exact Ht|]. by intros row [_ ?].
Qed.

Lemma has_shape3_same_rows {A B} d1 d2 d2'
    (t : list (list (list A))) (u : list (list (list B))) :
  has_shape3 d1 d2 t → has_shape3 d1 d2' u → length t = length u →
  Forall2 (λ r s, length r = length s) t u.
Proof.
  intros Ht Hu Hlen. apply Forall2_same_length_lookup. split; [done|].
  intros b r s Hr Hs.
  eapply (proj1 (Forall_lookup _ _)) in Ht; [|exact Hr].
  eapply (proj1 (Forall_lookup _ _)) in Hu; [|exact Hs].
  destruct Ht as [-> _], Hu as [-> _]. done.
Qed.

Lemma gather_nd_same_rows {A B} (t : list (list A)) (u : list (list B)) indices :
  Forall2 (λ r s, length r = length s) t u →
  is_Some (gather_nd u indices) → is_Some (gather_nd t indices).
Proof.
  intros Hrows [out Hout]. unfold gather_nd. apply mapM_is_Some.
  apply Forall_lookup. intros v p Hp.
  destruct (gather_nd_lookup _ _ _ _ _ Hout Hp) as (y & _ & Hy).
  apply index_nd_Some in Hy as (b & i & -> & Hy).
  apply slot_Some in Hy as (s & Hs & Hy).
  destruct (Forall2_lookup_r _ _ _ _ _ Hrows Hs) as (r & Hr & Hlen).
  unfold compose. rewrite index_nd_of_nat. unfold slot. rewrite Hr. simpl.
  apply lookup_lt_is_Some. rewrite Hlen. by eapply lookup_lt_Some.
Qed.

Lemma gather_nd_cells {A} (P : A → Prop) (t : list (list A)) indices out :
  Forall (Forall P) t → gather_nd t indices = Some out → Forall P out.
Proof.
  intros Ht Hout. apply Forall_lookup. intros v x Hx.
  assert (v < length indices) as Hv.
  { unfold gather_nd in Hout. apply length_mapM in Hout.
    rewrite Hout. by eapply lookup_lt_Some. }
  destruct (lookup_lt_is_Some_2 _ _ Hv) as [p Hp].
  destruct (gather_nd_lookup _ _ _ _ _ Hout Hp) as (x' & Hx' & Hidx).
  apply index_nd_Some in Hidx as (b & i & _ & Hs). simplify_eq.
  apply slot_Some in Hs as (row & Hrow & Hi).
  eapply (proj1 (Forall_lookup _ _)) in Ht; [|exact Hrow].
  by eapply (proj1 (Forall_lookup _ _)) in Ht.
Qed.

Lemma concat_columns_pairs_is_Some (cs : list Z) n :
  length cs = n → is_Some (concat_columns [Z.of_nat <$> seq 0 n; cs]).
Proof.
  intros Hlen. unfold concat_columns. rewrite option_guard_True; [done|].
  constructor; [done|]. constructor; [|constructor].
  by rewrite length_fmap, length_seq.
Qed.

(** [get_valid_predictions] returns when every proposal it keeps has an
    arg-max class below [total_labels] and deltas of width
    [total_labels * 4]. *)
Lemma get_valid_predictions_returns
    roi_bboxes frcnn_delta_pred frcnn_label_pred total_labels n d l :
  has_shape3 n 4 roi_bboxes →
  has_shape3 n d frcnn_delta_pred →
  has_shape3 n l frcnn_label_pred →
  length roi_bboxes = length frcnn_label_pred →
  length frcnn_delta_pred = length frcnn_label_pred →
  0 < l →
  Forall (λ scores, ∀ c, argmax scores = Some c →
            c ≠ (Z.of_nat total_labels - 1)%Z →
            d = total_labels * 4 ∧ (c < Z.of_nat total_labels)%Z)
    (mjoin frcnn_label_pred) →
  is_Some (get_valid_predictions roi_bboxes frcnn_delta_pred frcnn_label_pred
             total_labels).
Proof.
  intros Hroi Hdelta Hlabel Hrl Hdl Hl Hok.
  pose proof (has_shape3_same_rows _ _ _ _ _ Hroi Hlabel Hrl) as Hroi_rows.
  pose proof (has_shape3_same_rows _ _ _ _ _ Hdelta Hlabel Hdl) as Hdelta_rows.
  pose proof (has_shape3_cells _ _ _ Hroi) as Hroi4.
  pose proof (has_shape3_cells _ _ _ Hdelta) as Hdeltad.
  pose proof (has_shape3_cells _ _ _ Hlabel) as Hlabell.
  assert (is_Some (argmax_axis2 frcnn_label_pred)) as [plm Hplm].
  { unfold argmax_axis2. apply mapM_is_Some.
    eapply list.Forall_impl; [exact Hlabell|]. intros row Hrow.
    apply mapM_is_Some. eapply list.Forall_impl; [exact Hrow|].
    intros scores Hs. apply argmax_is_Some. simpl in Hs. lia. }
  pose proof (argmax_axis2_Some _ _ Hplm) as Hrel.
  unfold get_valid_predictions. rewrite Hplm. simpl.
  set (indices := where2 _).
  assert (gather_nd frcnn_label_pred indices
          = Some (filter (not_background total_labels)
                    (mjoin frcnn_label_pred))) as Hlab.
  { by apply gather_nd_where2, valid_condition. }
  destruct (gather_nd_same_rows roi_bboxes _ indices Hroi_rows
              (mk_is_Some _ _ Hlab)) as [valid_roi Hvr].
  destruct (gather_nd_same_rows frcnn_delta_pred _ indices Hdelta_rows
              (mk_is_Some _ _ Hlab)) as [valid_deltas Hvd].
  assert (is_Some (gather_nd plm indices)) as [classes Hcls].
  { eapply gather_nd_same_rows; [|exact (mk_is_Some _ _ Hlab)].
    eapply Forall2_flip, Forall2_impl; [exact Hrel|].
    intros row crow Hrow. by apply Forall2_length in Hrow. }
  pose proof (gather_nd_cells _ _ _ _ Hroi4 Hvr) as Hbox4.
  pose proof (gather_nd_cells _ _ _ _ Hdeltad Hvd) as Hrows.
  assert (length valid_roi = length indices) as Hvrl.
  { unfold gather_nd in Hvr. by apply length_mapM in Hvr. }
  assert (length valid_deltas = length indices) as Hvdl.
  { unfold gather_nd in Hvd. by apply length_mapM in Hvd. }
  assert (length classes = length indices) as Hcl.
  { unfold gather_nd in Hcls. by apply length_mapM in Hcls. }
  (* what is known of a kept proposal *)
  assert (∀ v c, classes !! v = Some c →
            d = total_labels * 4 ∧ (0 ≤ c < Z.of_nat total_labels)%Z) as Hkept.
  { intros v c Hc.
    assert (v < length indices) as Hvlt.
    { rewrite <-Hcl. by eapply lookup_lt_Some. }
    destruct (lookup_lt_is_Some_2 _ _ Hvlt) as [p Hp].
    destruct (where2_true _ _ _ Hp) as (b & i & -> & Hcond).
    destruct (gather_nd_lookup _ _ _ _ _ Hlab Hp) as (scores & Hs & Hscores).
    destruct (gather_nd_lookup _ _ _ _ _ Hcls Hp) as (c' & Hc' & Hsc').
    rewrite index_nd_of_nat in Hscores. rewrite index_nd_of_nat in Hsc'.
    simplify_eq.
    pose proof (Forall2_slot _ _ _ _ _ _ _ Hrel Hscores Hsc') as Harg.
    simpl in Harg.
    rewrite slot_fmap, Hsc' in Hcond. simpl in Hcond.
    injection Hcond as Hcond. apply bool_decide_eq_true in Hcond.
    apply list_elem_of_lookup_2, list_elem_of_filter in Hs as [_ Hs].
    eapply (proj1 (Forall_forall _ _)) in Hok; [|exact Hs].
    destruct (Hok c Harg Hcond) as [-> ?].
    apply argmax_bound in Harg. split; [done|lia]. }
  rewrite Hvr, Hvd. simpl. unfold reshape3.
  rewrite option_guard_True; simpl.
  2:{ rewrite length_join, (sum_list_fmap_same d), Hvdl by done.
      destruct classes as [|c0 classes'] eqn:Hcs.
      - simpl in Hcl. rewrite <-Hcl. lia.
      - destruct (Hkept 0 c0 eq_refl) as [-> _]. lia. }
  rewrite Hlab, Hcls. simpl.
  destruct (concat_columns_pairs_is_Some classes (length indices) Hcl)
    as [tuples Hcols].
  rewrite Hcols. simpl.
  destruct (scatter_pairs_lookup _ _ _ Hcols) as (_ & Htl & Htp & Htup).
  unfold reshape2. rewrite option_guard_True; simpl.
  2:{ by rewrite length_join, (sum_list_fmap_same 2), Htl. }
  replace (rows_of (length indices) 2 (mjoin tuples)) with tuples.
  2:{ rewrite <-Htl. symmetry. by apply rows_of_join. }
  rewrite option_guard_True by done. simpl.
  unfold scatter_nd2. rewrite option_guard_True by lia. simpl.
  rewrite option_guard_True; [done|].
  apply Forall_lookup. intros v p Hp.
  assert (v < length classes) as Hvlt.
  { rewrite Hcl, <-Htl. by eapply lookup_lt_Some. }
  destruct (lookup_lt_is_Some_2 _ _ Hvlt) as [c Hc].
  rewrite (Htup v c Hc) in Hp. injection Hp as <-.
  destruct (Hkept v c Hc) as [_ Hcin].
  unfold in_bounds. repeat constructor; lia.
Qed.

(** X6: on predictions of the shapes [(batch, n, 4)], [(batch, n, d)] and
    [(batch, n, l)] with [l] at least one, [get_valid_predictions] returns
    exactly when every proposal it keeps (arg-max class other than
    [total_labels - 1]) has an arg-max class below [total_labels] and
    [d] is [total_labels * 4].  A kept proposal with deltas of another
    width fails the reshape of line 183; a kept class that is no class of
    [total_labels] fails the scatter of line 192. *)
Theorem get_valid_predictions_returns_iff
    roi_bboxes frcnn_delta_pred frcnn_label_pred total_labels n d l :
  has_shape3 n 4 roi_bboxes →
  has_shape3 n d frcnn_delta_pred →
  has_shape3 n l frcnn_label_pred →
  length roi_bboxes = length frcnn_label_pred →
  length frcnn_delta_pred = length frcnn_label_pred →
  0 < l →
  is_Some (get_valid_predictions roi_bboxes frcnn_delta_pred frcnn_label_pred
             total_labels)
  ↔ Forall (λ scores, ∀ c, argmax scores = Some c →
              c ≠ (Z.of_nat total_labels - 1)%Z →
              d = total_labels * 4 ∧ (c < Z.of_nat total_labels)%Z)
      (mjoin frcnn_label_pred).
Proof.
  intros Hroi Hdelta Hlabel Hrl Hdl Hl.
  pose proof (has_shape3_same_rows _ _ _ _ _ Hroi Hlabel Hrl) as Hroi_rows.
  pose proof (has_shape3_same_rows _ _ _ _ _ Hdelta Hlabel Hdl) as Hdelta_rows.
  pose proof (has_shape3_cells _ _ _ Hroi) as Hroi4.
  pose proof (has_shape3_cells _ _ _ Hdelta) as Hdeltad.
  pose proof (has_shape3_cells _ _ _ Hlabel) as Hlabell.
  split.
  - intros [[boxes labels] Hcall].
    destruct (get_valid_predictions_Some _ _ _ _ _ _ Hcall)
      as (plm & indices & valid_roi & valid_deltas & deltas3 & valid_labels
          & classes & scattered & Hplm & Hidx & Hvr & Hvd & Hd3 & Hlab & Hcls
          & Hbox4 & Hsl & Hsc & _ & _).
    clear Hcall.
    pose proof (gather_nd_where2 frcnn_label_pred (not_background total_labels) _
      (valid_condition _ _ total_labels (argmax_axis2_Some _ _ Hplm))) as Hf.
    rewrite <-Hidx, Hlab in Hf. injection Hf as ->.
    apply Forall_forall. intros scores Hin c Harg Hne.
    assert (scores ∈ filter (not_background total_labels) (mjoin frcnn_label_pred))
      as Hkept.
    { apply list_elem_of_filter. split; [|done].
      unfold not_background. rewrite Harg. congruence. }
    apply list_elem_of_lookup_1 in Hkept as [v Hv].
    assert (v < length indices) as Hvlt.
    { unfold gather_nd in Hlab. apply length_mapM in Hlab.
      rewrite Hlab. by eapply lookup_lt_Some. }
    destruct (lookup_lt_is_Some_2 _ _ Hvlt) as [p Hp].
    assert (∃ b i, p = [Z.of_nat b; Z.of_nat i]) as (b & i & ->).
    { rewrite Hidx in Hp. apply where2_true in Hp as (b & i & -> & _). eauto. }
    destruct (gather_nd_lookup _ _ _ _ _ Hlab Hp) as (s' & Hs' & Hscores).
    destruct (gather_nd_lookup _ _ _ _ _ Hvr Hp) as (box & Hbox & _).
    destruct (gather_nd_lookup _ _ _ _ _ Hcls Hp) as (c' & Hc' & Hsc').
    rewrite index_nd_of_nat in Hscores. rewrite index_nd_of_nat in Hsc'.
    simplify_eq.
    pose proof (Forall2_slot _ _ _ _ _ _ _ (argmax_axis2_Some _ _ Hplm)
                  Hscores Hsc') as Harg'. simpl in Harg'.
    assert (c' = c) as -> by congruence.
    destruct (Hsc v c box Hc' Hbox) as [Hcin _].
    split; [|lia].
    pose proof (gather_nd_cells _ _ _ _ Hdeltad Hvd) as Hrows.
    unfold reshape3 in Hd3. open_guard Hd3 Hcount.
    rewrite length_join, (sum_list_fmap_same d) in Hcount by done.
    unfold gather_nd in Hvd. apply length_mapM in Hvd. nia.
  - intros Hok. by eapply get_valid_predictions_returns.
Qed.
End inference_decoder_returns.

(** ** What the Inference Decoder returns *)

Section inference_decoder_rows.
Context {R : Type} `{!Float R, !Helpers R}.
Hypothesis radd_0_l : ∀ x : R, radd rzero x = x.
Implicit Types (roi_bboxes : list (list (list (scalar R))))
  (frcnn_delta_pred frcnn_label_pred : list (list (list (scalar R)))).

Lemma join_zip_with_zip {A B} (a : list (list A)) (b : list (list B)) :
  Forall2 (λ r s, length r = length s) a b →
  mjoin (zip_with zip a b) = zip (mjoin a) (mjoin b).
Proof.
  induction 1 as [|r s a b Hlen _ IH]; [done|].
  simpl. rewrite IH. symmetry. by apply zip_with_app.
Qed.

Lemma slot_zip {A B} (a : list (list A)) (b : list (list B)) i j x :
  slot (zip_with zip a b) i j = Some x ↔
  slot a i j = Some x.1 ∧ slot b i j = Some x.2.
Proof.
  rewrite !slot_Some. split.
  - intros (row & Hrow & Hx).
    apply lookup_zip_with_Some in Hrow as (r & s & -> & Hr & Hs).
    apply lookup_zip_with_Some in Hx as (y & z & -> & Hy & Hz).
    split; eauto.
  - intros [(r & Hr & Hy) (s & Hs & Hz)]. exists (zip r s). split.
    + apply lookup_zip_with_Some. eauto.
    + apply lookup_zip_with_Some. exists x.1, x.2. by destruct x.
Qed.

Lemma fmap_snd_filter_zip {A B} (P : B → Prop) `{!∀ y, Decision (P y)}
    (a : list A) (b : list B) :
  length a = length b →
  snd <$> filter (λ p, P p.2) (zip a b) = filter P b.
Proof.
  revert b. induction a as [|x a IH]; intros [|y b] Hlen; try done.
  simpl in Hlen. cbn [zip zip_with]. rewrite !filter_cons. simpl.
  destruct (decide (P y)); simpl; rewrite IH by lia; done.
Qed.

End inference_decoder_rows.

(** ** The Proposal Batch and its two consumers *)

Section proposal_batch_consumers.
Context {R : Type} `{!Float R, !Helpers R}.
Implicit Types (hp : hyper_params) (anchors gt_boxes : list (list (list (scalar R)))).

Lemma rows_of_Forall {A} (P : A → Prop) d0 d1 (l : list A) :
  Forall P l → Forall (Forall P) (rows_of d0 d1 l).
Proof.
  intros Hl. apply Forall_lookup. intros i row Hi.
  assert (i < d0) as Hlt.
  { apply lookup_lt_Some in Hi. by rewrite length_rows_of in Hi. }
  rewrite rows_of_lookup in Hi by done. simplify_eq.
  by apply Forall_take, Forall_drop.
Qed.

Lemma nms_image_Forall (P : list (scalar R) → Prop) m1 m2 boxes scores :
  P zero_box → Forall (Forall P) boxes → Forall P (nms_image m1 m2 boxes scores).
Proof.
  intros H0 Hboxes. unfold nms_image. apply Forall_app. split.
  - apply Forall_forall. intros c Hc.
    apply (proj2 (nms_survivors_spec m1 m2 boxes scores)) in Hc.
    apply Forall_join in Hboxes.
    by eapply (proj1 (Forall_forall _ _)) in Hboxes.
  - by apply Forall_replicate.
Qed.

(** The boxes of the suppression output have four coordinates when the
    anchors have and decoding keeps them. *)
Lemma RoIBBox_nms_boxes hp (rpn_bbox_deltas rpn_labels : list (scalar R))
    anchors nms_bboxes :
  (∀ a d : list (scalar R), length a = 4 → length d = 4 →
     length (decode a d) = 4) →
  Forall (Forall (λ a, length a = 4)) anchors →
  RoIBBox_nms hp rpn_bbox_deltas rpn_labels anchors = Some nms_bboxes →
  Forall (Forall (λ box, length box = 4)) nms_bboxes.
Proof.
  intros Hdec Hanc Hnms. unfold RoIBBox_nms, reshape3 in Hnms.
  open_guard Hnms Hd. open_guard Hnms Hl. open_guard Hnms Hb.
  simplify_eq.
  set (d3 := rows_of (shape1 anchors) 4
               <$> rows_of (shape0 anchors) (shape1 anchors * 4) rpn_bbox_deltas)
    in *.
  assert (Forall (Forall (λ box : list (scalar R), length box = 4))
            (get_bboxes_from_deltas anchors d3)) as Hboxes.
  { unfold get_bboxes_from_deltas. apply Forall_lookup. intros b row Hrow.
    apply lookup_zip_with_Some in Hrow as (arow & drow & -> & Harow & Hdrow).
    apply Forall_lookup. intros i box Hbox.
    apply lookup_zip_with_Some in Hbox as (a & d & -> & Ha & Hdd).
    apply Hdec.
    - eapply (proj1 (Forall_lookup _ _)) in Hanc; [|exact Harow].
      by eapply (proj1 (Forall_lookup _ _)) in Hanc.
    - subst d3. rewrite list_lookup_fmap in Hdrow.
      destruct (rows_of _ _ _ !! b) as [chunk|] eqn:Hchunk; [|done].
      simpl in Hdrow. simplify_eq.
      apply rows_of_lookup_Some in Hchunk as (_ & _ & Hcl); [|lia].
      by apply rows_of_lookup_Some in Hdd as (_ & _ & ?). }
  apply Forall_lookup. intros b row Hrow.
  apply non_max_suppression_lookup in Hrow as (boxes & scores & Hbx & _ & ->).
  apply nms_image_Forall; [done|].
  rewrite list_lookup_fmap in Hbx.
  destruct (rows_of _ _ _ !! b) as [chunk|] eqn:Hchunk; [|done].
  simpl in Hbx. simplify_eq.
  apply rows_of_Forall.
  apply Forall_join in Hboxes.
  pose proof (rows_of_Forall _ (shape0 anchors) (shape1 anchors * 1) _ Hboxes)
    as Hchunks.
  by eapply (proj1 (Forall_lookup _ _)) in Hchunks.
Qed.

(** What a run of [RoIBBox.call] that returns has computed. *)
Lemma RoIBBox_call_Some hp (rpn_bbox_deltas rpn_labels : list (scalar R))
    anchors gt_boxes nms_bboxes pos_bbox_indices neg_bbox_indices gt_box_indices
    roi_bboxes gt_indices :
  RoIBBox_nms hp rpn_bbox_deltas rpn_labels anchors = Some nms_bboxes →
  get_selected_indices nms_bboxes gt_boxes
      (total_pos_bboxes hp) (total_neg_bboxes hp)
    = (pos_bbox_indices, neg_bbox_indices, gt_box_indices) →
  RoIBBox_call hp rpn_bbox_deltas rpn_labels anchors gt_boxes
    = Some (roi_bboxes, gt_indices) →
  gt_indices = gt_box_indices
  ∧ length roi_bboxes = shape0 anchors
  ∧ ∀ b row, roi_bboxes !! b = Some row →
      ∃ nms_row idx pos_row,
        nms_bboxes !! b = Some nms_row ∧ pos_bbox_indices !! b = Some idx
        ∧ Forall2 (λ k box, index nms_row k = Some box) idx pos_row
        ∧ row = stop_gradient_box
                  <$> (pos_row ++ replicate (total_neg_bboxes hp) zero_box).
Proof.
  intros Hnms Hsel Hcall. unfold RoIBBox_call in Hcall.
  rewrite Hnms in Hcall. simpl in Hcall. rewrite Hsel in Hcall.
  destruct (gather nms_bboxes pos_bbox_indices) as [pos_roi|] eqn:Hg; [|done].
  simpl in Hcall.
  destruct (concat_axis1 pos_roi _) as [roi|] eqn:Hc; [|done].
  simpl in Hcall. simplify_eq. split; [done|].
  destruct (concat_axis1_length _ _ _ Hc) as [Hl1 Hl2].
  split.
  { unfold stop_gradient. rewrite length_fmap, Hl1, Hl2. apply length_fill. }
  intros b row Hb.
  apply stop_gradient_lookup in Hb as (r & Hr & ->).
  destruct (concat_axis1_lookup _ _ _ _ _ Hc Hr) as (x & y & Hx & Hy & ->).
  apply fill_lookup in Hy as ->.
  destruct (gather_lookup _ _ _ _ _ Hg Hx) as (p & idx & Hp & Hidx & Hrow).
  exists p, idx, x. done.
Qed.

(** Without anchors there is no survivor, and what [RoIBBox.call] returns
    holds zero boxes only, whatever the helpers are. *)
Lemma RoIBBox_call_no_anchors hp gt_boxes
    (roi_bboxes : list (list (list (scalar R)))) gt_indices :
  RoIBBox_call hp [] [] [[]] gt_boxes = Some (roi_bboxes, gt_indices) →
  RoIBBox_rpn_bboxes (R:=R) [] [] [[]] = Some ([[]], [[]])
  ∧ RoIBBox_nms hp [] [] [[]]
    = Some [nms_survivors (nms_topn hp) (nms_topn hp) [] []
            ++ replicate (nms_topn hp) zero_box]
  ∧ nms_survivors (R:=R) (nms_topn hp) (nms_topn hp) [] [] = []
  ∧ Forall (Forall (λ box, box = zero_box)) roi_bboxes.
Proof.
  intros Hcall.
  assert (RoIBBox_nms (R:=R) hp [] [] [[]]
          = Some [replicate (nms_topn hp) zero_box]) as Hnms.
  { unfold RoIBBox_nms, reshape3. simpl.
    unfold nms_image, nms_survivors. simpl.
    by rewrite !take_nil, Nat.sub_0_r. }
  assert (nms_survivors (R:=R) (nms_topn hp) (nms_topn hp) [] [] = [])
    as Hkept.
  { unfold nms_survivors. simpl. by rewrite !take_nil. }
  rewrite Hkept. split_and!; [done|done|done|].
  destruct (get_selected_indices [replicate (nms_topn hp) zero_box] gt_boxes
              (total_pos_bboxes hp) (total_neg_bboxes hp))
    as [[pos neg] gti] eqn:Hsel.
  destruct (RoIBBox_call_Some _ _ _ _ _ _ _ _ _ _ _ Hnms Hsel Hcall)
    as (_ & _ & Hrows).
  apply Forall_lookup. intros b row Hb.
  destruct (Hrows b row Hb) as (nms_row & idx & pos_row & Hn & _ & Hrel & ->).
  destruct b as [|b]; [|done]. injection Hn as <-.
  apply Forall_fmap, Forall_app. split; [|by apply Forall_replicate].
  apply Forall_lookup. intros j box Hj. simpl.
  destruct (Forall2_lookup_r _ _ _ _ _ Hrel Hj) as (k & _ & Hk).
  apply index_Some in Hk as [_ Hk].
  by apply lookup_replicate in Hk as [-> _].
Qed.
(** The Proposal Batch has the shape both consumers expect. *)
Lemma RoIBBox_call_shape hp (rpn_bbox_deltas rpn_labels : list (scalar R))
    anchors gt_boxes nms_bboxes pos_bbox_indices neg_bbox_indices gt_box_indices
    roi_bboxes gt_indices :
  (∀ a d : list (scalar R), length a = 4 → length d = 4 →
     length (decode a d) = 4) →
  Forall (Forall (λ a, length a = 4)) anchors →
  RoIBBox_nms hp rpn_bbox_deltas rpn_labels anchors = Some nms_bboxes →
  get_selected_indices nms_bboxes gt_boxes
      (total_pos_bboxes hp) (total_neg_bboxes hp)
    = (pos_bbox_indices, neg_bbox_indices, gt_box_indices) →
  Forall (λ idx, length idx = total_pos_bboxes hp) pos_bbox_indices →
  RoIBBox_call hp rpn_bbox_deltas rpn_labels anchors gt_boxes
    = Some (roi_bboxes, gt_indices) →
  has_shape3 (total_pos_bboxes hp + total_neg_bboxes hp) 4 roi_bboxes.
Proof.
  intros Hdec Hanc Hnms Hsel Hpos Hcall.
  pose proof (RoIBBox_nms_boxes _ _ _ _ _ Hdec Hanc Hnms) as Hbox4.
  destruct (RoIBBox_call_Some _ _ _ _ _ _ _ _ _ _ _ Hnms Hsel Hcall)
    as (_ & _ & Hrows).
  apply Forall_lookup. intros b row Hb.
  destruct (Hrows b row Hb) as (nms_row & idx & pos_row & Hn & Hi & Hrel & ->).
  eapply (proj1 (Forall_lookup _ _)) in Hpos; [|exact Hi].
  eapply (proj1 (Forall_lookup _ _)) in Hbox4; [|exact Hn].
  split.
  - rewrite length_fmap, length_app, length_replicate.
    apply Forall2_length in Hrel. simpl in Hpos. lia.
  - apply Forall_fmap, Forall_app. split.
    + apply Forall_lookup. intros j box Hj. simpl.
      destruct (Forall2_lookup_r _ _ _ _ _ Hrel Hj) as (k & _ & Hk).
      apply index_Some in Hk as [_ Hk].
      unfold stop_gradient_box. rewrite length_fmap.
      by eapply (proj1 (Forall_lookup _ _)) in Hbox4.
    + by apply Forall_replicate.
Qed.

(** X7: line 232 of [get_model] hands the Proposal Batch of [RoIBBox] to
    [RoIPooling] built from the same hyper-parameters.  When
    [get_selected_indices] hands back [total_pos_bboxes] indices per image,
    anchors have four coordinates and decoding keeps four, the feature map
    has an image of positive height and width for every image of the batch
    and the pooling size is a pair of positive int32 values,
    [RoIPooling.call] returns on what [RoIBBox.call] returned: one row of
    [total_pos_bboxes + total_neg_bboxes] crops per image, and each of the
    last [total_neg_bboxes] is the crop of the zero box from the image's
    own feature map. *)
Theorem RoIBBox_feeds_RoIPooling
    hp (rpn_bbox_deltas rpn_labels : list (scalar R)) anchors gt_boxes
    (feature_map : list (list (list (list (scalar R)))))
    nms_bboxes pos_bbox_indices neg_bbox_indices gt_box_indices
    roi_bboxes gt_indices :
  (∀ a d : list (scalar R), length a = 4 → length d = 4 →
     length (decode a d) = 4) →
  Forall (Forall (λ a, length a = 4)) anchors →
  RoIBBox_nms hp rpn_bbox_deltas rpn_labels anchors = Some nms_bboxes →
  get_selected_indices nms_bboxes gt_boxes
      (total_pos_bboxes hp) (total_neg_bboxes hp)
    = (pos_bbox_indices, neg_bbox_indices, gt_box_indices) →
  Forall (λ idx, length idx = total_pos_bboxes hp) pos_bbox_indices →
  RoIBBox_call hp rpn_bbox_deltas rpn_labels anchors gt_boxes
    = Some (roi_bboxes, gt_indices) →
  shape0 anchors ≤ length feature_map →
  positive_image_dims feature_map →
  positive_crop_size (pooling_size hp) →
  ∃ pooled,
    RoIPooling_call hp feature_map roi_bboxes = Some pooled
    ∧ length pooled = shape0 anchors
    ∧ ∀ b row, pooled !! b = Some row →
        length row = total_pos_bboxes hp + total_neg_bboxes hp
        ∧ ∃ img, feature_map !! b = Some img
            ∧ ∀ j, total_pos_bboxes hp ≤ j →
                j < total_pos_bboxes hp + total_neg_bboxes hp →
                row !! j = Some (crop_box img zero_box (pooling_size hp)).
Proof.
  intros Hdec Hanc Hnms Hsel Hpos Hcall Hfm Hdims Hsize.
  pose proof (RoIBBox_call_shape _ _ _ _ _ _ _ _ _ _ _
                Hdec Hanc Hnms Hsel Hpos Hcall) as Hshape.
  destruct (RoIBBox_call_Some _ _ _ _ _ _ _ _ _ _ _ Hnms Hsel Hcall)
    as (_ & Hlen & Hrows).
  destruct (RoIPooling_call_is_Some hp feature_map roi_bboxes Hshape)
    as [pooled Hpooled]; [lia|done|done|].
  destruct (RoIPooling_call_Some _ _ _ _ Hshape Hpooled) as (Hpl & Hprows & _).
  exists pooled. split_and!; [done|lia|].
  intros b row Hb. split.
  { by eapply (proj1 (Forall_lookup _ _)) in Hprows. }
  assert (b < length roi_bboxes) as Hblt.
  { rewrite <-Hpl. by eapply lookup_lt_Some. }
  destruct (lookup_lt_is_Some_2 feature_map b) as [img Himg]; [lia|].
  destruct (lookup_lt_is_Some_2 roi_bboxes b) as [rrow Hrrow]; [done|].
  exists img. split; [done|]. intros j Hj1 Hj2.
  pose proof (RoIPooling_call_row _ _ _ _ _ _ _ Hshape Hpooled Himg Hrrow) as Hrow.
  rewrite Hb in Hrow. injection Hrow as ->.
  destruct (Hrows b rrow Hrrow) as (nms_row & idx & pos_row & _ & Hi & Hrel & ->).
  eapply (proj1 (Forall_lookup _ _)) in Hpos; [|exact Hi]. simpl in Hpos.
  apply Forall2_length in Hrel.
  rewrite !list_lookup_fmap, lookup_app_r by lia.
  rewrite lookup_replicate_2 by lia. done.
Qed.

(** X8: lines 248 and 249 of [get_model] hand the Proposal Batch and the GT
    Index Map of [RoIBBox] to [RoIDelta] built from the same
    hyper-parameters.  When [get_selected_indices] hands back
    [total_pos_bboxes] proposal indices and [total_pos_bboxes] ground-truth
    indices per image, each the index of a ground-truth box whose label is
    a class, and boxes have four coordinates that decoding and encoding
    keep, [RoIDelta.call] returns on what [RoIBBox.call] returned. *)
Theorem RoIBBox_feeds_RoIDelta
    hp (rpn_bbox_deltas rpn_labels : list (scalar R)) anchors gt_boxes
    (gt_labels : list (list Z))
    nms_bboxes pos_bbox_indices neg_bbox_indices gt_box_indices
    roi_bboxes gt_indices :
  0 < total_labels hp →
  (∀ a d : list (scalar R), length a = 4 → length d = 4 →
     length (decode a d) = 4) →
  (∀ r g : list (scalar R), length r = 4 → length g = 4 →
     length (encode r g) = 4) →
  Forall (Forall (λ a, length a = 4)) anchors →
  Forall (Forall (λ g, length g = 4)) gt_boxes →
  length gt_boxes = shape0 anchors →
  length gt_labels = shape0 anchors →
  RoIBBox_nms hp rpn_bbox_deltas rpn_labels anchors = Some nms_bboxes →
  get_selected_indices nms_bboxes gt_boxes
      (total_pos_bboxes hp) (total_neg_bboxes hp)
    = (pos_bbox_indices, neg_bbox_indices, gt_box_indices) →
  Forall (λ idx, length idx = total_pos_bboxes hp) pos_bbox_indices →
  length gt_box_indices = shape0 anchors →
  Forall (λ idx, length idx = total_pos_bboxes hp) gt_box_indices →
  (∀ b idx boxes labels,
     gt_box_indices !! b = Some idx → gt_boxes !! b = Some boxes →
     gt_labels !! b = Some labels →
     Forall (λ k, (0 ≤ k < Z.of_nat (length boxes))%Z
                  ∧ ∃ l, index labels k = Some l
                         ∧ (0 ≤ l < Z.of_nat (total_labels hp))%Z) idx) →
  RoIBBox_call hp rpn_bbox_deltas rpn_labels anchors gt_boxes
    = Some (roi_bboxes, gt_indices) →
  is_Some (RoIDelta_call hp roi_bboxes gt_boxes gt_labels gt_indices).
Proof.
  intros HL Hdec Henc Hanc Hgt4 Hgl Hll Hnms Hsel Hpos Hil Hirows Hidx Hcall.
  pose proof (RoIBBox_call_shape _ _ _ _ _ _ _ _ _ _ _
                Hdec Hanc Hnms Hsel Hpos Hcall) as Hshape.
  destruct (RoIBBox_call_Some _ _ _ _ _ _ _ _ _ _ _ Hnms Hsel Hcall)
    as (-> & Hlen & _).
  apply RoIDelta_call_is_Some; try done; lia.
Qed.
End proposal_batch_consumers.

(** ** The dummy batch *)

Section dummy_batch.
Context {R : Type} `{!Float R, !Helpers R}.

Lemma random_uniform_Some shape x :
  random_uniform shape = Some x ↔
  Forall (λ d, (0 ≤ d)%Z) shape ∧ x = TensorSpec shape float32.
Proof.
  unfold random_uniform. destruct (decide (Forall (λ d, (0 ≤ d)%Z) shape)).
  - rewrite option_guard_True by done. simpl. naive_solver.
  - rewrite option_guard_False by done. simpl. naive_solver.
Qed.

Lemma random_uniform_int_Some shape maxval x :
  random_uniform_int shape maxval = Some x ↔
  Forall (λ d, (0 ≤ d)%Z) shape ∧ (- 2 ^ 31 ≤ maxval < 2 ^ 31)%Z
  ∧ (numel shape ≠ 0%Z → (0 < maxval)%Z)
  ∧ x = TensorSpec shape int32.
Proof.
  unfold random_uniform_int.
  destruct (decide (Forall (λ d, (0 ≤ d)%Z) shape)).
  - rewrite (option_guard_True (Forall _ _)) by done. simpl.
    destruct (decide (- 2 ^ 31 ≤ maxval < 2 ^ 31)%Z).
    + rewrite (option_guard_True (_ ∧ _)) by done. simpl.
      destruct (decide (numel shape ≠ 0%Z → (0 < maxval)%Z)).
      * rewrite (option_guard_True (_ → _)) by done. simpl. naive_solver.
      * rewrite (option_guard_False (_ → _)) by done. simpl. naive_solver.
    + rewrite (option_guard_False (_ ∧ _)) by done. simpl. naive_solver.
  - rewrite (option_guard_False (Forall _ _)) by done. simpl. naive_solver.
Qed.

(** What a run of [get_dummy_initializer] that returns has computed. *)
Lemma get_dummy_initializer_Some H W (hp : model_params) mode dummy :
  get_dummy_initializer H W hp mode = Some dummy →
  let oh := (H `div` stride hp)%Z in
  let ow := (W `div` stride hp)%Z in
  stride hp ≠ 0%Z
  ∧ (0 ≤ H)%Z ∧ (0 ≤ W)%Z ∧ (0 ≤ oh * ow * anchor_count hp)%Z
  ∧ (mode ≠ "training" →
       dummy = [TensorSpec [1; H; W; 3]%Z float32;
                TensorSpec [1; oh * ow * anchor_count hp; 4]%Z float32;
                TensorSpec [1; 1; 4]%Z float32])
  ∧ (mode = "training" →
       0 < total_labels hp
       ∧ (0 ≤ oh)%Z ∧ (0 ≤ ow)%Z ∧ (0 ≤ anchor_count hp)%Z
       ∧ dummy = [TensorSpec [1; H; W; 3]%Z float32;
                  TensorSpec [1; oh * ow * anchor_count hp; 4]%Z float32;
                  TensorSpec [1; 1; 4]%Z float32;
                  TensorSpec [1; 1]%Z int32;
                  TensorSpec [1; oh; ow; anchor_count hp * 4]%Z float32;
                  TensorSpec [1; oh; ow; anchor_count hp]%Z int32]).
Proof.
  unfold get_dummy_initializer. intros Hd. simpl.
  destruct (random_uniform [1; H; W; 3]%Z) as [img|] eqn:Himg; [|done].
  simpl in Hd. open_guard Hd Hstride.
  destruct (random_uniform [1; _; 4]%Z) as [anchors|] eqn:Hanc; [|done].
  simpl in Hd.
  destruct (random_uniform [1; 1; 4]%Z) as [gt_boxes|] eqn:Hgt; [|done].
  simpl in Hd.
  apply random_uniform_Some in Himg as [Hi ->].
  apply random_uniform_Some in Hanc as [Ha ->].
  apply random_uniform_Some in Hgt as [_ ->].
  do 4 (split; [by decompose_Forall|]).
  destruct (decide (mode ≠ "training")) as [Hmode|Hmode].
  { split; [intros _; by simplify_eq|done]. }
  split; [done|]. intros _.
  destruct (random_uniform_int [1; 1]%Z _) as [gt_labels|] eqn:Hgl; [|done].
  simpl in Hd.
  destruct (random_uniform [1; _; _; _]%Z) as [bbox_deltas|] eqn:Hbd; [|done].
  simpl in Hd.
  destruct (random_uniform_int [1; _; _; _]%Z _) as [bbox_labels|] eqn:Hbl;
    [|done].
  simpl in Hd.
  apply random_uniform_int_Some in Hgl as (_ & _ & Hmax & ->).
  apply random_uniform_Some in Hbd as [_ ->].
  apply random_uniform_int_Some in Hbl as (Hdims & _ & _ & ->).
  simplify_eq. split_and!; [|by decompose_Forall..|done].
  assert (0 < Z.of_nat (total_labels hp))%Z; [|lia].
  apply Hmax. by vm_compute.
Qed.

(** The labels of a dummy batch of the mode ["training"] are drawn below
    an int32 [total_labels]. *)
Lemma get_dummy_initializer_int32 H W (hp : model_params) dummy :
  get_dummy_initializer H W hp "training" = Some dummy →
  (Z.of_nat (total_labels hp) < 2 ^ 31)%Z.
Proof.
  unfold get_dummy_initializer. intros Hd.
  apply bind_Some in Hd as (img & _ & Hd).
  open_guard Hd Hstride.
  apply bind_Some in Hd as (anchors & _ & Hd).
  apply bind_Some in Hd as (gt_labels & _ & Hd).
  apply bind_Some in Hd as (bbox_deltas & _ & Hd).
  apply bind_Some in Hd as (bbox_labels & Hbl & _).
  apply random_uniform_int_Some in Hbl as (_ & Hmax & _). lia.
Qed.

(** X9: for image sizes and an [anchor_count] from 0 to below [2 ^ 20] and
    a [stride] that is not negative, [get_dummy_initializer] returns in
    every mode but for these errors: the division by a [stride] of zero,
    and in the mode ["training"] the draw of a label among
    [total_labels = 0] classes or below a [total_labels] that is no int32.
    When it returns, it returns six tensors in the mode ["training"] and
    three in any other mode. *)
Theorem get_dummy_initializer_returns_iff H W (hp : model_params) mode :
  (0 ≤ H < 2 ^ 20)%Z → (0 ≤ W < 2 ^ 20)%Z → (0 ≤ stride hp)%Z →
  (0 ≤ anchor_count hp < 2 ^ 20)%Z →
  (is_Some (get_dummy_initializer H W hp mode)
   ↔ stride hp ≠ 0%Z
     ∧ (mode = "training" → (0 < Z.of_nat (total_labels hp) < 2 ^ 31)%Z))
  ∧ ∀ dummy, get_dummy_initializer H W hp mode = Some dummy →
      length dummy = if decide (mode = "training") then 6 else 3.
Proof.
  intros HH HW Hs Ha. split; [split|].
  - intros [dummy Hd].
    pose proof Hd as Hd'.
    apply get_dummy_initializer_Some in Hd as (? & _ & _ & _ & _ & Ht).
    split; [done|]. intros ->. destruct (Ht eq_refl) as [? _].
    apply get_dummy_initializer_int32 in Hd'. lia.
  - intros [Hstride Hlabels].
    assert (0 ≤ H `div` stride hp)%Z as Hoh by (apply Z.div_pos; lia).
    assert (0 ≤ W `div` stride hp)%Z as How by (apply Z.div_pos; lia).
    assert (∀ shape, Forall (λ d, (0 ≤ d)%Z) shape →
              random_uniform shape = Some (TensorSpec shape float32)) as Hru.
    { intros shape Hshape. by apply random_uniform_Some. }
    assert (∀ shape, Forall (λ d, (0 ≤ d)%Z) shape →
              (0 < Z.of_nat (total_labels hp) < 2 ^ 31)%Z →
              random_uniform_int shape (Z.of_nat (total_labels hp))
              = Some (TensorSpec shape int32)) as Hrui.
    { intros shape Hshape Hmax. apply random_uniform_int_Some.
      split_and!; [done|lia|lia|intros _; lia|done]. }
    unfold get_dummy_initializer.
    rewrite !Hru by (repeat constructor; lia). cbn [mbind option_bind].
    rewrite option_guard_True by done. cbn [mbind option_bind].
    destruct (decide (mode ≠ "training")) as [|Hm]; [done|].
    apply dec_stable in Hm. specialize (Hlabels Hm).
    rewrite !Hrui by (repeat constructor; lia). done.
  - intros dummy Hd.
    apply get_dummy_initializer_Some in Hd as (_ & _ & _ & _ & Hi & Ht).
    destruct (decide (mode = "training")) as [Hm|Hm].
    + by destruct (Ht Hm) as (_ & _ & _ & _ & ->).
    + by rewrite (Hi Hm).
Qed.

(** X10: the dummy batch of the mode ["training"] fits the reshapes of
    [RoIBBox.call]: with anchors of the shape of its second tensor, and
    predictions of the RPN with as many elements as its fifth and sixth
    tensor (the shapes the RPN losses compare them with), the reshapes of
    lines 50 and 51 return. *)
Theorem dummy_fits_RoIBBox H W (hp : model_params)
    img anchors_spec gt_boxes_spec gt_labels_spec bbox_deltas_spec
    bbox_labels_spec
    (rpn_bbox_deltas rpn_labels : list (scalar R))
    (anchors : list (list (list (scalar R)))) :
  get_dummy_initializer H W hp "training"
    = Some [img; anchors_spec; gt_boxes_spec; gt_labels_spec;
            bbox_deltas_spec; bbox_labels_spec] →
  tensor_shape anchors_spec
    = [Z.of_nat (shape0 anchors); Z.of_nat (shape1 anchors); 4%Z] →
  Z.of_nat (length rpn_bbox_deltas) = numel (tensor_shape bbox_deltas_spec) →
  Z.of_nat (length rpn_labels) = numel (tensor_shape bbox_labels_spec) →
  is_Some (reshape3 (shape0 anchors) (shape1 anchors) 4 rpn_bbox_deltas)
  ∧ is_Some (reshape3 (shape0 anchors) (shape1 anchors) 1 rpn_labels).
Proof.
  intros Hd Hshape Hdl Hll.
  apply get_dummy_initializer_Some in Hd as (_ & _ & _ & _ & _ & Ht).
  destruct (Ht eq_refl) as (_ & _ & _ & _ & Heq). simplify_eq.
  simpl in Hshape. injection Hshape as H0 H1.
  unfold numel in Hdl, Hll. simpl in Hdl, Hll.
  rewrite !reshape3_is_Some. nia.
Qed.
End dummy_batch.

(** ** The generator *)

Section generator_yields.
Context {T processor : Type}.
Context (get_step_data :
  T * T * T → model_params → processor → T * T * T * T).
Implicit Types (ds : list (T * T * T)) (hp : model_params) (ip : processor).

Lemma next_item ds hp ip x r fuel :
  next get_step_data (S fuel) (GeneratorState ds hp ip (x :: r))
  = Some (yield_of get_step_data hp ip x, GeneratorState ds hp ip r).
Proof. done. Qed.

Lemma next_wrap ds hp ip x ds' :
  ds = x :: ds' →
  next get_step_data 2 (GeneratorState ds hp ip [])
  = Some (yield_of get_step_data hp ip x, GeneratorState ds hp ip ds').
Proof. by intros ->. Qed.

Lemma take_items_from ds hp ip k j :
  ds ≠ [] → j ≤ length ds →
  length (take_items get_step_data 2 k (GeneratorState ds hp ip (drop j ds))) = k
  ∧ ∀ i, i < k →
      take_items get_step_data 2 k (GeneratorState ds hp ip (drop j ds)) !! i
      = yield_of get_step_data hp ip <$> ds !! ((j + i) mod length ds).
Proof.
  intros Hne. revert j. induction k as [|k IH]; intros j Hj.
  { split; [done|]. intros i Hi. lia. }
  assert (0 < length ds) as Hpos by (destruct ds; [done|simpl; lia]).
  destruct (decide (j < length ds)) as [Hlt|Hge].
  - destruct (lookup_lt_is_Some_2 ds j Hlt) as [x Hx].
    rewrite (drop_S _ _ _ Hx).
    destruct (IH (S j) ltac:(lia)) as [IHlen IHi].
    cbn [take_items]. rewrite next_item.
    split; [simpl; by rewrite IHlen|].
    intros [|i] Hi.
    + rewrite Nat.add_0_r, Nat.mod_small, Hx by done. done.
    + cbn [lookup list_lookup]. rewrite IHi by lia.
      by replace (j + S i) with (S j + i) by lia.
  - assert (j = length ds) as -> by lia. rewrite drop_all.
    destruct (lookup_lt_is_Some_2 ds 0 Hpos) as [x Hx].
    destruct (IH 1 ltac:(lia)) as [IHlen IHi].
    cbn [take_items]. rewrite (next_wrap ds hp ip x (drop 1 ds)).
    2:{ destruct ds; by simplify_eq/=. }
    split; [simpl; by rewrite IHlen|].
    intros [|i] Hi.
    + rewrite Nat.add_0_r, Nat.Div0.mod_same, Hx. done.
    + cbn [lookup list_lookup]. rewrite IHi by lia.
      replace (length ds + S i) with (1 + i + 1 * length ds) by lia.
      by rewrite Nat.Div0.mod_add.
Qed.

(** X11: on an empty dataset [generator] never yields: whatever the number
    of turns of its loops, [next] has no item to return, the [for] loop is
    exhausted at once and [while True] only starts it again. *)
Theorem generator_empty_never_yields hp ip fuel k :
  next get_step_data fuel (generator [] hp ip) = None
  ∧ take_items get_step_data fuel k (generator [] hp ip) = [].
Proof.
  assert (next get_step_data fuel (generator [] hp ip) = None) as Hnext.
  { unfold generator. induction fuel as [|fuel IH]; [done|]. exact IH. }
  split; [done|]. destruct k; [done|]. simpl. by rewrite Hnext.
Qed.

(** X12: on a dataset of [n > 0] batches [generator] yields for ever, and
    each [next] takes at most two turns of its loops: the item [i] it
    yields is made of the batch [i mod n] of the dataset.  Its ground
    truth boxes and labels are those of the batch, third and fourth of the
    inputs, and the other four inputs are what [rpn.get_step_data] gives
    for the batch, in the order image, anchors, deltas, labels. *)
Theorem generator_cycles ds hp ip k :
  ds ≠ [] →
  length (take_items get_step_data 2 k (generator ds hp ip)) = k
  ∧ ∀ i, i < k →
      ∃ img gt_boxes gt_labels,
        ds !! (i mod length ds) = Some (img, gt_boxes, gt_labels)
        ∧ take_items get_step_data 2 k (generator ds hp ip) !! i
          = Some
              (let '(input_img, bbox_deltas, bbox_labels, anchors) :=
                 get_step_data (img, gt_boxes, gt_labels) hp ip in
               ((input_img, anchors, gt_boxes, gt_labels, bbox_deltas,
                 bbox_labels), ())).
Proof.
  intros Hne.
  destruct (take_items_from ds hp ip k 0 Hne ltac:(lia)) as [Hlen Hi].
  unfold generator. rewrite drop_0 in Hlen, Hi. split; [done|].
  intros i Hik. specialize (Hi i Hik). rewrite Nat.add_0_l in Hi.
  assert (0 < length ds) as Hpos by (destruct ds; [done|simpl; lia]).
  destruct (lookup_lt_is_Some_2 ds (i mod length ds)) as [[[img gb] gl] Hx].
  { by apply Nat.mod_upper_bound, Nat.neq_0_lt_0. }
  exists img, gb, gl. split; [done|]. rewrite Hi, Hx. done.
Qed.
End generator_yields.

(** ** Configurations of the layers *)

Section layer_config_round_trip.
Context {base value : Type}.
Context (Layer_init : gmap string value → option base).
Context (Layer_get_config : base → gmap string value).

Lemma from_config_get_config (self : hyper_layer (base:=base) (value:=value)) :
  Layer_init (Layer_get_config (layer_base self)) = Some (layer_base self) →
  Layer_get_config (layer_base self) !! "hyper_params" = None →
  (hyper_params ←
     <["hyper_params" := self_hyper_params self]>
       (Layer_get_config (layer_base self)) !! "hyper_params";
   base' ←
     Layer_init
       (delete "hyper_params"
          (<["hyper_params" := self_hyper_params self]>
             (Layer_get_config (layer_base self))));
   Some (HyperLayer base' hyper_params))
  = Some self.
Proof.
  intros Hinit Hfresh. rewrite lookup_insert_eq. simpl.
  rewrite delete_insert_id by done. rewrite Hinit. simpl. by destruct self.
Qed.

(** X13: [get_config] of the three layers records what [__init__] needs:
    when the configuration of the base class rebuilds the base object and
    has no entry ["hyper_params"] of its own, the class called with the
    entries of [get_config()] as keywords gives the layer back, with the
    same [hyper_params]. *)
Theorem get_config_round_trip (self : hyper_layer (base:=base) (value:=value)) :
  Layer_init (Layer_get_config (layer_base self)) = Some (layer_base self) →
  Layer_get_config (layer_base self) !! "hyper_params" = None →
  from_config (RoIBBox_init Layer_init)
    (RoIBBox_get_config Layer_get_config self) = Some self
  ∧ from_config (RoIDelta_init Layer_init)
      (RoIDelta_get_config Layer_get_config self) = Some self
  ∧ from_config (RoIPooling_init Layer_init)
      (RoIPooling_get_config Layer_get_config self) = Some self.
Proof.
  intros Hinit Hfresh.
  split_and!; by apply from_config_get_config.
Qed.
End layer_config_round_trip.

(** ** The model builder *)

Section model_builder.
Implicit Types (hp : model_params) (t : tensor) (m : keras_model)
  (nodes : list (layer * list tensor)).

Lemma Model_Some inputs outputs m :
  Model inputs outputs = Some m ↔
  Forall (λ t, is_input (tensor_layer t)) inputs
  ∧ Forall (λ n : layer * list tensor,
      is_input n.1 → n.1 ∈ tensor_layer <$> inputs) (outputs ≫= graph_nodes)
  ∧ unique_names ((inputs ++ outputs) ≫= graph_nodes)
  ∧ m = KerasModel inputs outputs [] [].
Proof.
  unfold Model. repeat case_guard; simpl; naive_solver.
Qed.

Lemma root_node l args k (ts : list tensor) :
  layer_output l args k ∈ ts → (l, args) ∈ ts ≫= graph_nodes.
Proof.
  intros Hin. apply list_elem_of_bind. eexists. split; [|exact Hin].
  simpl. apply list_elem_of_here.
Qed.

Lemma unique_names_lookup nodes n n' :
  unique_names nodes → n ∈ nodes → n' ∈ nodes →
  layer_name n.1 = layer_name n'.1 → n.1 = n'.1.
Proof.
  intros Hu Hn Hn'. unfold unique_names in Hu.
  eapply (proj1 (Forall_forall _ _)) in Hu; [|exact Hn].
  by eapply (proj1 (Forall_forall _ _)) in Hu.
Qed.

Lemma get_layer_Some m name l :
  get_layer m name = Some l →
  layer_name l = name ∧ ∃ args, (l, args) ∈ model_nodes m.
Proof.
  unfold get_layer. intros Hh.
  assert (l ∈ filter (λ l, layer_name l = name) (model_nodes m).*1) as Hin.
  { destruct (filter _ _) as [|x r]; simplify_eq/=. apply list_elem_of_here. }
  apply list_elem_of_filter in Hin as [Hname Hin].
  apply list_elem_of_fmap in Hin as ([l' args] & -> & Hin). eauto.
Qed.

Lemma output_of_Some m l t :
  output_of m l = Some t →
  ∃ args, t = call l args ∧ (l, args) ∈ model_nodes m
    ∧ ∀ args', (l, args') ∈ model_nodes m → args' = args.
Proof.
  unfold output_of. intros Ho.
  destruct (remove_dups _) as [|args [|??]] eqn:Hr; simplify_eq/=.
  exists args. split; [done|].
  assert (∀ a, a ∈ [args] ↔ (l, a) ∈ model_nodes m) as Hiff.
  { intros a. rewrite <-Hr, elem_of_remove_dups, list_elem_of_fmap. split.
    - intros ([l' a'] & -> & Hin).
      by apply list_elem_of_filter in Hin as [<- Hin].
    - intros Hin. exists (l, a). split; [done|]. by apply list_elem_of_filter. }
  split.
  - apply Hiff, list_elem_of_here.
  - intros args' Hin. apply Hiff in Hin. by apply list_elem_of_singleton in Hin.
Qed.

(** What [register_loss] adds is the output of the one call of the layer
    of the model that has the name. *)
Lemma register_loss_inv m name m' l args :
  unique_names (model_nodes m) →
  (l, args) ∈ model_nodes m → layer_name l = name →
  register_loss m name = Some m' →
  m' = add_metric (add_loss m (call l args)) (call l args) name "mean".
Proof.
  unfold register_loss. intros Hu Hin Hname Hr.
  destruct (get_layer m name) as [l'|] eqn:Hl; [|done]. simpl in Hr.
  destruct (output_of m l') as [t|] eqn:Ht; [|done]. simpl in Hr.
  apply get_layer_Some in Hl as (Hname' & args' & Hin').
  assert (l' = l) as ->.
  { apply (unique_names_lookup _ (l', args') (l, args) Hu); [done..|].
    simpl. congruence. }
  apply output_of_Some in Ht as (a & -> & _ & Hall).
  rewrite (Hall args Hin). by simplify_eq.
Qed.
End model_builder.
Section get_model_structure.
Context {fp : ForwardPass}.
Implicit Types (hp : model_params) (t : tensor) (m : keras_model).

Ltac solve_elem :=
  repeat first [apply list_elem_of_here | apply list_elem_of_further].

(** The loop over [loss_names], run on a model whose last four outputs
    are the outputs of layers of these names, adds these outputs as losses
    and as metrics. *)
Lemma register_losses inputs outputs l1 a1 l2 a2 l3 a3 l4 a4 m :
  unique_names ((inputs ++ outputs) ≫= graph_nodes) →
  drop 5 outputs = [call l1 a1; call l2 a2; call l3 a3; call l4 a4] →
  foldl (λ frcnn_model layer_name,
           frcnn_model ← frcnn_model; register_loss frcnn_model layer_name)
    (Some (KerasModel inputs outputs [] []))
    [layer_name l1; layer_name l2; layer_name l3; layer_name l4] = Some m →
  m = KerasModel inputs outputs (drop 5 outputs)
        ((λ t, (layer_name (tensor_layer t), t, "mean")) <$> drop 5 outputs).
Proof.
  intros Hu Hdrop Hfold. cbn [foldl mbind option_bind] in Hfold.
  assert (∀ l a, call l a ∈ drop 5 outputs →
            (l, a) ∈ (inputs ++ outputs) ≫= graph_nodes) as Hin.
  { intros l a Hla. apply (root_node _ _ 0), elem_of_app. right.
    rewrite <-(take_drop 5 outputs). apply elem_of_app. by right. }
  rewrite Hdrop in Hin |- *.
  apply bind_Some in Hfold as (m3 & Hfold & H4).
  apply bind_Some in Hfold as (m2 & Hfold & H3).
  apply bind_Some in Hfold as (m1 & H1 & H2).
  apply (register_loss_inv _ _ _ l1 a1) in H1; [|done|apply Hin; solve_elem|done].
  subst m1.
  apply (register_loss_inv _ _ _ l2 a2) in H2; [|done|apply Hin; solve_elem|done].
  subst m2.
  apply (register_loss_inv _ _ _ l3 a3) in H3; [|done|apply Hin; solve_elem|done].
  subst m3.
  apply (register_loss_inv _ _ _ l4 a4) in H4; [|done|apply Hin; solve_elem|done].
  by subst m.
Qed.

(** X14: a model that [get_model] returns was built on a backbone of one
    input and one output and on an RPN of two outputs; the input of the
    backbone is its first input; its layers have distinct names; and the
    call of line 275 went through: [get_dummy_initializer] returned a batch
    (so the [stride] is not zero and, in the mode ["training"],
    [total_labels] is a positive int32), each input of the model admits
    its tensor of the batch, and the forward pass on the batch returned.
    So [get_model] raises when one of these fails. *)
Theorem get_model_returns_only_if H W base_model rpn_model hp mode m :
  get_model H W base_model rpn_model hp mode = Some m →
  ∃ input_img dummy,
    model_inputs base_model = [input_img]
    ∧ length (model_outputs base_model) = 1
    ∧ length (model_outputs rpn_model) = 2
    ∧ head (model_inputs m) = Some input_img
    ∧ unique_names (model_nodes m)
    ∧ stride hp ≠ 0%Z
    ∧ (mode = "training" → (0 < Z.of_nat (total_labels hp) < 2 ^ 31)%Z)
    ∧ get_dummy_initializer H W hp mode = Some dummy
    ∧ Forall2 admits (model_inputs m) dummy
    ∧ forward_pass m dummy = Some ().
Proof.
  unfold get_model. intros Hm.
  apply bind_Some in Hm as (input_img & Hin & Hm).
  apply bind_Some in Hm as ([reg cls] & Hrpn & Hm).
  cbn [call2] in Hm.
  apply bind_Some in Hm as (base_output & Hout & Hm).
  apply bind_Some in Hm as (fm & Hfm & Hm).
  apply bind_Some in Hm as (dummy & Hd & Hm).
  apply bind_Some in Hm as ([] & Hcall & Hm). injection Hm as <-.
  unfold call_model in Hcall. open_guard Hcall Hadm.
  exists input_img, dummy.
  assert (model_inputs base_model = [input_img]) as Hbi.
  { unfold model_input in Hin.
    destruct (model_inputs base_model) as [|? [|? ?]]; by simplify_eq. }
  assert (length (model_outputs base_model) = 1) as Hbo.
  { unfold model_output in Hout.
    destruct (model_outputs base_model) as [|? [|? ?]]; by simplify_eq. }
  assert (length (model_outputs rpn_model) = 2) as Hro.
  { unfold model_output2 in Hrpn.
    destruct (model_outputs rpn_model) as [|? [|? [|? ?]]]; by simplify_eq. }
  assert (head (model_inputs fm) = Some input_img
          ∧ unique_names (model_nodes fm)) as [Hhead Hu].
  { destruct (decide (mode = "training")) as [->|Hmode].
    - apply bind_Some in Hfm as (M & HM & Hfold).
      lazymatch type of HM with
      | Model _ [_; _; _; _; _; call ?l1 ?a1; call ?l2 ?a2; call ?l3 ?a3;
                 call ?l4 ?a4] = _ =>
          apply Model_Some in HM as (_ & _ & Hu & ->);
          apply (register_losses _ _ l1 a1 l2 a2 l3 a3 l4 a4) in Hfold;
            [|exact Hu|reflexivity]
      end.
      subst fm. split; [done|exact Hu].
    - apply Model_Some in Hfm as (_ & _ & Hu & ->). split; [done|exact Hu]. }
  pose proof Hd as Hd'.
  apply get_dummy_initializer_Some in Hd' as (Hs & _ & _ & _ & _ & Ht).
  split_and!; try done.
  intros ->. destruct (Ht eq_refl) as [? _].
  apply get_dummy_initializer_int32 in Hd. lia.
Qed.
(** X15: the model [get_model] returns has six inputs and nine outputs in
    the mode ["training"], three inputs and five outputs in any other
    mode; its losses are its outputs after the fifth, in their order, and
    each is also a metric under the name of its layer, aggregated by the
    mean.  So a model of another mode than ["training"] has no loss. *)
Theorem get_model_structure H W base_model rpn_model hp mode m :
  get_model H W base_model rpn_model hp mode = Some m →
  length (model_inputs m) = (if decide (mode = "training") then 6 else 3)
  ∧ length (model_outputs m) = (if decide (mode = "training") then 9 else 5)
  ∧ model_losses m = drop 5 (model_outputs m)
  ∧ model_metrics m
    = (λ t, (layer_name (tensor_layer t), t, "mean")) <$> model_losses m.
Proof.
  unfold get_model. intros Hm.
  apply bind_Some in Hm as (input_img & _ & Hm).
  apply bind_Some in Hm as ([reg cls] & _ & Hm).
  cbn [call2] in Hm.
  apply bind_Some in Hm as (base_output & _ & Hm).
  apply bind_Some in Hm as (fm & Hfm & Hm).
  apply bind_Some in Hm as (dummy & _ & Hm).
  apply bind_Some in Hm as ([] & _ & Hm). injection Hm as <-.
  destruct (decide (mode = "training")) as [->|Hmode].
  - apply bind_Some in Hfm as (M & HM & Hfold).
    lazymatch type of HM with
    | Model _ [_; _; _; _; _; call ?l1 ?a1; call ?l2 ?a2; call ?l3 ?a3;
               call ?l4 ?a4] = _ =>
        apply Model_Some in HM as (_ & _ & Hu & ->);
        apply (register_losses _ _ l1 a1 l2 a2 l3 a3 l4 a4) in Hfold;
          [|exact Hu|reflexivity]
    end.
    by subst fm.
  - apply Model_Some in Hfm as (_ & _ & _ & ->). done.
Qed.
End get_model_structure.

(** * The layers on the example batch *)

Lemma Z_intersection_comm c d : Z_intersection c d = Z_intersection d c.
Proof.
  destruct c as [[[y1 x1] y2] x2], d as [[[y1' x1'] y2'] x2'].
  unfold Z_intersection.
  by rewrite (Z.min_comm y2), (Z.max_comm y1), (Z.min_comm x2), (Z.max_comm x1).
Qed.

Lemma Z_iou_sym (c d : list (scalar Z)) : iou c d = iou d c.
Proof.
  simpl. unfold Z_iou.
  destruct (Z_corners c) as [cc|], (Z_corners d) as [cd|]; try done.
  by rewrite (Z_intersection_comm cd cc), (Z.add_comm (Z_area cd)).
Qed.

(** The scenario of the specification: the two positive slots have their
    indicator at the column [3] of the ground-truth label and their delta
    in that column, the two negative slots have their indicator at the
    column [4] and no delta. *)
Example scenario_target_assignment :
  RoIDelta_call sc_hp sc_roi sc_gt_boxes sc_gt_labels sc_gt_box_indices
  = Some ([[mjoin (<[3 := cbox 0 0 0 0]> (replicate 5 zero_box));
            mjoin (<[3 := cbox 10 10 10 10]> (replicate 5 zero_box));
            mjoin (replicate 5 zero_box);
            mjoin (replicate 5 zero_box)]],
          [[[0; 0; 0; 1; 0]; [0; 0; 0; 1; 0];
            [0; 0; 0; 0; 1]; [0; 0; 0; 0; 1]]]%Z).
Proof. vm_compute. reflexivity. Qed.



Lemma RoIDelta_call_exclusive_witness :
  (∀ x : Z, radd rzero x = x)
  ∧ Forall (λ r : list Z, length r = 1) ex_roi.2
  ∧ RoIDelta_call ex_hp ex_roi.1 ex_gt_boxes ex_gt_labels ex_roi.2
    = Some (ex_targets.1, ex_targets.2)
  ∧ ∃ lm ds,
      gt_labels_map ex_hp (shape0 ex_roi.1) ex_gt_labels ex_roi.2 = Some lm
      ∧ roi_deltas ex_hp ex_roi.1 ex_gt_boxes ex_roi.2 = Some ds
      ∧ ∀ b i, b < shape0 ex_roi.1 →
          i < total_pos_bboxes ex_hp + total_neg_bboxes ex_hp →
          ∃ c d,
            slot lm b i = Some c ∧ slot ds b i = Some d
            ∧ (0 ≤ c < Z.of_nat (total_labels ex_hp))%Z
            ∧ slot ex_targets.2 b i
              = Some (<[Z.to_nat c := 1%Z]> (replicate (total_labels ex_hp) 0%Z))
            ∧ slot ex_targets.1 b i
              = Some (mjoin (<[Z.to_nat c := stop_gradient_box d]>
                               (replicate (total_labels ex_hp) zero_box))).
Proof.
  assert (Forall (λ r : list Z, length r = 1) ex_roi.2) as H1
    by (repeat constructor).
  assert (RoIDelta_call ex_hp ex_roi.1 ex_gt_boxes ex_gt_labels ex_roi.2
          = Some (ex_targets.1, ex_targets.2)) as H2
    by (vm_compute; reflexivity).
  exact (conj Z.add_0_l (conj H1 (conj H2
    (RoIDelta_call_exclusive Z.add_0_l ex_hp ex_roi.1 ex_gt_boxes ex_gt_labels
       ex_roi.2 1 ex_targets.1 ex_targets.2 H1 H2)))).
Defined.

Lemma get_valid_predictions_discards_background_witness :
  Forall (Forall (λ scores : list (scalar Z),
    argmax scores = Some (Z.of_nat 3 - 1)%Z)) ex_background_pred
  ∧ get_valid_predictions ex_roi.1 ex_delta_pred ex_background_pred 3
    = Some ([[]], [[]])
  ∧ get_valid_predictions ex_roi.1 ex_delta_pred ex_label_pred 3
    = Some (ex_valid.1, ex_valid.2)
  ∧ ∃ valid_boxes,
      ex_valid.1 = [valid_boxes]
      ∧ ex_valid.2 = [filter (not_background 3) (mjoin ex_label_pred)]
      ∧ length valid_boxes
        = length (filter (not_background 3) (mjoin ex_label_pred)).
Proof.
  assert (Forall (Forall (λ scores : list (scalar Z),
            argmax scores = Some (Z.of_nat 3 - 1)%Z)) ex_background_pred) as H1
    by (repeat constructor).
  assert (get_valid_predictions ex_roi.1 ex_delta_pred ex_label_pred 3
          = Some (ex_valid.1, ex_valid.2)) as H2 by (vm_compute; reflexivity).
  exact (conj H1 (conj
    (proj2 (get_valid_predictions_discards_background
              ex_roi.1 ex_delta_pred ex_background_pred 3) H1)
    (conj H2
       (proj1 (get_valid_predictions_discards_background
                 ex_roi.1 ex_delta_pred ex_label_pred 3)
          ex_valid.1 ex_valid.2 H2)))).
Defined.

Lemma RoIPooling_batch_isolation_witness :
  has_shape3 (total_pos_bboxes ex_hp + total_neg_bboxes ex_hp) 4 ex_roi_batch
  ∧ RoIPooling_call ex_hp ex_feature_maps ex_roi_batch = Some ex_pooled_batch
  ∧ ex_feature_maps !! 1 = Some [[[fx 5]; [fx 6]]; [[fx 7]; [fx 8]]]
  ∧ ex_roi_batch !! 1 = Some [fbox 100 0 200 100; fbox 0 0 0 0]
  ∧ ∃ pooled,
      ex_pooled_batch !! 1 = Some pooled
      ∧ pooled
        = (λ box, crop_box [[[fx 5]; [fx 6]]; [[fx 7]; [fx 8]]] box
                    (pooling_size ex_hp))
            <$> [fbox 100 0 200 100; fbox 0 0 0 0]
      ∧ RoIPooling_call ex_hp [[[[fx 5]; [fx 6]]; [[fx 7]; [fx 8]]]]
          [[fbox 100 0 200 100; fbox 0 0 0 0]]
        = Some [pooled]
      ∧ ∀ feature_map' out',
          feature_map' !! 1 = Some [[[fx 5]; [fx 6]]; [[fx 7]; [fx 8]]] →
          RoIPooling_call ex_hp feature_map' ex_roi_batch = Some out' →
          out' !! 1 = Some pooled.
Proof.
  assert (has_shape3 (total_pos_bboxes ex_hp + total_neg_bboxes ex_hp) 4
            ex_roi_batch) as H1 by (repeat constructor).
  assert (RoIPooling_call ex_hp ex_feature_maps ex_roi_batch
          = Some ex_pooled_batch) as H2 by (vm_compute; reflexivity).
  assert (ex_feature_maps !! 1 = Some [[[fx 5]; [fx 6]]; [[fx 7]; [fx 8]]])
    as H3 by reflexivity.
  assert (ex_roi_batch !! 1 = Some [fbox 100 0 200 100; fbox 0 0 0 0])
    as H4 by reflexivity.
  exact (conj H1 (conj H2 (conj H3 (conj H4
    (RoIPooling_batch_isolation ex_hp ex_feature_maps ex_roi_batch
       ex_pooled_batch 1 [[[fx 5]; [fx 6]]; [[fx 7]; [fx 8]]]
       [fbox 100 0 200 100; fbox 0 0 0 0] H1 H2 H3 H4))))).
Defined.

(** On the batch of two images the crops of the second image are features
    of the second feature map, and they stay what they are when the first
    feature map is replaced. *)
Lemma scenario_batch_isolation :
  ex_pooled_batch !! 1 = Some [[[[fx 7]; [fx 7]]]; [[[fx 5]; [fx 5]]]]
  ∧ (pooled ← RoIPooling_call ex_hp
                ([[[fx 0]; [fx 0]]; [[fx 0]; [fx 0]]] :: drop 1 ex_feature_maps)
                ex_roi_batch;
     pooled !! 1)
    = ex_pooled_batch !! 1.
Proof. split; vm_compute; reflexivity. Qed.



Lemma nms_cardinality_witness :
  (∀ c d : list (scalar Z), iou c d = iou d c)
  ∧ RoIBBox_nms ex_hp ex_rpn_bbox_deltas ex_rpn_labels ex_anchors
    = Some ex_nms_bboxes
  ∧ ex_nms_bboxes !! 0 = Some (ex_nms_bboxes !!! 0)
  ∧ ∃ boxes scores kept,
      kept = nms_survivors (nms_topn ex_hp) (nms_topn ex_hp) boxes scores
      ∧ kept ⊆ mjoin boxes
      ∧ length kept ≤ nms_topn ex_hp
      ∧ ex_nms_bboxes !!! 0
        = kept ++ replicate (nms_topn ex_hp - length kept) zero_box
      ∧ length (ex_nms_bboxes !!! 0) = nms_topn ex_hp
      ∧ ∀ i j ci cj, i ≠ j → kept !! i = Some ci → kept !! j = Some cj →
          rltb iou_threshold (iou ci cj) = false.
Proof.
  assert (RoIBBox_nms ex_hp ex_rpn_bbox_deltas ex_rpn_labels ex_anchors
          = Some ex_nms_bboxes) as H1 by (vm_compute; reflexivity).
  assert (ex_nms_bboxes !! 0 = Some (ex_nms_bboxes !!! 0)) as H2
    by (vm_compute; reflexivity).
  exact (conj Z_iou_sym (conj H1 (conj H2
    (nms_cardinality ex_hp ex_rpn_bbox_deltas ex_rpn_labels ex_anchors
       ex_nms_bboxes 0 (ex_nms_bboxes !!! 0) Z_iou_sym H1 H2)))).
Defined.

Lemma outputs_gradient_blocked_witness :
  RoIBBox_call ex_hp ex_rpn_bbox_deltas ex_rpn_labels ex_anchors ex_gt_boxes
    = Some (ex_roi.1, ex_roi.2)
  ∧ Forall (Forall (Forall (λ x : scalar Z, tangent x = rzero))) ex_roi.1
  ∧ RoIDelta_call ex_hp ex_roi.1 ex_gt_boxes ex_gt_labels ex_roi.2
    = Some (ex_targets.1, ex_targets.2)
  ∧ Forall (Forall (Forall (λ x : scalar Z, tangent x = rzero))) ex_targets.1.
Proof.
  assert (RoIBBox_call ex_hp ex_rpn_bbox_deltas ex_rpn_labels ex_anchors
            ex_gt_boxes = Some (ex_roi.1, ex_roi.2)) as H1
    by (vm_compute; reflexivity).
  assert (RoIDelta_call ex_hp ex_roi.1 ex_gt_boxes ex_gt_labels ex_roi.2
          = Some (ex_targets.1, ex_targets.2)) as H2
    by (vm_compute; reflexivity).
  exact (conj H1 (conj
    (proj1 (outputs_gradient_blocked ex_hp) _ _ _ _ _ _ H1)
    (conj H2 (proj2 (outputs_gradient_blocked ex_hp) _ _ _ _ _ _ H2)))).
Defined.

Lemma RoIBBox_call_anchor_count_mismatch_witness :
  length (take 8 ex_rpn_bbox_deltas) ≠ shape0 ex_anchors * shape1 ex_anchors * 4
  ∧ RoIBBox_call ex_hp (take 8 ex_rpn_bbox_deltas) ex_rpn_labels ex_anchors
      ex_gt_boxes = None
  ∧ length (take 4 ex_rpn_bbox_deltas) = shape0 ex_anchors * 1 * 1 * (1 * 4)
  ∧ 0 < shape0 ex_anchors
  ∧ 1 * 1 * 1 ≠ shape1 ex_anchors
  ∧ RoIBBox_call ex_hp (take 4 ex_rpn_bbox_deltas) ex_rpn_labels ex_anchors
      ex_gt_boxes = None.
Proof.
  assert (length (take 8 ex_rpn_bbox_deltas)
          ≠ shape0 ex_anchors * shape1 ex_anchors * 4) as H1
    by (vm_compute; lia).
  assert (length (take 4 ex_rpn_bbox_deltas)
          = shape0 ex_anchors * 1 * 1 * (1 * 4)) as H2
    by (vm_compute; reflexivity).
  assert (0 < shape0 ex_anchors) as H3 by (vm_compute; lia).
  assert (1 * 1 * 1 ≠ shape1 ex_anchors) as H4 by (vm_compute; lia).
  exact (conj H1 (conj
    (proj1 (RoIBBox_call_anchor_count_mismatch ex_hp
              (take 8 ex_rpn_bbox_deltas) ex_rpn_labels ex_anchors ex_gt_boxes)
       H1)
    (conj H2 (conj H3 (conj H4
       (proj2 (RoIBBox_call_anchor_count_mismatch ex_hp
                 (take 4 ex_rpn_bbox_deltas) ex_rpn_labels ex_anchors
                 ex_gt_boxes) 1 1 1 H2 H3 H4)))))).
Defined.

Lemma background_is_last_class_witness :
  1 < total_labels ex_hp
  ∧ gt_labels_map ex_hp 1 ex_gt_labels ex_roi.2 = Some ex_lm
  ∧ (∀ j, 1 ≤ j → [1%Z; 2%Z] !! j ≠ Some 0%Z)
  ∧ get_valid_predictions ex_roi.1 ex_delta_pred ex_label_pred
      (total_labels ex_hp) = Some (ex_valid.1, ex_valid.2)
  ∧ ex_valid.2
    = [filter (λ scores : list (scalar Z),
         argmax scores ≠ Some (Z.of_nat (total_labels ex_hp) - 1)%Z)
         (mjoin ex_label_pred)].
Proof.
  assert (1 < total_labels ex_hp) as H1 by (vm_compute; lia).
  assert (gt_labels_map ex_hp 1 ex_gt_labels ex_roi.2 = Some ex_lm) as H2
    by (vm_compute; reflexivity).
  assert (get_valid_predictions ex_roi.1 ex_delta_pred ex_label_pred
            (total_labels ex_hp) = Some (ex_valid.1, ex_valid.2)) as H3
    by (vm_compute; reflexivity).
  pose proof (background_is_last_class (R:=Z) ex_hp) as (_ & Hdec & Hzero & _).
  refine (conj H1 (conj H2 (conj _ (conj H3 (Hdec _ _ _ _ _ H3))))).
  intros j Hj.
  exact (proj1 (Hzero H1) 1 ex_gt_labels ex_roi.2 ex_lm 0 [1%Z; 2%Z] [0%Z] j
           H2 eq_refl eq_refl Hj).
Defined.

(** With the one class [0], the class [0] is the background of both: the
    negative slot of the image is labelled [0], and the proposal whose
    arg-max class is [0] is discarded. *)
Lemma background_is_class_zero_with_one_class :
  total_labels ex_hp_one_class = 1
  ∧ gt_labels_map ex_hp_one_class 1 ex_one_class_labels [[0%Z]]
    = Some [[0%Z; 0%Z]]
  ∧ slot [[0%Z; 0%Z]] 0 (total_pos_bboxes ex_hp_one_class) = Some 0%Z
  ∧ argmax_axis2 ex_one_class_label_pred = Some [[0%Z]]
  ∧ get_valid_predictions [[fbox 0 0 100 100]] ex_one_class_delta_pred
      ex_one_class_label_pred (total_labels ex_hp_one_class)
    = Some ([[]], [[]]).
Proof. split_and!; vm_compute; reflexivity. Qed.

Lemma Z_decode_length (a d : list (scalar Z)) :
  length a = 4 → length d = 4 → length (decode a d) = 4.
Proof. intros Ha Hd. simpl. unfold Z_decode. rewrite length_zip_with. lia. Qed.

Lemma Z_encode_length (r g : list (scalar Z)) :
  length r = 4 → length g = 4 → length (encode r g) = 4.
Proof. intros Hr Hg. simpl. unfold Z_encode. rewrite length_zip_with. lia. Qed.

Lemma RoIBBox_call_returns_iff_witness :
  RoIBBox_nms ex_hp ex_rpn_bbox_deltas ex_rpn_labels ex_anchors
    = Some ex_nms_bboxes
  ∧ get_selected_indices ex_nms_bboxes ex_gt_boxes
      (total_pos_bboxes ex_hp) (total_neg_bboxes ex_hp)
    = ([[0%Z]], [[1%Z]], [[0%Z]])
  ∧ (is_Some (RoIBBox_call ex_hp ex_rpn_bbox_deltas ex_rpn_labels ex_anchors
                ex_gt_boxes)
     ↔ length [[0%Z]] = shape0 ex_anchors
       ∧ Forall (Forall (λ k, (0 ≤ k < Z.of_nat (nms_topn ex_hp))%Z)) [[0%Z]]).
Proof.
  assert (RoIBBox_nms ex_hp ex_rpn_bbox_deltas ex_rpn_labels ex_anchors
          = Some ex_nms_bboxes) as H1 by (vm_compute; reflexivity).
  assert (get_selected_indices ex_nms_bboxes ex_gt_boxes
            (total_pos_bboxes ex_hp) (total_neg_bboxes ex_hp)
          = ([[0%Z]], [[1%Z]], [[0%Z]])) as H2 by (vm_compute; reflexivity).
  exact (conj H1 (conj H2
    (RoIBBox_call_returns_iff ex_hp ex_rpn_bbox_deltas ex_rpn_labels ex_anchors
       ex_gt_boxes ex_nms_bboxes [[0%Z]] [[1%Z]] [[0%Z]] H1 H2))).
Defined.

Lemma RoIDelta_call_shape_witness :
  RoIDelta_call ex_hp ex_roi.1 ex_gt_boxes ex_gt_labels ex_roi.2
    = Some (ex_targets.1, ex_targets.2)
  ∧ (length ex_targets.1 = shape0 ex_roi.1
     ∧ has_shape3 (total_pos_bboxes ex_hp + total_neg_bboxes ex_hp)
         (total_labels ex_hp * 4) ex_targets.1
     ∧ length ex_targets.2 = shape0 ex_roi.1
     ∧ has_shape3 (total_pos_bboxes ex_hp + total_neg_bboxes ex_hp)
         (total_labels ex_hp) ex_targets.2).
Proof.
  assert (RoIDelta_call ex_hp ex_roi.1 ex_gt_boxes ex_gt_labels ex_roi.2
          = Some (ex_targets.1, ex_targets.2)) as H1
    by (vm_compute; reflexivity).
  exact (conj H1
    (RoIDelta_call_shape ex_hp ex_roi.1 ex_gt_boxes ex_gt_labels ex_roi.2
       ex_targets.1 ex_targets.2 H1)).
Defined.

Lemma RoIDelta_call_label_out_of_range_witness :
  Forall (λ r : list Z, length r = 1) ex_roi.2
  ∧ gt_labels_map ex_hp (shape0 ex_roi.1) ex_padded_labels ex_roi.2
    = Some ex_padded_lm
  ∧ slot ex_padded_lm 0 0 = Some (-1)%Z
  ∧ ¬ (0 ≤ -1 < Z.of_nat (total_labels ex_hp))%Z
  ∧ RoIDelta_call ex_hp ex_roi.1 ex_gt_boxes ex_padded_labels ex_roi.2 = None.
Proof.
  assert (Forall (λ r : list Z, length r = 1) ex_roi.2) as H1
    by (repeat constructor).
  assert (gt_labels_map ex_hp (shape0 ex_roi.1) ex_padded_labels ex_roi.2
          = Some ex_padded_lm) as H2 by (vm_compute; reflexivity).
  assert (slot ex_padded_lm 0 0 = Some (-1)%Z) as H3
    by (vm_compute; reflexivity).
  assert (¬ (0 ≤ -1 < Z.of_nat (total_labels ex_hp))%Z) as H4 by lia.
  exact (conj H1 (conj H2 (conj H3 (conj H4
    (RoIDelta_call_label_out_of_range ex_hp ex_roi.1 ex_gt_boxes
       ex_padded_labels ex_roi.2 1 ex_padded_lm 0 0 (-1)%Z H1 H2 H3 H4))))).
Defined.

Lemma RoIPooling_call_returns_iff_witness :
  has_shape3 2 4 ex_roi.1
  ∧ (Z.of_nat (total_pos_bboxes ex_hp + total_neg_bboxes ex_hp) < 2 ^ 31)%Z
  ∧ (is_Some (RoIPooling_call ex_hp ex_feature_map ex_roi.1)
     ↔ positive_image_dims ex_feature_map
       ∧ positive_crop_size (pooling_size ex_hp)
       ∧ (length ex_roi.1 = 0
          ∨ (2 = total_pos_bboxes ex_hp + total_neg_bboxes ex_hp
             ∧ (2 = 0 ∨ length ex_roi.1 ≤ length ex_feature_map)))).
Proof.
  assert (has_shape3 2 4 ex_roi.1) as H1 by (repeat constructor).
  assert (Z.of_nat (total_pos_bboxes ex_hp + total_neg_bboxes ex_hp) < 2 ^ 31)%Z
    as H2 by (vm_compute; reflexivity).
  exact (conj H1 (conj H2
    (RoIPooling_call_returns_iff ex_hp ex_feature_map ex_roi.1 2 H1 H2))).
Defined.

Lemma get_valid_predictions_returns_iff_witness :
  has_shape3 2 4 ex_roi.1
  ∧ has_shape3 2 12 ex_delta_pred
  ∧ has_shape3 2 3 ex_label_pred
  ∧ length ex_roi.1 = length ex_label_pred
  ∧ length ex_delta_pred = length ex_label_pred
  ∧ 0 < 3
  ∧ (is_Some (get_valid_predictions ex_roi.1 ex_delta_pred ex_label_pred 3)
     ↔ Forall (λ scores : list (scalar Z), ∀ c, argmax scores = Some c →
                 c ≠ (Z.of_nat 3 - 1)%Z →
                 12 = 3 * 4 ∧ (c < Z.of_nat 3)%Z)
         (mjoin ex_label_pred)).
Proof.
  assert (has_shape3 2 4 ex_roi.1) as H1 by (repeat constructor).
  assert (has_shape3 2 12 ex_delta_pred) as H2 by (repeat constructor).
  assert (has_shape3 2 3 ex_label_pred) as H3 by (repeat constructor).
  assert (length ex_roi.1 = length ex_label_pred) as H4 by reflexivity.
  assert (length ex_delta_pred = length ex_label_pred) as H5 by reflexivity.
  assert (0 < 3) as H6 by lia.
  exact (conj H1 (conj H2 (conj H3 (conj H4 (conj H5 (conj H6
    (get_valid_predictions_returns_iff ex_roi.1 ex_delta_pred ex_label_pred
       3 2 12 3 H1 H2 H3 H4 H5 H6))))))).
Defined.

Lemma RoIBBox_feeds_RoIPooling_witness :
  (∀ a d : list (scalar Z), length a = 4 → length d = 4 →
     length (decode a d) = 4)
  ∧ Forall (Forall (λ a : list (scalar Z), length a = 4)) ex_anchors
  ∧ RoIBBox_nms ex_hp ex_rpn_bbox_deltas ex_rpn_labels ex_anchors
    = Some ex_nms_bboxes
  ∧ get_selected_indices ex_nms_bboxes ex_gt_boxes
      (total_pos_bboxes ex_hp) (total_neg_bboxes ex_hp)
    = ([[0%Z]], [[1%Z]], [[0%Z]])
  ∧ Forall (λ idx : list Z, length idx = total_pos_bboxes ex_hp) [[0%Z]]
  ∧ RoIBBox_call ex_hp ex_rpn_bbox_deltas ex_rpn_labels ex_anchors ex_gt_boxes
    = Some (ex_roi.1, ex_roi.2)
  ∧ shape0 ex_anchors ≤ length ex_feature_map
  ∧ positive_image_dims ex_feature_map
  ∧ positive_crop_size (pooling_size ex_hp)
  ∧ is_Some (RoIPooling_call ex_hp ex_feature_map ex_roi.1).
Proof.
  assert (Forall (Forall (λ a : list (scalar Z), length a = 4)) ex_anchors)
    as H2 by (repeat constructor).
  assert (RoIBBox_nms ex_hp ex_rpn_bbox_deltas ex_rpn_labels ex_anchors
          = Some ex_nms_bboxes) as H3 by (vm_compute; reflexivity).
  assert (get_selected_indices ex_nms_bboxes ex_gt_boxes
            (total_pos_bboxes ex_hp) (total_neg_bboxes ex_hp)
          = ([[0%Z]], [[1%Z]], [[0%Z]])) as H4 by (vm_compute; reflexivity).
  assert (Forall (λ idx : list Z, length idx = total_pos_bboxes ex_hp) [[0%Z]])
    as H5 by (repeat constructor).
  assert (RoIBBox_call ex_hp ex_rpn_bbox_deltas ex_rpn_labels ex_anchors
            ex_gt_boxes = Some (ex_roi.1, ex_roi.2)) as H6
    by (vm_compute; reflexivity).
  assert (shape0 ex_anchors ≤ length ex_feature_map) as H7
    by (vm_compute; lia).
  assert (positive_image_dims ex_feature_map) as H8
    by (apply (bool_decide_unpack _); vm_compute; exact I).
  assert (positive_crop_size (pooling_size ex_hp)) as H9
    by (apply (bool_decide_unpack _); vm_compute; exact I).
  exact (conj Z_decode_length (conj H2 (conj H3 (conj H4 (conj H5 (conj H6
    (conj H7 (conj H8 (conj H9
      (match
         RoIBBox_feeds_RoIPooling ex_hp ex_rpn_bbox_deltas ex_rpn_labels
           ex_anchors ex_gt_boxes ex_feature_map ex_nms_bboxes [[0%Z]] [[1%Z]]
           [[0%Z]] ex_roi.1 ex_roi.2 Z_decode_length H2 H3 H4 H5 H6 H7 H8 H9
       with
       | ex_intro _ pooled (conj Hp _) => mk_is_Some _ pooled Hp
       end)))))))))).
Defined.

Lemma ex_gt_indices_valid b idx (boxes : list (list (scalar Z))) labels :
  [[0%Z]] !! b = Some idx → ex_gt_boxes !! b = Some boxes →
  ex_gt_labels !! b = Some labels →
  Forall (λ k, (0 ≤ k < Z.of_nat (length boxes))%Z
               ∧ ∃ l, index labels k = Some l
                      ∧ (0 ≤ l < Z.of_nat (total_labels ex_hp))%Z) idx.
Proof.
  destruct b as [|b]; [|done]. intros [= <-] [= <-] [= <-].
  repeat constructor; [simpl; lia..|].
  exists 1%Z. split; [done|simpl; lia].
Qed.

Lemma RoIDelta_assignment_witness :
  (∀ x : Z, radd rzero x = x)
  ∧ rltb (R:=Z) rzero rzero = false
  ∧ Forall (λ r : list Z, length r = total_pos_bboxes ex_hp) ex_roi.2
  ∧ RoIDelta_call ex_hp ex_roi.1 ex_gt_boxes ex_gt_labels ex_roi.2
    = Some (ex_targets.1, ex_targets.2)
  ∧ (∃ idx image_labels image_boxes rrow,
       ex_roi.2 !! 0 = Some idx
       ∧ ex_gt_labels !! 0 = Some image_labels
       ∧ ex_gt_boxes !! 0 = Some image_boxes
       ∧ ex_roi.1 !! 0 = Some rrow
       ∧ (∀ j, total_pos_bboxes ex_hp ≤ j →
            j < total_pos_bboxes ex_hp + total_neg_bboxes ex_hp →
            slot ex_targets.2 0 j
            = Some (<[total_labels ex_hp - 1 := 1%Z]>
                      (replicate (total_labels ex_hp) 0%Z))
            ∧ slot ex_targets.1 0 j
              = Some (replicate (total_labels ex_hp * 4) fzero))
       ∧ (∀ j, j < total_pos_bboxes ex_hp →
            ∃ k label gbox rbox,
              idx !! j = Some k
              ∧ index image_labels k = Some label
              ∧ index image_boxes k = Some gbox
              ∧ rrow !! j = Some rbox
              ∧ (0 ≤ label < Z.of_nat (total_labels ex_hp))%Z
              ∧ slot ex_targets.2 0 j
                = Some (<[Z.to_nat label := 1%Z]>
                          (replicate (total_labels ex_hp) 0%Z))
              ∧ slot ex_targets.1 0 j
                = Some (mjoin (<[Z.to_nat label :=
                                   stop_gradient_box (target_delta rbox gbox)]>
                                 (replicate (total_labels ex_hp) zero_box)))))
  ∧ is_Some (RoIDelta_call ex_hp ex_roi.1 ex_gt_boxes ex_gt_labels ex_roi.2).
Proof.
  assert (rltb (R:=Z) rzero rzero = false) as H0 by reflexivity.
  assert (Forall (λ r : list Z, length r = total_pos_bboxes ex_hp) ex_roi.2)
    as H1 by (repeat constructor).
  assert (RoIDelta_call ex_hp ex_roi.1 ex_gt_boxes ex_gt_labels ex_roi.2
          = Some (ex_targets.1, ex_targets.2)) as H2
    by (vm_compute; reflexivity).
  assert (0 < shape0 ex_roi.1) as H3 by (vm_compute; lia).
  assert (0 < total_labels ex_hp) as H4 by (vm_compute; lia).
  assert (has_shape3 (total_pos_bboxes ex_hp + total_neg_bboxes ex_hp) 4
            ex_roi.1) as H5 by (repeat constructor).
  assert (Forall (Forall (λ g : list (scalar Z), length g = 4)) ex_gt_boxes)
    as H6 by (repeat constructor).
  pose proof (RoIDelta_assignment Z.add_0_l ex_hp ex_roi.1 ex_gt_boxes
                ex_gt_labels ex_roi.2 H0 H1) as [Hslots Hreturns].
  exact (conj Z.add_0_l (conj H0 (conj H1 (conj H2
    (conj (Hslots ex_targets.1 ex_targets.2 H2 0 H3)
       (Hreturns H4 Z_encode_length H5 H6 eq_refl eq_refl eq_refl
          ex_gt_indices_valid)))))).
Defined.

Lemma RoIBBox_feeds_RoIDelta_witness :
  0 < total_labels ex_hp
  ∧ Forall (Forall (λ a : list (scalar Z), length a = 4)) ex_anchors
  ∧ Forall (Forall (λ g : list (scalar Z), length g = 4)) ex_gt_boxes
  ∧ length ex_gt_boxes = shape0 ex_anchors
  ∧ length ex_gt_labels = shape0 ex_anchors
  ∧ RoIBBox_nms ex_hp ex_rpn_bbox_deltas ex_rpn_labels ex_anchors
    = Some ex_nms_bboxes
  ∧ get_selected_indices ex_nms_bboxes ex_gt_boxes
      (total_pos_bboxes ex_hp) (total_neg_bboxes ex_hp)
    = ([[0%Z]], [[1%Z]], [[0%Z]])
  ∧ Forall (λ idx : list Z, length idx = total_pos_bboxes ex_hp) [[0%Z]]
  ∧ length [[0%Z]] = shape0 ex_anchors
  ∧ RoIBBox_call ex_hp ex_rpn_bbox_deltas ex_rpn_labels ex_anchors ex_gt_boxes
    = Some (ex_roi.1, ex_roi.2)
  ∧ is_Some (RoIDelta_call ex_hp ex_roi.1 ex_gt_boxes ex_gt_labels ex_roi.2).
Proof.
  assert (0 < total_labels ex_hp) as H1 by (vm_compute; lia).
  assert (Forall (Forall (λ a : list (scalar Z), length a = 4)) ex_anchors)
    as H2 by (repeat constructor).
  assert (Forall (Forall (λ g : list (scalar Z), length g = 4)) ex_gt_boxes)
    as H3 by (repeat constructor).
  assert (length ex_gt_boxes = shape0 ex_anchors) as H4 by reflexivity.
  assert (length ex_gt_labels = shape0 ex_anchors) as H5 by reflexivity.
  assert (RoIBBox_nms ex_hp ex_rpn_bbox_deltas ex_rpn_labels ex_anchors
          = Some ex_nms_bboxes) as H6 by (vm_compute; reflexivity).
  assert (get_selected_indices ex_nms_bboxes ex_gt_boxes
            (total_pos_bboxes ex_hp) (total_neg_bboxes ex_hp)
          = ([[0%Z]], [[1%Z]], [[0%Z]])) as H7 by (vm_compute; reflexivity).
  assert (Forall (λ idx : list Z, length idx = total_pos_bboxes ex_hp) [[0%Z]])
    as H8 by (repeat constructor).
  assert (length [[0%Z]] = shape0 ex_anchors) as H9 by reflexivity.
  assert (RoIBBox_call ex_hp ex_rpn_bbox_deltas ex_rpn_labels ex_anchors
            ex_gt_boxes = Some (ex_roi.1, ex_roi.2)) as H10
    by (vm_compute; reflexivity).
  exact (conj H1 (conj H2 (conj H3 (conj H4 (conj H5 (conj H6 (conj H7
    (conj H8 (conj H9 (conj H10
      (RoIBBox_feeds_RoIDelta ex_hp ex_rpn_bbox_deltas ex_rpn_labels ex_anchors
         ex_gt_boxes ex_gt_labels ex_nms_bboxes [[0%Z]] [[1%Z]] [[0%Z]]
         ex_roi.1 ex_roi.2 H1 Z_decode_length Z_encode_length H2 H3 H4 H5 H6
         H7 H8 H9 H8 ex_gt_indices_valid H10))))))))))).
Defined.

Lemma get_dummy_initializer_returns_iff_witness :
  (0 ≤ 3 < 2 ^ 20)%Z ∧ (0 ≤ 1 < 2 ^ 20)%Z ∧ (0 ≤ stride ex_mp)%Z
  ∧ (0 ≤ anchor_count ex_mp < 2 ^ 20)%Z
  ∧ (is_Some (get_dummy_initializer 3 1 ex_mp "training")
     ↔ stride ex_mp ≠ 0%Z
       ∧ ("training" = "training" →
          (0 < Z.of_nat (total_labels ex_mp) < 2 ^ 31)%Z))
  ∧ ∀ dummy, get_dummy_initializer 3 1 ex_mp "training" = Some dummy →
      length dummy = if decide ("training" = "training") then 6 else 3.
Proof.
  assert (0 ≤ 3 < 2 ^ 20)%Z as H1 by lia.
  assert (0 ≤ 1 < 2 ^ 20)%Z as H2 by lia.
  assert (0 ≤ stride ex_mp)%Z as H3 by (vm_compute; discriminate).
  assert (0 ≤ anchor_count ex_mp < 2 ^ 20)%Z as H4 by (simpl; lia).
  exact (conj H1 (conj H2 (conj H3 (conj H4
    (get_dummy_initializer_returns_iff 3 1 ex_mp "training" H1 H2 H3 H4))))).
Defined.

Lemma dummy_fits_RoIBBox_witness :
  get_dummy_initializer 3 1 ex_mp "training"
    = Some [TensorSpec [1; 3; 1; 3]%Z float32; TensorSpec [1; 3; 4]%Z float32;
            TensorSpec [1; 1; 4]%Z float32; TensorSpec [1; 1]%Z int32;
            TensorSpec [1; 3; 1; 4]%Z float32; TensorSpec [1; 3; 1; 1]%Z int32]
  ∧ [1; 3; 4]%Z = [Z.of_nat (shape0 ex_anchors); Z.of_nat (shape1 ex_anchors); 4%Z]
  ∧ Z.of_nat (length ex_rpn_bbox_deltas) = numel [1; 3; 1; 4]%Z
  ∧ Z.of_nat (length ex_rpn_labels) = numel [1; 3; 1; 1]%Z
  ∧ is_Some (reshape3 (shape0 ex_anchors) (shape1 ex_anchors) 4
               ex_rpn_bbox_deltas)
  ∧ is_Some (reshape3 (shape0 ex_anchors) (shape1 ex_anchors) 1 ex_rpn_labels).
Proof.
  assert (get_dummy_initializer 3 1 ex_mp "training"
    = Some [TensorSpec [1; 3; 1; 3]%Z float32; TensorSpec [1; 3; 4]%Z float32;
            TensorSpec [1; 1; 4]%Z float32; TensorSpec [1; 1]%Z int32;
            TensorSpec [1; 3; 1; 4]%Z float32; TensorSpec [1; 3; 1; 1]%Z int32])
    as H1 by (vm_compute; reflexivity).
  assert ([1; 3; 4]%Z
          = [Z.of_nat (shape0 ex_anchors); Z.of_nat (shape1 ex_anchors); 4%Z])
    as H2 by reflexivity.
  assert (Z.of_nat (length ex_rpn_bbox_deltas) = numel [1; 3; 1; 4]%Z) as H4
    by reflexivity.
  assert (Z.of_nat (length ex_rpn_labels) = numel [1; 3; 1; 1]%Z) as H5
    by reflexivity.
  exact (conj H1 (conj H2 (conj H4 (conj H5
    (dummy_fits_RoIBBox 3 1 ex_mp _ _ _ _ _ _ ex_rpn_bbox_deltas ex_rpn_labels
       ex_anchors H1 H2 H4 H5))))).
Defined.

Lemma generator_cycles_witness :
  ex_dataset ≠ []
  ∧ length (take_items ex_get_step_data 2 3
              (generator ex_dataset ex_mp (λ x : Z, x))) = 3.
Proof.
  assert (ex_dataset ≠ []) as H1 by discriminate.
  exact (conj H1
    (proj1 (generator_cycles ex_get_step_data ex_dataset ex_mp (λ x : Z, x) 3
              H1))).
Defined.

Lemma get_config_round_trip_witness :
  Some (layer_base ex_layer) = Some (layer_base ex_layer)
  ∧ layer_base ex_layer !! "hyper_params" = None
  ∧ from_config (RoIBBox_init Some) (RoIBBox_get_config (λ b, b) ex_layer)
    = Some ex_layer.
Proof.
  assert (Some (layer_base ex_layer) = Some (layer_base ex_layer)) as H1
    by reflexivity.
  assert (layer_base ex_layer !! "hyper_params" = None) as H2
    by (vm_compute; reflexivity).
  exact (conj H1 (conj H2
    (proj1 (get_config_round_trip Some (λ b, b) ex_layer H1 H2)))).
Defined.

Lemma get_model_returns_only_if_witness :
  @get_model ex_forward_pass 3 1 ex_base_model ex_rpn_model ex_mp "training"
    = Some ex_frcnn_model
  ∧ ∃ input_img dummy,
      model_inputs ex_base_model = [input_img]
      ∧ length (model_outputs ex_base_model) = 1
      ∧ length (model_outputs ex_rpn_model) = 2
      ∧ head (model_inputs ex_frcnn_model) = Some input_img
      ∧ unique_names (model_nodes ex_frcnn_model)
      ∧ stride ex_mp ≠ 0%Z
      ∧ ("training" = "training" →
         (0 < Z.of_nat (total_labels ex_mp) < 2 ^ 31)%Z)
      ∧ get_dummy_initializer 3 1 ex_mp "training" = Some dummy
      ∧ Forall2 admits (model_inputs ex_frcnn_model) dummy
      ∧ @forward_pass ex_forward_pass ex_frcnn_model dummy = Some ().
Proof.
  assert (@get_model ex_forward_pass 3 1 ex_base_model ex_rpn_model ex_mp
            "training"
          = Some ex_frcnn_model) as H1 by (vm_compute; reflexivity).
  exact (conj H1
    (get_model_returns_only_if 3 1 ex_base_model ex_rpn_model ex_mp "training"
       ex_frcnn_model H1)).
Defined.

Lemma get_model_structure_witness :
  @get_model ex_forward_pass 3 1 ex_base_model ex_rpn_model ex_mp "training"
    = Some ex_frcnn_model
  ∧ model_losses ex_frcnn_model = drop 5 (model_outputs ex_frcnn_model).
Proof.
  assert (@get_model ex_forward_pass 3 1 ex_base_model ex_rpn_model ex_mp
            "training"
          = Some ex_frcnn_model) as H1 by (vm_compute; reflexivity).
  exact (conj H1
    (proj1 (proj2 (proj2
       (get_model_structure 3 1 ex_base_model ex_rpn_model ex_mp "training"
          ex_frcnn_model H1))))).
Defined.
